(** * Risk quantification model engine: a shallow embedding

    The development follows the layout of [app/models] and [app/pipeline]:
    one module per source file, the records of [app/db/dao.py] first.
    Python [int] is [Z]; Python [float] is an exact number ([Q] where the
    code only adds, multiplies and divides, [R] where it calls [math.exp],
    [math.sqrt] or [math.log]); a [dict] is a [gmap]; an exception raised by
    a statement is the [Raise] case of [outcome]. *)

From Stdlib Require Import ZArith QArith Qround Qabs Reals Lra Lia Psatz.
From Stdlib Require Import String Ascii DecimalString Sorted.
From stdpp Require Import gmap strings list fin_maps.

Local Open Scope string_scope.
Local Open Scope Z_scope.

(** ** Exceptions and results *)

Inductive exn : Type :=
  | AttributeError (msg : string)
  | IndexError (msg : string)
  | ZeroDivisionError (msg : string)
  | RecursionError (msg : string)
  | OtherError (msg : string).

(** [str(e)] *)
Definition exn_str (e : exn) : string :=
  match e with
  | AttributeError m | IndexError m | ZeroDivisionError m
  | RecursionError m | OtherError m => m
  end.

Inductive outcome (A : Type) : Type :=
  | Ok (a : A)
  | Raise (e : exn).
Arguments Ok {A} a.
Arguments Raise {A} e.

#[global] Instance outcome_ret : MRet outcome := fun A a => Ok a.

#[global] Instance outcome_bind : MBind outcome := fun A B k m =>
  match m with
  | Ok a => k a
  | Raise e => Raise e
  end.

(** [try: body  except Exception as e: handler(e)] *)
Definition try_except {A} (body : outcome A) (handler : exn -> outcome A) : outcome A :=
  match body with
  | Ok a => Ok a
  | Raise e => handler e
  end.

(** ** Python helpers *)

(** [l[:n]] for an [int] n *)
Definition py_slice_to {A} (n : Z) (l : list A) : list A :=
  if 0 <=? n then firstn (Z.to_nat n) l
  else firstn (Z.to_nat (Z.of_nat (length l) + n)) l.

(** position addressed by [l[i]] in a list of length [len] *)
Definition py_index (len : nat) (i : Z) : outcome nat :=
  if (0 <=? i) && (i <? Z.of_nat len) then Ok (Z.to_nat i)
  else if (- Z.of_nat len <=? i) && (i <? 0) then Ok (Z.to_nat (Z.of_nat len + i))
  else Raise (IndexError "list index out of range").

(** [sorted(l, key=..., reverse=True)] and [l.sort(key=..., reverse=True)]:
    stable and descending; [lt x y] compares the keys of [x] and [y] *)
Fixpoint insert_desc {A} (lt : A -> A -> bool) (x : A) (l : list A) : list A :=
  match l with
  | [] => [x]
  | y :: l' => if lt x y then y :: insert_desc lt x l' else x :: y :: l'
  end.

Definition sorted_desc {A} (lt : A -> A -> bool) (l : list A) : list A :=
  foldr (insert_desc lt) [] l.

Definition by_Z {A} (key : A -> Z) (x y : A) : bool := key x <? key y.

Definition Qltb (a b : Q) : bool :=
  match Qcompare a b with Lt => true | _ => false end.

Definition by_Q {A} (key : A -> Q) (x y : A) : bool := Qltb (key x) (key y).

(** [max(a, b)] and [min(a, b)] return the first argument on a tie *)
Definition py_max (a b : Q) : Q := if Qltb a b then b else a.
Definition py_min (a b : Q) : Q := if Qltb b a then b else a.

(** a [dict] whose iteration order matters: the keys in insertion order
    next to the map itself *)
Record odict (V : Type) := {
  od_keys : list Z;
  od_map : gmap Z V
}.
Arguments od_keys {V} o.
Arguments od_map {V} o.

Definition od_empty {V} : odict V := {| od_keys := []; od_map := ∅ |}.

Definition od_get {V} (o : odict V) (k : Z) : option V := od_map o !! k.

(** [o[k] = v] *)
Definition od_set {V} (k : Z) (v : V) (o : odict V) : odict V :=
  {| od_keys := if decide (is_Some (od_map o !! k)) then od_keys o else od_keys o ++ [k];
     od_map := <[k := v]> (od_map o) |}.

(** [o.values()] *)
Definition od_values {V} (o : odict V) : list V :=
  omap (fun k => od_map o !! k) (od_keys o).

(** threading a state through a list comprehension *)
Fixpoint mapM_state {S A B} (f : A -> S -> outcome (B * S)) (l : list A) (s : S)
  : outcome (list B * S) :=
  match l with
  | [] => Ok ([], s)
  | a :: l' =>
      match f a s with
      | Raise e => Raise e
      | Ok (b, s1) =>
          match mapM_state f l' s1 with
          | Raise e => Raise e
          | Ok (bs, s2) => Ok (b :: bs, s2)
          end
      end
  end.

(** [sum(...)] over integers *)
Definition py_sum (l : list Z) : Z := fold_left Z.add l 0.

(** [str(n)] for an [int] *)
Definition str_of_Z (n : Z) : string := NilZero.string_of_int (Z.to_int n).

(** [round(x, nd)]: nearest multiple of [10^-nd], ties to the even one *)
Definition round_half_even (x : Q) : Z :=
  let f := Qfloor x in
  let d := (x - inject_Z f)%Q in
  match Qcompare d (1 # 2) with
  | Lt => f
  | Gt => f + 1
  | Eq => if Z.even f then f else f + 1
  end.

Definition py_round (x : Q) (nd : nat) : Q :=
  (inject_Z (round_half_even (x * inject_Z (10 ^ Z.of_nat nd))) / inject_Z (10 ^ Z.of_nat nd))%Q.

(** Python helpers over [float]s that go through [math] *)

Definition Rltb (a b : R) : bool := if Rlt_dec a b then true else false.

Definition by_R {A} (key : A -> R) (x y : A) : bool := Rltb (key x) (key y).

Definition py_maxR (a b : R) : R := if Rlt_dec a b then b else a.

(** [sum(...)] over floats *)
Definition py_sumR (l : list R) : R := fold_left Rplus l 0%R.

(** [acc = 0; for r in l: acc += f(r)] *)
Definition sumf {A} (f : A -> R) (l : list A) : R :=
  fold_left (fun acc r => (acc + f r)%R) l 0%R.

Definition R_half_even (x : R) : Z :=
  let f := Zfloor x in
  let d := (x - IZR f)%R in
  if Rlt_dec d (1 / 2) then f
  else if Rlt_dec (1 / 2) d then f + 1
  else if Z.even f then f else f + 1.

(** [round(x, nd)] *)
Definition py_roundR (x : R) (nd : nat) : R :=
  (IZR (R_half_even (x * 10 ^ nd)) / 10 ^ nd)%R.

(** ** app/db/dao.py: the records the models read *)

Module Dao.

Record RiskEvent := {
  re_id : option Z;
  re_mission_id : Z;
  re_name : string;
  re_hazard_type : string;
  re_desc : string;
  likelihood : Z;
  severity : Z
}.

Record FMEAItem := {
  fi_id : option Z;
  fi_mission_id : Z;
  fi_system : string;
  fi_failure_mode : string;
  fi_effect : string;
  fi_cause : string;
  fi_control : string;
  fi_S : Z;
  fi_O : Z;
  fi_D : Z
}.

(** node ids are the keys the store assigns, never [None] once read back *)
Record FTANode := {
  fn_id : Z;
  fn_mission_id : Z;
  fn_name : string;
  node_type : string;
  gate_type : string;
  probability : option Q;
  fn_severity : option Z;
  fn_desc : string
}.

Record RiskDataset := {
  rd_id : option Z;
  rd_mission_id : Z;
  rd_created_at : string;
  dataset_json : string;
  rd_note : string
}.

Record Indicator := {
  ind_id : Z;
  ind_name : string;
  distribution_type : string;
  dist_params_json : string;
  weight : R
}.

(** a parsed [dist_params_json] / ["dist_params"] dict *)
Record DistParams := {
  p_mu : option R;
  p_sigma : option R;
  p_low : option R;
  p_mode : option R;
  p_high : option R;
  p_values : option (list R);
  p_probs : option (list R)
}.

(** one entry of ["indicators"] or ["fused_indicators"] in a parsed dataset *)
Record DatasetEntry := {
  e_indicator_id : option Z;
  e_name : option string;
  e_value : option R;
  e_weight : option R;
  e_mu : option R;
  e_sigma : option R;
  e_distribution_type : option string;
  e_dist_params : option DistParams
}.

Record DatasetDoc := {
  doc_indicators : option (list DatasetEntry);
  doc_fused_indicators : option (list DatasetEntry)
}.

(** [json.loads], [float(str)] and [traceback.format_exc()]: library
    functions, the first two return or raise *)
Record PyLib := {
  loads_dataset : string -> outcome DatasetDoc;
  loads_dist_params : string -> outcome DistParams;
  float_of_str : string -> outcome R;
  format_exc : exn -> string
}.

Definition newline : string := String (ascii_of_nat 10) EmptyString.

Record IndicatorValue := {
  iv_mission_id : Z;
  iv_indicator_id : Z;
  iv_value : string
}.

(** The record store the models query. It is an external collaborator:
    each query either returns rows or raises. *)
Record Store := {
  risk_events_by_mission : option Z -> outcome (list RiskEvent);
  fmea_items_by_mission : option Z -> outcome (list FMEAItem);
  fta_nodes_by_mission : Z -> outcome (list FTANode);
  fta_children : Z -> outcome (list Z);
  fta_top_node : Z -> outcome (option FTANode);
  latest_dataset_by_mission : Z -> outcome (option RiskDataset);
  all_indicators : outcome (list Indicator);
  indicator_values_by_mission : Z -> outcome (list IndicatorValue)
}.

End Dao.

(** ** app/models/types.py *)

Module Types.

Inductive RiskLevel := LOW | MEDIUM | HIGH | EXTREME.

Definition value (l : RiskLevel) : string :=
  match l with
  | LOW => "Low" | MEDIUM => "Medium" | HIGH => "High" | EXTREME => "Extreme"
  end.

(** [RiskLevel.from_score] *)
Definition from_score (r : Z) : RiskLevel :=
  if r <=? 4 then LOW
  else if r <=? 9 then MEDIUM
  else if r <=? 16 then HIGH
  else EXTREME.

(** [FMEARiskLevel.from_rpn] (the enum has the same four members) *)
Definition from_rpn (rpn : Z) : RiskLevel :=
  if rpn <=? 100 then LOW
  else if rpn <=? 300 then MEDIUM
  else if rpn <=? 600 then HIGH
  else EXTREME.

(** position of a level on the scale Low < Medium < High < Extreme *)
Definition level_rank (l : RiskLevel) : nat :=
  match l with LOW => 0 | MEDIUM => 1 | HIGH => 2 | EXTREME => 3 end%nat.

Record RiskEventResult := {
  rer_id : Z;
  rer_name : string;
  rer_likelihood : Z;
  rer_severity : Z;
  risk_score : Z;
  rer_level : string;
  rer_hazard_type : string;
  rer_desc : string
}.

Record RiskMatrixResult := {
  rm_events : list RiskEventResult;
  rm_top_n : list RiskEventResult;
  matrix_data : list (list Z);
  matrix_events : gmap string (list Z);
  rm_total_risk : Z;
  rm_avg_risk : Q;
  rm_level_counts : gmap string Z
}.

Record FMEAItemResult := {
  fir_id : option Z;
  fir_system : string;
  fir_failure_mode : string;
  fir_effect : string;
  fir_cause : string;
  fir_control : string;
  fir_S : Z;
  fir_O : Z;
  fir_D : Z;
  RPN : Z;
  fir_level : string
}.

Record FMEAResult := {
  fm_items : list FMEAItemResult;
  fm_top_n : list FMEAItemResult;
  total_rpn : Z;
  avg_rpn : Q;
  fm_level_counts : gmap string Z
}.

Record SensitivityFactor := {
  factor_name : string;
  base_value : Q;
  minus_value : Q;
  plus_value : Q;
  sf_impact_score : Q;
  sf_event_id : option Z;
  param_type : string
}.

Record SensitivityResult := {
  sr_model_type : string;
  global_indicator : string;
  base_global_value : Q;
  factors : list SensitivityFactor;
  sr_top_n : list SensitivityFactor
}.

End Types.

(** ** app/models/base.py *)

Module Base.

(** the [params] dict: every key a model reads, each absent or present with
    a value of the type its [ParamSpec] declares *)
Record Params := {
  top_n : option Z;
  analysis_type : option string;
  default_severity : option Z;
  sensitivity_delta : option Q;
  top_n_sensitivity : option Z;
  use_dataset : option bool;
  default_sigma_ratio : option Q;
  risk_direction : option string;
  n_samples : option Z;
  random_seed : option Z;
  run_risk_matrix : option bool;
  run_fmea : option bool;
  run_ahp : option bool
}.

(** [{}] *)
Definition empty_params : Params :=
  {| top_n := None; analysis_type := None; default_severity := None;
     sensitivity_delta := None; top_n_sensitivity := None; use_dataset := None;
     default_sigma_ratio := None; risk_direction := None; n_samples := None;
     random_seed := None; run_risk_matrix := None; run_fmea := None;
     run_ahp := None |}.

(** what the caller stored under ["params"]: a dict, or some other object *)
Inductive PyParams :=
  | NotADict
  | Dict (d : Params).

(** [params.get(key, default)] *)
Definition params_get {A} (params : PyParams) (key : Params -> option A) (dflt : A)
  : outcome A :=
  match params with
  | Dict d => Ok (default dflt (key d))
  | NotADict => Raise (AttributeError "object has no attribute 'get'")
  end.

(** the [context] dict: [ctx_mission_id] is [None] when the key is absent or
    holds [None]; [ctx_params] is [None] when the key is absent *)
Record Context := {
  ctx_mission_id : option Z;
  ctx_params : option PyParams
}.

(** [not mission_id] *)
Definition falsy_id (mission_id : option Z) : bool :=
  match mission_id with
  | None => true
  | Some i => i =? 0
  end.

Record ModelResult (D : Type) := {
  model_id : string;
  model_name : string;
  success : bool;
  error_message : string;
  data : option D   (* [None] is the default [{}] *)
}.
Arguments model_id {D} m.
Arguments model_name {D} m.
Arguments success {D} m.
Arguments error_message {D} m.
Arguments data {D} m.

(** what [ModelRegistry] needs of a model instance *)
Record ModelBase := {
  mb_model_id : string;
  mb_model_name : string;
  mb_description : string;
  mb_category : string
}.

(** [ModelRegistry]: the [_models] dict of the singleton *)
Definition register (model : ModelBase) (_models : gmap string ModelBase)
  : gmap string ModelBase :=
  <[mb_model_id model := model]> _models.

Definition unregister (model_id : string) (_models : gmap string ModelBase)
  : gmap string ModelBase :=
  if decide (is_Some (_models !! model_id)) then delete model_id _models else _models.

Definition get (_models : gmap string ModelBase) (model_id : string) : option ModelBase :=
  _models !! model_id.

Definition get_all (_models : gmap string ModelBase) : list ModelBase :=
  (map_to_list _models).*2.

Definition get_model_ids (_models : gmap string ModelBase) : list string :=
  (map_to_list _models).*1.

End Base.

(** ** app/models/risk_matrix.py *)

Module RiskMatrix.
Import Dao Types Base.

(** body of the loop over [events], lines 108-120 *)
Definition score_event (event : RiskEvent) : RiskEventResult :=
  let r := likelihood event * severity event in
  let level := from_score r in
  {| rer_id := default 0 (re_id event);
     rer_name := re_name event;
     rer_likelihood := likelihood event;
     rer_severity := severity event;
     risk_score := r;
     rer_level := value level;
     rer_hazard_type := re_hazard_type event;
     rer_desc := re_desc event |}.

Record RMData := {
  rmd_result : RiskMatrixResult;
  rmd_total_risk : Z;
  rmd_avg_risk : Q;
  rmd_level_counts : gmap string Z;
  rmd_top_n_count : Z
}.

Definition model_id : string := "risk_matrix".
Definition model_name : string := "风险矩阵 (Risk Matrix)".

(** [{"Low": 0, "Medium": 0, "High": 0, "Extreme": 0}] *)
Definition zero_level_counts : gmap string Z :=
  <["Low" := 0]> (<["Medium" := 0]> (<["High" := 0]> (<["Extreme" := 0]> ∅))).

(** [[[0]*5 for _ in range(5)]] *)
Definition zero_matrix : list (list Z) := replicate 5 (replicate 5 0).

(** [matrix_data[i][j] += 1] *)
Definition matrix_incr (m : list (list Z)) (i j : Z) : outcome (list (list Z)) :=
  i' ← py_index (length m) i;
  let row := default [] (m !! i') in
  j' ← py_index (length row) j;
  Ok (<[i' := <[j' := default 0 (row !! j') + 1]> row]> m).

(** the loop filling [matrix_data] and [matrix_events], lines 131-138 *)
Fixpoint fill_matrix (event_results : list RiskEventResult)
    (m : list (list Z)) (me : gmap string (list Z))
  : outcome (list (list Z) * gmap string (list Z)) :=
  match event_results with
  | [] => Ok (m, me)
  | er :: rest =>
      let i := rer_likelihood er - 1 in
      let j := rer_severity er - 1 in
      m1 ← matrix_incr m i j;
      let key := str_of_Z (rer_likelihood er) ++ "_" ++ str_of_Z (rer_severity er) in
      let me1 := <[key := (default [] (me !! key) ++ [rer_id er])%list]> me in
      fill_matrix rest m1 me1
  end.

(** the loop over [level_counts], lines 141-143 *)
Definition count_levels (levels : list string) : gmap string Z :=
  fold_left (fun counts l => alter Z.succ l counts) levels zero_level_counts.

Definition empty_data : RMData :=
  {| rmd_result := {| rm_events := []; rm_top_n := []; matrix_data := zero_matrix;
                      matrix_events := ∅; rm_total_risk := 0; rm_avg_risk := 0%Q;
                      rm_level_counts := zero_level_counts |};
     rmd_total_risk := 0; rmd_avg_risk := 0%Q;
     rmd_level_counts := zero_level_counts; rmd_top_n_count := 0 |}.

(** the [try] block of [run], lines 80-173 *)
Definition run_body (st : Store) (mission_id : Z) (top_n : Z)
  : outcome (ModelResult RMData) :=
  events ← risk_events_by_mission st (Some mission_id);
  match events with
  | [] =>
      Ok {| Base.model_id := model_id; Base.model_name := model_name;
            success := true; error_message := ""; data := Some empty_data |}
  | _ =>
      let event_results := List.map score_event events in
      let sorted_events := sorted_desc (by_Z risk_score) event_results in
      let top_n_events := py_slice_to top_n sorted_events in
      '(matrix_data, matrix_events) ← fill_matrix event_results zero_matrix ∅;
      let level_counts := count_levels (List.map rer_level event_results) in
      let total_risk := py_sum (List.map risk_score event_results) in
      let avg_risk := (inject_Z total_risk / inject_Z (Z.of_nat (length event_results)))%Q in
      let result :=
        {| rm_events := event_results; rm_top_n := top_n_events;
           matrix_data := matrix_data; matrix_events := matrix_events;
           rm_total_risk := total_risk; rm_avg_risk := py_round avg_risk 2;
           rm_level_counts := level_counts |} in
      (* [generate_recommendations(result)]: no effect, value dropped *)
      Ok {| Base.model_id := model_id; Base.model_name := model_name;
            success := true; error_message := "";
            data := Some {| rmd_result := result; rmd_total_risk := total_risk;
                            rmd_avg_risk := py_round avg_risk 2;
                            rmd_level_counts := level_counts;
                            rmd_top_n_count := Z.of_nat (length top_n_events) |} |}
  end.

(** [RiskMatrixModel.run] *)
Definition run (st : Store) (context : Context) : outcome (ModelResult RMData) :=
  match ctx_mission_id context with
  | None =>
      Ok {| Base.model_id := model_id; Base.model_name := model_name;
            success := false; error_message := "mission_id 不能为空"; data := None |}
  | Some mission_id =>
      let params := default (Dict empty_params) (ctx_params context) in
      top_n ← params_get params Base.top_n 10;
      try_except (run_body st mission_id top_n)
        (fun e => Ok {| Base.model_id := model_id; Base.model_name := model_name;
                        success := false; error_message := exn_str e; data := None |})
  end.

End RiskMatrix.

(** ** app/models/fmea.py *)

Module FMEA.
Import Dao Types Base.

Record FMEAData := {
  fd_result : FMEAResult;
  fd_total_rpn : Z;
  fd_avg_rpn : Q;
  fd_level_counts : gmap string Z;
  fd_top_n_count : Z
}.

Definition model_id : string := "fmea".
Definition model_name : string := "FMEA分析".

(** body of the loop over [items], lines 105-120 *)
Definition score_item (item : FMEAItem) : FMEAItemResult :=
  let rpn := fi_S item * fi_O item * fi_D item in
  let level := from_rpn rpn in
  {| fir_id := fi_id item; fir_system := fi_system item;
     fir_failure_mode := fi_failure_mode item; fir_effect := fi_effect item;
     fir_cause := fi_cause item; fir_control := fi_control item;
     fir_S := fi_S item; fir_O := fi_O item; fir_D := fi_D item;
     RPN := rpn; fir_level := value level |}.

Definition empty_data : FMEAData :=
  {| fd_result := {| fm_items := []; fm_top_n := []; total_rpn := 0; avg_rpn := 0%Q;
                     fm_level_counts := RiskMatrix.zero_level_counts |};
     fd_total_rpn := 0; fd_avg_rpn := 0%Q;
     fd_level_counts := RiskMatrix.zero_level_counts; fd_top_n_count := 0 |}.

(** the [try] block of [run], lines 80-157 *)
Definition run_body (st : Store) (mission_id : Z) (top_n : Z)
  : outcome (ModelResult FMEAData) :=
  items ← fmea_items_by_mission st (Some mission_id);
  match items with
  | [] =>
      Ok {| Base.model_id := model_id; Base.model_name := model_name;
            success := true; error_message := ""; data := Some empty_data |}
  | _ =>
      let item_results := List.map score_item items in
      let sorted_items := sorted_desc (by_Z RPN) item_results in
      let top_n_items := py_slice_to top_n sorted_items in
      let level_counts := RiskMatrix.count_levels (List.map fir_level item_results) in
      let total_rpn := py_sum (List.map RPN item_results) in
      let avg_rpn := (inject_Z total_rpn / inject_Z (Z.of_nat (length item_results)))%Q in
      let result :=
        {| fm_items := item_results; fm_top_n := top_n_items;
           Types.total_rpn := total_rpn; Types.avg_rpn := py_round avg_rpn 2;
           fm_level_counts := level_counts |} in
      (* [generate_recommendations(result)]: no effect, value dropped *)
      Ok {| Base.model_id := model_id; Base.model_name := model_name;
            success := true; error_message := "";
            data := Some {| fd_result := result; fd_total_rpn := total_rpn;
                            fd_avg_rpn := py_round avg_rpn 2;
                            fd_level_counts := level_counts;
                            fd_top_n_count := Z.of_nat (length top_n_items) |} |}
  end.

(** [FMEAModel.run] *)
Definition run (st : Store) (context : Context) : outcome (ModelResult FMEAData) :=
  match ctx_mission_id context with
  | None =>
      Ok {| Base.model_id := model_id; Base.model_name := model_name;
            success := false; error_message := "mission_id 不能为空"; data := None |}
  | Some mission_id =>
      let params := default (Dict empty_params) (ctx_params context) in
      top_n ← params_get params Base.top_n 10;
      try_except (run_body st mission_id top_n)
        (fun e => Ok {| Base.model_id := model_id; Base.model_name := model_name;
                        success := false; error_message := exn_str e; data := None |})
  end.

End FMEA.

(** ** app/models/sensitivity.py *)

Module Sensitivity.
Import Dao Types Base.

Record SensData := {
  sd_result : SensitivityResult;
  sd_analysis_type : string;
  sd_base_value : Q;
  sd_top_n_count : Z
}.

Definition model_id : string := "sensitivity".
Definition model_name : string := "敏感性分析".

(** one OAT factor: the totals with the parameter one lower, floored at
    [lo], and one higher, capped at [hi]; [r_with v] is the score of the
    entry when the parameter is [v] *)
Definition oat_factor (name ptype : string) (id : option Z) (base_total base_r : Z)
    (v lo hi : Z) (r_with : Z -> Z) : SensitivityFactor :=
  let v_minus := Z.max lo (v - 1) in
  let total_minus := base_total - base_r + r_with v_minus in
  let v_plus := Z.min hi (v + 1) in
  let total_plus := base_total - base_r + r_with v_plus in
  let impact := Z.max (Z.abs (total_minus - base_total)) (Z.abs (total_plus - base_total)) in
  {| factor_name := name; base_value := inject_Z base_total;
     minus_value := inject_Z total_minus; plus_value := inject_Z total_plus;
     sf_impact_score := inject_Z impact; sf_event_id := id; param_type := ptype |}.

(** [SensitivityModel.run_risk_matrix] *)
Definition run_risk_matrix (st : Store) (top_n : Z) (mission_id : option Z)
  : outcome SensitivityResult :=
  events ← risk_events_by_mission st mission_id;
  match events with
  | [] =>
      Ok {| sr_model_type := "risk_matrix"; global_indicator := "Total Risk";
            base_global_value := 0%Q; factors := []; sr_top_n := [] |}
  | _ =>
      let base_total := py_sum (List.map (fun e => likelihood e * severity e) events) in
      let factors :=
        List.concat (List.map (fun event =>
          let base_r := likelihood event * severity event in
          [oat_factor (re_name event ++ "_L") "L" (re_id event) base_total base_r
             (likelihood event) 1 5 (fun l => l * severity event);
           oat_factor (re_name event ++ "_S") "S" (re_id event) base_total base_r
             (severity event) 1 5 (fun s => likelihood event * s)]) events) in
      let sorted_factors := sorted_desc (by_Q sf_impact_score) factors in
      Ok {| sr_model_type := "risk_matrix"; global_indicator := "Total Risk";
            base_global_value := inject_Z base_total; Types.factors := factors;
            sr_top_n := py_slice_to top_n sorted_factors |}
  end.

(** [SensitivityModel.run_fmea]; [failure_mode[:15]] counts one character
    per byte *)
Definition run_fmea (st : Store) (top_n : Z) (mission_id : option Z)
  : outcome SensitivityResult :=
  items ← fmea_items_by_mission st mission_id;
  match items with
  | [] =>
      Ok {| sr_model_type := "fmea"; global_indicator := "Total RPN";
            base_global_value := 0%Q; factors := []; sr_top_n := [] |}
  | _ =>
      let base_total := py_sum (List.map (fun i => fi_S i * fi_O i * fi_D i) items) in
      let factors :=
        List.concat (List.map (fun item =>
          let base_rpn := fi_S item * fi_O item * fi_D item in
          [oat_factor (substring 0 15 (fi_failure_mode item) ++ "_O") "O" (fi_id item)
             base_total base_rpn (fi_O item) 1 10 (fun o => fi_S item * o * fi_D item);
           oat_factor (substring 0 15 (fi_failure_mode item) ++ "_D") "D" (fi_id item)
             base_total base_rpn (fi_D item) 1 10 (fun d => fi_S item * fi_O item * d)])
          items) in
      let sorted_factors := sorted_desc (by_Q sf_impact_score) factors in
      Ok {| sr_model_type := "fmea"; global_indicator := "Total RPN";
            base_global_value := inject_Z base_total; Types.factors := factors;
            sr_top_n := py_slice_to top_n sorted_factors |}
  end.

(** [SensitivityModel.run]: no test of [mission_id] before the queries *)
Definition run (st : Store) (context : Context) : outcome (ModelResult SensData) :=
  let mission_id := ctx_mission_id context in
  let params := default (Dict empty_params) (ctx_params context) in
  top_n ← params_get params Base.top_n 10;
  analysis_type ← params_get params Base.analysis_type "risk_matrix";
  try_except
    (result ← (if String.eqb analysis_type "risk_matrix"
               then run_risk_matrix st top_n mission_id
               else run_fmea st top_n mission_id);
     Ok {| Base.model_id := model_id; Base.model_name := model_name;
           success := true; error_message := "";
           data := Some {| sd_result := result; sd_analysis_type := analysis_type;
                           sd_base_value := base_global_value result;
                           sd_top_n_count := Z.of_nat (length (sr_top_n result)) |} |})
    (fun e => Ok {| Base.model_id := model_id; Base.model_name := model_name;
                    success := false; error_message := exn_str e; data := None |}).

End Sensitivity.

(** ** app/models/fta.py *)

Module FTA.
Import Dao Base.

Record FTANodeResult := {
  nr_node_id : Z;
  nr_name : string;
  nr_node_type : string;
  nr_gate_type : string;
  nr_probability : Q;
  nr_contribution : Q
}.

Record FTASensitivityItem := {
  si_node_id : Z;
  si_node_name : string;
  base_probability : Q;
  minus_prob : Q;
  plus_prob : Q;
  impact_score : Q
}.

Record FTAResult := {
  top_event_name : string;
  top_event_probability : Q;
  likelihood_level : Z;
  severity_level : Z;
  fta_risk_score : Z;
  fta_risk_level : string;
  node_results : list FTANodeResult;
  sensitivity : list FTASensitivityItem
}.

(** [_calc_node_prob]; [result] is the memo dict the calls share, returned
    next to the probability; [fuel] is the depth of the interpreter stack
    that is left *)
Fixpoint _calc_node_prob (fuel : nat) (node_dict : odict FTANode)
    (children_map : gmap Z (list Z)) (node_id : Z) (result : gmap Z Q)
  : outcome (Q * gmap Z Q)%type :=
  match fuel with
  | O => Raise (RecursionError "maximum recursion depth exceeded")
  | S fuel' =>
      match result !! node_id with
      | Some p => Ok (p, result)
      | None =>
          match od_get node_dict node_id with
          | None => Ok (0%Q, result)
          | Some node =>
              if String.eqb (node_type node) "BASIC" then
                let prob := match probability node with
                            | Some p => p
                            | None => (1 # 100)%Q
                            end in
                Ok (prob, <[node_id := prob]> result)
              else
                match default [] (children_map !! node_id) with
                | [] => Ok (0%Q, <[node_id := 0%Q]> result)
                | children =>
                    match mapM_state (_calc_node_prob fuel' node_dict children_map)
                            children result with
                    | Raise e => Raise e
                    | Ok (child_probs, result1) =>
                        let prob :=
                          if String.eqb (gate_type node) "AND" then
                            fold_left (fun prob p => (prob * p)%Q) child_probs 1%Q
                          else
                            (1 - fold_left (fun prob p => (prob * (1 - p))%Q) child_probs 1)%Q in
                        Ok (prob, <[node_id := prob]> result1)
                    end
                end
          end
      end
  end.

(** [_calculate_probabilities] *)
Definition _calculate_probabilities (fuel : nat) (top_node_id : Z)
    (node_dict : odict FTANode) (children_map : gmap Z (list Z))
  : outcome (gmap Z Q) :=
  match _calc_node_prob fuel node_dict children_map top_node_id ∅ with
  | Raise e => Raise e
  | Ok (_, result) => Ok result
  end.

(** The propagation rule as section 4.5 words it, without the memo dict:
    [P(BASIC)] is the stored probability (0.01 when unset), an AND gate is
    the product of its children, any other gate one minus the product of
    the complements, a gate without children 0. [n] bounds the depth. *)
Fixpoint node_prob (n : nat) (node_dict : odict FTANode)
    (children_map : gmap Z (list Z)) (node_id : Z) : Q :=
  match n with
  | O => 0%Q
  | S n' =>
      match od_get node_dict node_id with
      | None => 0%Q
      | Some node =>
          if String.eqb (node_type node) "BASIC" then
            match probability node with Some p => p | None => (1 # 100)%Q end
          else
            match default [] (children_map !! node_id) with
            | [] => 0%Q
            | children =>
                let ps := List.map (node_prob n' node_dict children_map) children in
                if String.eqb (gate_type node) "AND" then
                  fold_left (fun prob p => (prob * p)%Q) ps 1%Q
                else
                  (1 - fold_left (fun prob p => (prob * (1 - p))%Q) ps 1)%Q
            end
      end
  end.

(** [{n.id: n for n in nodes}] *)
Definition dict_of_nodes (nodes : list FTANode) : odict FTANode :=
  fold_left (fun d n => od_set (fn_id n) n d) nodes od_empty.

(** a small tree for the examples: a TOP gate over two basic events *)
Definition mk_node (id : Z) (ty gate : string) (p : option Q) : FTANode :=
  {| fn_id := id; fn_mission_id := 1; fn_name := ""; node_type := ty;
     gate_type := gate; probability := p; fn_severity := None; fn_desc := "" |}.

Definition two_input_tree (gate : string) (p1 p2 : option Q) : odict FTANode :=
  dict_of_nodes [mk_node 1 "TOP" gate None; mk_node 2 "BASIC" "" p1;
                 mk_node 3 "BASIC" "" p2].

Definition two_input_edges : gmap Z (list Z) :=
  <[1 := [2; 3]]> (<[2 := []]> (<[3 := []]> ∅)).

Definition two_input_rank (k : Z) : nat := if k =? 1 then 1%nat else 0%nat.

(** [_probability_to_likelihood] *)
Definition _probability_to_likelihood (p : Q) : Z :=
  if Qltb p (1 # 100000) then 1
  else if Qltb p (1 # 10000) then 2
  else if Qltb p (1 # 1000) then 3
  else if Qltb p (1 # 100) then 4
  else 5.

(** [_get_risk_level] *)
Definition _get_risk_level (r : Z) : string :=
  if r <=? 4 then "Low"
  else if r <=? 9 then "Medium"
  else if r <=? 16 then "High"
  else "Extreme".

(** truth value of [basic_node.probability]: [None] and [0.0] are false *)
Definition prob_truthy (p : option Q) : bool :=
  match p with
  | Some q => negb (Qeq_bool q 0)
  | None => false
  end.

(** [basic_node.probability = v], on the node object stored under [k] *)
Definition set_probability (k : Z) (v : Q) (node_dict : odict FTANode) : odict FTANode :=
  {| od_keys := od_keys node_dict;
     od_map := alter (fun n =>
                 {| fn_id := fn_id n; fn_mission_id := fn_mission_id n;
                    fn_name := fn_name n; node_type := node_type n;
                    gate_type := gate_type n; probability := Some v;
                    fn_severity := fn_severity n; fn_desc := fn_desc n |})
               k (od_map node_dict) |}.

(** one turn of the loop of [_sensitivity_analysis] over the basic node
    stored under [k]: the item it appends, or the exception it raises, and
    the node dict it leaves *)
Definition perturb_basic_node (fuel : nat) (top_node_id : Z)
    (children_map : gmap Z (list Z)) (delta : Q) (base_p_top : Q)
    (k : Z) (basic_node : FTANode) (node_dict : odict FTANode)
  : outcome FTASensitivityItem * odict FTANode :=
  let orig_prob := if prob_truthy (probability basic_node)
                   then default 0%Q (probability basic_node) else (1 # 100)%Q in
  let minus_prob := py_max 0 (orig_prob * (1 - delta))%Q in
  let nd1 := set_probability k minus_prob node_dict in
  match _calculate_probabilities fuel top_node_id nd1 children_map with
  | Raise e => (Raise e, nd1)
  | Ok probs_minus =>
      let p_top_minus := default 0%Q (probs_minus !! top_node_id) in
      let plus_prob := py_min 1 (orig_prob * (1 + delta))%Q in
      let nd2 := set_probability k plus_prob nd1 in
      match _calculate_probabilities fuel top_node_id nd2 children_map with
      | Raise e => (Raise e, nd2)
      | Ok probs_plus =>
          let p_top_plus := default 0%Q (probs_plus !! top_node_id) in
          let nd3 := set_probability k orig_prob nd2 in
          let impact := py_max (Qabs (p_top_minus - base_p_top))
                               (Qabs (p_top_plus - base_p_top)) in
          (Ok {| si_node_id := fn_id basic_node;
                 si_node_name := fn_name basic_node;
                 base_probability := orig_prob;
                 minus_prob := p_top_minus;
                 plus_prob := p_top_plus;
                 impact_score := impact |}, nd3)
      end
  end.

(** the [for basic_node in basic_nodes] loop; [basic_nodes] holds the keys
    of the node objects, which are read from the current [node_dict] *)
Fixpoint sensitivity_loop (fuel : nat) (top_node_id : Z)
    (children_map : gmap Z (list Z)) (delta : Q) (base_p_top : Q)
    (basic_nodes : list Z) (results : list FTASensitivityItem)
    (node_dict : odict FTANode)
  : outcome (list FTASensitivityItem) * odict FTANode :=
  match basic_nodes with
  | [] => (Ok results, node_dict)
  | k :: rest =>
      match od_get node_dict k with
      | None => sensitivity_loop fuel top_node_id children_map delta base_p_top
                  rest results node_dict
      | Some basic_node =>
          match perturb_basic_node fuel top_node_id children_map delta base_p_top
                  k basic_node node_dict with
          | (Raise e, nd) => (Raise e, nd)
          | (Ok item, nd) =>
              sensitivity_loop fuel top_node_id children_map delta base_p_top
                rest (results ++ [item])%list nd
          end
      end
  end.

(** keys of the BASIC nodes, in the order of [node_dict.values()] *)
Definition basic_keys (node_dict : odict FTANode) : list Z :=
  List.filter (fun k => match od_get node_dict k with
                        | Some n => String.eqb (node_type n) "BASIC"
                        | None => false
                        end) (od_keys node_dict).

(** [_sensitivity_analysis]: what it returns or raises, and the node dict
    it leaves behind *)
Definition _sensitivity_analysis (fuel : nat) (top_node_id : Z)
    (node_dict : odict FTANode) (children_map : gmap Z (list Z))
    (delta : Q) (top_n : Z)
  : outcome (list FTASensitivityItem) * odict FTANode :=
  let basic_nodes := basic_keys node_dict in
  match basic_nodes with
  | [] => (Ok [], node_dict)
  | _ =>
      match _calculate_probabilities fuel top_node_id node_dict children_map with
      | Raise e => (Raise e, node_dict)
      | Ok base_probs =>
          let base_p_top := default 0%Q (base_probs !! top_node_id) in
          match sensitivity_loop fuel top_node_id children_map delta base_p_top
                  basic_nodes [] node_dict with
          | (Raise e, nd) => (Raise e, nd)
          | (Ok results, nd) =>
              (Ok (py_slice_to top_n (sorted_desc (by_Q impact_score) results)), nd)
          end
      end
  end.

Definition model_id : string := "fta".
Definition model_name : string := "故障树分析(FTA)".

(** [get_default_params()] *)
Definition default_params : Params :=
  {| top_n := None; analysis_type := None; default_severity := Some 3;
     sensitivity_delta := Some (1 # 10)%Q; top_n_sensitivity := Some 10;
     use_dataset := None; default_sigma_ratio := None; risk_direction := None;
     n_samples := None; random_seed := None; run_risk_matrix := None;
     run_fmea := None; run_ahp := None |}.

(** the result returned when there is nothing to analyse *)
Definition no_data_result (name : string) : FTAResult :=
  {| top_event_name := name; top_event_probability := 0%Q; likelihood_level := 1;
     severity_level := 1; fta_risk_score := 1; fta_risk_level := "Low";
     node_results := []; sensitivity := [] |}.

(** the loop filling [children_map], lines 195-197 *)
Fixpoint build_children_map (st : Store) (nodes : list FTANode)
    (children_map : gmap Z (list Z)) : outcome (gmap Z (list Z)) :=
  match nodes with
  | [] => Ok children_map
  | node :: rest =>
      cs ← fta_children st (fn_id node);
      build_children_map st rest (<[fn_id node := cs]> children_map)
  end.

(** [_run_fta] *)
Definition _run_fta (fuel : nat) (st : Store) (mission_id : Z) (params : PyParams)
  : outcome FTAResult :=
  nodes ← fta_nodes_by_mission st mission_id;
  match nodes with
  | [] => Ok (no_data_result "无数据")
  | _ =>
      let node_dict := dict_of_nodes nodes in
      children_map ← build_children_map st nodes ∅;
      top_node ← fta_top_node st mission_id;
      match top_node with
      | None => Ok (no_data_result "未找到顶事件")
      | Some top_node =>
          node_probs ← _calculate_probabilities fuel (fn_id top_node) node_dict children_map;
          let p_top := default 0%Q (node_probs !! fn_id top_node) in
          let l_level := _probability_to_likelihood p_top in
          s_level ← match fn_severity top_node with
                    | Some s => if s =? 0 then params_get params default_severity 3
                                else Ok s
                    | None => params_get params default_severity 3
                    end;
          let r_score := l_level * s_level in
          let r_level := _get_risk_level r_score in
          let node_results :=
            List.map (fun node =>
              let prob := default 0%Q (node_probs !! fn_id node) in
              let contribution := if Qltb 0 p_top then (prob / p_top)%Q else 0%Q in
              {| nr_node_id := fn_id node; nr_name := fn_name node;
                 nr_node_type := node_type node; nr_gate_type := gate_type node;
                 nr_probability := prob; nr_contribution := contribution |}) nodes in
          delta ← params_get params sensitivity_delta (1 # 10)%Q;
          top_n ← params_get params top_n_sensitivity 10;
          sensitivity ← fst (_sensitivity_analysis fuel (fn_id top_node) node_dict
                               children_map delta top_n);
          Ok {| top_event_name := fn_name top_node; top_event_probability := p_top;
                likelihood_level := l_level; severity_level := s_level;
                fta_risk_score := r_score; fta_risk_level := r_level;
                FTA.node_results := node_results; FTA.sensitivity := sensitivity |}
      end
  end.

(** [FTAModel.run] *)
Definition run (fuel : nat) (st : Store) (context : Context)
  : outcome (ModelResult FTAResult) :=
  let mission_id := ctx_mission_id context in
  let params := default (Dict default_params) (ctx_params context) in
  match mission_id with
  | Some mid =>
      if mid =? 0 then
        Ok {| Base.model_id := model_id; Base.model_name := model_name;
              success := false; error_message := "缺少mission_id"; data := None |}
      else
        try_except
          (result ← _run_fta fuel st mid params;
           Ok {| Base.model_id := model_id; Base.model_name := model_name;
                 success := true; error_message := ""; data := Some result |})
          (fun e => Ok {| Base.model_id := model_id; Base.model_name := model_name;
                          success := false; error_message := exn_str e; data := None |})
  | None =>
      Ok {| Base.model_id := model_id; Base.model_name := model_name;
            success := false; error_message := "缺少mission_id"; data := None |}
  end.

End FTA.

(** ** app/models/ahp_improved.py *)

Module AHP.
Import Dao Base.
Local Open Scope R_scope.

(** an element of [indicator_data] *)
Record IndicatorData := {
  d_indicator_id : Z;
  d_name : string;
  d_value : R;
  d_weight : R;
  d_mu : option R;
  d_sigma : option R
}.

(** an element of [results], built by the first loop *)
Record Scored := {
  s_indicator_id : Z;
  s_name : string;
  s_x : R;
  s_w : R;
  s_mu : R;
  s_sigma : R;
  s_z : R;
  s_c : R
}.

Record AHPIndicatorResult := {
  indicator_id : Z;
  indicator_name : string;
  raw_value : R;
  normalized_value : R;
  original_weight : R;
  correction_factor : R;
  corrected_weight : R;
  contribution : R;
  z_score : R;
  ir_mu : R;
  ir_sigma : R
}.

Record AHPResult := {
  mission_id : Z;
  total_score : R;
  risk_level : string;
  indicator_results : list AHPIndicatorResult;
  top_contributors : list AHPIndicatorResult;
  weight_sum_check : R
}.

Definition model_id : string := "ahp_improved".
Definition model_name : string := "改进AHP综合评估".

(** [get_default_params()] *)
Definition default_params : Params :=
  {| top_n := Some 10%Z; analysis_type := None; default_severity := None;
     sensitivity_delta := None; top_n_sensitivity := None; use_dataset := Some true;
     default_sigma_ratio := Some (1 # 10)%Q; risk_direction := Some "higher_worse";
     n_samples := None; random_seed := None; run_risk_matrix := None;
     run_fmea := None; run_ahp := None |}.

(** an indicator as [_parse_dataset] yields it, for the examples *)
Definition mk_data (id : Z) (x w mu sigma : R) : IndicatorData :=
  {| d_indicator_id := id; d_name := ""; d_value := x; d_weight := w;
     d_mu := Some mu; d_sigma := Some sigma |}.

(** [_score_to_level] *)
Definition _score_to_level (score : R) : string :=
  if Rlt_dec score 0.25 then "Low"
  else if Rlt_dec score 0.5 then "Medium"
  else if Rlt_dec score 0.75 then "High"
  else "Extreme".

(** body of the first loop of [_run_ahp], lines 216-247 *)
Definition score_indicator (default_sigma_ratio : R) (data : IndicatorData) : Scored :=
  let x := d_value data in
  let w := d_weight data in
  let mu := default x (d_mu data) in
  let sigma := default (py_maxR 1e-6 (Rabs x * default_sigma_ratio)) (d_sigma data) in
  let sigma := if Rlt_dec sigma 1e-10 then 1e-6 else sigma in
  let z := (x - mu) / sigma in
  let c := (1 / (sigma * sqrt (2 * PI))) * exp (- 0.5 * z * z) in
  {| s_indicator_id := d_indicator_id data; s_name := d_name data;
     s_x := x; s_w := w; s_mu := mu; s_sigma := sigma; s_z := z; s_c := c |}.

(** [weight_correction_sum] after the first loop *)
Definition weight_correction_sum (results : list Scored) : R :=
  fold_left (fun acc r => acc + s_w r * s_c r) results 0.

(** [w_prime], lines 255-258 *)
Definition w_prime (results : list Scored) (r : Scored) : R :=
  if Rlt_dec 0 (weight_correction_sum results)
  then (s_w r * s_c r) / weight_correction_sum results
  else s_w r / INR (length results).

(** [r_i], lines 262-267 *)
Definition r_i (risk_direction : string) (r : Scored) : R :=
  if String.eqb risk_direction "higher_worse" then 1 / (1 + exp (- s_z r))
  else if String.eqb risk_direction "lower_worse" then 1 / (1 + exp (s_z r))
  else 1 / (1 + exp (- Rabs (s_z r))).

(** [total_score] after the second loop, before it is rounded *)
Definition raw_total_score (risk_direction : string) (results : list Scored) : R :=
  fold_left (fun total r => total + w_prime results r * r_i risk_direction r) results 0.

(** body of the second loop, lines 253-285 *)
Definition indicator_result (risk_direction : string) (results : list Scored)
    (r : Scored) : AHPIndicatorResult :=
  let wp := w_prime results r in
  let ri := r_i risk_direction r in
  let contribution := wp * ri in
  {| indicator_id := s_indicator_id r; indicator_name := s_name r;
     raw_value := s_x r; normalized_value := py_roundR ri 4;
     original_weight := py_roundR (s_w r) 4;
     correction_factor := py_roundR (s_c r) 6;
     corrected_weight := py_roundR wp 4;
     AHP.contribution := py_roundR contribution 4;
     z_score := py_roundR (s_z r) 4; ir_mu := py_roundR (s_mu r) 4;
     ir_sigma := py_roundR (s_sigma r) 4 |}.

(** [_run_ahp] from line 205 on, once [indicator_data] is loaded *)
Definition evaluate (mission_id : Z) (indicator_data : list IndicatorData)
    (default_sigma_ratio : R) (top_n : Z) (risk_direction : string) : AHPResult :=
  match indicator_data with
  | [] =>
      {| AHP.mission_id := mission_id; total_score := 0; risk_level := "Low";
         indicator_results := []; top_contributors := []; weight_sum_check := 1 |}
  | _ =>
      let results := List.map (score_indicator default_sigma_ratio) indicator_data in
      let indicator_results := List.map (indicator_result risk_direction results) results in
      let total_score := raw_total_score risk_direction results in
      let risk_level := _score_to_level total_score in
      let sorted_results := sorted_desc (by_R contribution) indicator_results in
      let top_contributors := py_slice_to top_n sorted_results in
      let weight_sum := py_sumR (List.map corrected_weight indicator_results) in
      {| AHP.mission_id := mission_id; total_score := py_roundR total_score 4;
         risk_level := risk_level; AHP.indicator_results := indicator_results;
         AHP.top_contributors := top_contributors;
         weight_sum_check := py_roundR weight_sum 4 |}
  end.

(** the entries [_parse_dataset] builds from a list of the dataset *)
Definition parse_entries (dflt_id : Z) (l : list DatasetEntry) : list IndicatorData :=
  List.map (fun ind =>
    {| d_indicator_id := default dflt_id (e_indicator_id ind);
       d_name := default "" (e_name ind);
       d_value := default 0 (e_value ind);
       d_weight := default 1 (e_weight ind);
       d_mu := Some (default (default 0 (e_value ind)) (e_mu ind));
       d_sigma := Some (default 1 (e_sigma ind)) |}) l.

(** [_parse_dataset]: a dataset that does not parse gives [[]] *)
Definition _parse_dataset (ps : PyLib) (dataset_json : string) : list IndicatorData :=
  match loads_dataset ps dataset_json with
  | Raise _ => []
  | Ok doc =>
      (parse_entries 0 (default [] (doc_indicators doc))
       ++ parse_entries (-1) (default [] (doc_fused_indicators doc)))%list
  end.

(** the reference distribution of a live indicator, lines 363-382 *)
Definition live_mu_sigma (ps : PyLib) (ind : Indicator) (x : R) : R * R :=
  let mu := x in
  let sigma := py_maxR 1e-6 (Rabs x * 0.1) in
  if String.eqb (dist_params_json ind) "" then (mu, sigma)
  else
    match loads_dist_params ps (dist_params_json ind) with
    | Raise _ => (mu, sigma)
    | Ok params =>
        if String.eqb (distribution_type ind) "normal" then
          (default x (p_mu params), default sigma (p_sigma params))
        else if String.eqb (distribution_type ind) "uniform" then
          let low := default (x - 1) (p_low params) in
          let high := default (x + 1) (p_high params) in
          ((low + high) / 2, (high - low) / sqrt 12)
        else if String.eqb (distribution_type ind) "triangular" then
          let low := default (x - 1) (p_low params) in
          let mode := default x (p_mode params) in
          let high := default (x + 1) (p_high params) in
          ((low + mode + high) / 3,
           sqrt ((low ^ 2 + mode ^ 2 + high ^ 2 - low * mode - low * high - mode * high) / 18))
        else (mu, sigma)
    end.

(** [_get_indicator_values] *)
Definition _get_indicator_values (ps : PyLib) (st : Store) (mission_id : Z)
  : outcome (list IndicatorData) :=
  indicators ← all_indicators st;
  values ← indicator_values_by_mission st mission_id;
  let value_map : gmap Z string :=
    fold_left (fun m v => <[iv_indicator_id v := iv_value v]> m) values ∅ in
  let total_weight :=
    py_sumR (List.map weight
               (List.filter (fun ind => bool_decide (is_Some (value_map !! ind_id ind)))
                  indicators)) in
  Ok (omap (fun ind =>
        match value_map !! ind_id ind with
        | None => None
        | Some v =>
            match float_of_str ps v with
            | Raise _ => None
            | Ok x =>
                let w := if Rlt_dec 0 total_weight then weight ind / total_weight
                         else 1 / INR (length indicators) in
                let '(mu, sigma) := live_mu_sigma ps ind x in
                Some {| d_indicator_id := ind_id ind; d_name := ind_name ind;
                        d_value := x; d_weight := w; d_mu := Some mu;
                        d_sigma := Some sigma |}
            end
        end) indicators).

(** [_run_ahp] *)
Definition _run_ahp (ps : PyLib) (st : Store) (mission_id : Z) (params : PyParams)
  : outcome AHPResult :=
  use_dataset ← params_get params use_dataset true;
  default_sigma_ratio ← params_get params default_sigma_ratio (1 # 10)%Q;
  top_n ← params_get params top_n 10%Z;
  risk_direction ← params_get params risk_direction "higher_worse";
  indicator_data ←
    (if use_dataset : bool then
       dataset ← latest_dataset_by_mission st mission_id;
       match dataset with
       | Some d =>
           if String.eqb (dataset_json d) "" then _get_indicator_values ps st mission_id
           else Ok (_parse_dataset ps (dataset_json d))
       | None => _get_indicator_values ps st mission_id
       end
     else _get_indicator_values ps st mission_id);
  Ok (evaluate mission_id indicator_data (Q2R default_sigma_ratio) top_n risk_direction).

(** [AHPImprovedModel.run] *)
Definition run (ps : PyLib) (st : Store) (context : Context)
  : outcome (ModelResult AHPResult) :=
  let mission_id := ctx_mission_id context in
  let params := default (Dict default_params) (ctx_params context) in
  match mission_id with
  | Some mid =>
      if (mid =? 0)%Z then
        Ok {| Base.model_id := model_id; Base.model_name := model_name;
              success := false; error_message := "缺少mission_id"; data := None |}
      else
        try_except
          (result ← _run_ahp ps st mid params;
           Ok {| Base.model_id := model_id; Base.model_name := model_name;
                 success := true; error_message := ""; data := Some result |})
          (fun e => Ok {| Base.model_id := model_id; Base.model_name := model_name;
                          success := false;
                          error_message := exn_str e ++ newline ++ format_exc ps e;
                          data := None |})
  | None =>
      Ok {| Base.model_id := model_id; Base.model_name := model_name;
            success := false; error_message := "缺少mission_id"; data := None |}
  end.

End AHP.

(** ** app/pipeline/risk_identification.py *)

Module Pipeline.
Import Dao.
Local Open Scope R_scope.

(** [sum(v * p for v, p in zip(values, probs))] *)
Definition weighted_mean (values probs : list R) : R :=
  py_sumR (List.map (fun vp => fst vp * snd vp) (combine values probs)).

(** [sum(p * (v - mu)**2 for v, p in zip(values, probs))] *)
Definition weighted_var (mu : R) (values probs : list R) : R :=
  py_sumR (List.map (fun vp => snd vp * (fst vp - mu) ^ 2) (combine values probs)).

(** the probabilities the discrete branch works with, lines 309-312 *)
Definition discrete_probs (values probs : list R) : outcome (list R) :=
  if Nat.eqb (length probs) (length values) then Ok probs
  else match values with
       | [] => Raise (ZeroDivisionError "float division by zero")
       | _ => Ok (repeat (1 / INR (length values)) (length values))
       end.

(** [_get_mu_sigma] *)
Definition _get_mu_sigma (dist_type : string) (params : DistParams) (default_x : R)
  : outcome (R * R) :=
  if String.eqb dist_type "normal" then
    let mu := default default_x (p_mu params) in
    let sigma := default (py_maxR 1e-6 (Rabs default_x * 0.1)) (p_sigma params) in
    Ok (mu, sigma)
  else if String.eqb dist_type "lognormal" then
    let mu := default (ln (py_maxR 1e-6 default_x)) (p_mu params) in
    let sigma := default 0.5 (p_sigma params) in
    let mu := exp (mu + sigma ^ 2 / 2) in
    let sigma := mu * sqrt (exp (sigma ^ 2) - 1) in
    Ok (mu, sigma)
  else if String.eqb dist_type "uniform" then
    let low := default (default_x - 1) (p_low params) in
    let high := default (default_x + 1) (p_high params) in
    Ok ((low + high) / 2, (high - low) / sqrt 12)
  else if String.eqb dist_type "triangular" then
    let low := default (default_x - 1) (p_low params) in
    let mode := default default_x (p_mode params) in
    let high := default (default_x + 1) (p_high params) in
    let mu := (low + mode + high) / 3 in
    let var := (low ^ 2 + mode ^ 2 + high ^ 2 - low * mode - low * high - mode * high) / 18 in
    Ok (mu, sqrt (py_maxR 0 var))
  else if String.eqb dist_type "discrete" then
    let values := default [default_x] (p_values params) in
    let probs := default [1] (p_probs params) in
    probs ← discrete_probs values probs;
    let mu := weighted_mean values probs in
    let var := weighted_var mu values probs in
    Ok (mu, sqrt (py_maxR 0 var))
  else
    Ok (default_x, py_maxR 1e-6 (Rabs default_x * 0.1)).

End Pipeline.

(** ** app/models/monte_carlo.py *)

Module MonteCarlo.
Import Dao Base.
Local Open Scope R_scope.

(** numpy, as far as the model calls it. [G] is the state of the global
    generator behind [np.random]; a sampler returns or raises and leaves a
    new state. *)
Record Numpy (G : Type) := {
  np_seed : Z -> outcome G;
  np_choice : list R -> list R -> G -> outcome R * G;
  np_normal : R -> R -> G -> outcome R * G;
  np_lognormal : R -> R -> G -> outcome R * G;
  np_uniform : R -> R -> G -> outcome R * G;
  np_triangular : R -> R -> R -> G -> outcome R * G;
  np_mean : list R -> outcome R;
  np_std : list R -> outcome R;
  np_percentile : list R -> R -> outcome R
}.
Arguments np_seed {G} n.
Arguments np_choice {G} n.
Arguments np_normal {G} n.
Arguments np_lognormal {G} n.
Arguments np_uniform {G} n.
Arguments np_triangular {G} n.
Arguments np_mean {G} n.
Arguments np_std {G} n.
Arguments np_percentile {G} n.

(** code that may raise and that reads and advances the generator *)
Definition sampling (G A : Type) : Type := G -> outcome A * G.

#[global] Instance sampling_ret {G} : MRet (sampling G) := fun A a g => (Ok a, g).

#[global] Instance sampling_bind {G} : MBind (sampling G) := fun A B k m g =>
  match m g with
  | (Ok a, g1) => k a g1
  | (Raise e, g1) => (Raise e, g1)
  end.

Definition lift {G A} (m : outcome A) : sampling G A := fun g => (m, g).

(** [try: body  except Exception as e: handler(e)], the generator keeps the
    state the body left *)
Definition try_sampling {G A} (body : sampling G A) (handler : exn -> A) : sampling G A :=
  fun g => match body g with
           | (Ok a, g1) => (Ok a, g1)
           | (Raise e, g1) => (Ok (handler e), g1)
           end.

Fixpoint mapM {G A B} (f : A -> sampling G B) (l : list A) : sampling G (list B) :=
  match l with
  | [] => mret []
  | a :: l' => b ← f a; bs ← mapM f l'; mret (b :: bs)
  end.

(** [for _ in range(n)]: the list of what each turn produced *)
Fixpoint repeatM {G A} (n : nat) (m : sampling G A) : sampling G (list A) :=
  match n with
  | O => mret []
  | S n' => a ← m; l ← repeatM n' m; mret (a :: l)
  end.

Record MCEventStats := {
  event_id : option Z;
  event_name : string;
  nominal_R : R;
  es_mean : R;
  es_std : R;
  es_p50 : R;
  es_p90 : R;
  es_p95 : R;
  es_prob_high : R
}.

Record MCGlobalStats := {
  indicator_name : string;
  nominal_value : R;
  gs_mean : R;
  gs_std : R;
  gs_p50 : R;
  gs_p90 : R;
  gs_p95 : R;
  gs_prob_high : R
}.

Record MCAHPStats := {
  nominal_score : R;
  as_mean : R;
  as_std : R;
  as_p50 : R;
  as_p90 : R;
  as_p95 : R;
  as_prob_high : R;
  as_prob_extreme : R
}.

Record MonteCarloResult := {
  model_type : string;
  mc_n_samples : Z;
  event_stats : list MCEventStats;
  global_stats : option MCGlobalStats;
  ahp_stats : option MCAHPStats;
  histogram_data : list R
}.

(** [to_dict]: the histogram is cut to its first 100 entries *)
Definition to_dict (r : MonteCarloResult) : MonteCarloResult :=
  {| model_type := model_type r; mc_n_samples := mc_n_samples r;
     event_stats := event_stats r; global_stats := global_stats r;
     ahp_stats := ahp_stats r; histogram_data := firstn 100 (histogram_data r) |}.

(** the [results] dict of [run] *)
Record MCData := {
  mc_risk_matrix : option MonteCarloResult;
  mc_fmea : option MonteCarloResult;
  mc_ahp : option MonteCarloResult
}.

Definition model_id : string := "monte_carlo".
Definition model_name : string := "蒙特卡洛模拟".

(** [get_default_params()] *)
Definition default_params : Params :=
  {| top_n := None; analysis_type := None; default_severity := None;
     sensitivity_delta := None; top_n_sensitivity := None; use_dataset := None;
     default_sigma_ratio := None; risk_direction := None;
     n_samples := Some 2000%Z; random_seed := Some 42%Z; run_risk_matrix := Some true;
     run_fmea := Some true; run_ahp := Some true |}.

Section WithNumpy.
Context {G : Type} (np : Numpy G).

(** [_sample_discrete] *)
Definition _sample_discrete (nominal min_val max_val : Z) : sampling G R :=
  let candidates := [IZR nominal] in
  let probs := [0.6] in
  let '(candidates, probs) :=
    if (min_val <=? nominal - 1)%Z
    then ((candidates ++ [IZR (nominal - 1)])%list, (probs ++ [0.2])%list)
    else (candidates, probs) in
  let '(candidates, probs) :=
    if (nominal + 1 <=? max_val)%Z
    then ((candidates ++ [IZR (nominal + 1)])%list, (probs ++ [0.2])%list)
    else (candidates, probs) in
  let total_prob := py_sumR probs in
  let probs := List.map (fun p => p / total_prob) probs in
  np_choice np candidates probs.

(** [_sample_by_distribution] *)
Definition _sample_by_distribution (dist_type : string) (params : DistParams)
    (default_value : R) : sampling G R :=
  if String.eqb dist_type "normal" then
    let mu := default default_value (p_mu params) in
    let sigma := default (py_maxR 1e-6 (Rabs default_value * 0.1)) (p_sigma params) in
    np_normal np mu sigma
  else if String.eqb dist_type "lognormal" then
    let mu := default (ln (py_maxR 1e-6 default_value)) (p_mu params) in
    let sigma := default 0.5 (p_sigma params) in
    np_lognormal np mu sigma
  else if String.eqb dist_type "uniform" then
    let low := default (default_value * 0.8) (p_low params) in
    let high := default (default_value * 1.2) (p_high params) in
    np_uniform np low high
  else if String.eqb dist_type "triangular" then
    let low := default (default_value * 0.8) (p_low params) in
    let mode := default default_value (p_mode params) in
    let high := default (default_value * 1.2) (p_high params) in
    np_triangular np low mode high
  else if String.eqb dist_type "discrete" then
    let values := default [default_value] (p_values params) in
    let probs := default [1] (p_probs params) in
    probs ← lift (Pipeline.discrete_probs values probs);
    let probs := List.map (fun p => p / py_sumR probs) probs in
    np_choice np values probs
  else
    np_normal np default_value (py_maxR 1e-6 (Rabs default_value * 0.1)).

(** the six statistics of a sample array, rounded as [MCEventStats] and
    [MCGlobalStats] hold them; [high] is the threshold of [prob_high] *)
Definition sample_stats (samples : list R) (high : R)
  : outcome (R * R * R * R * R * R) :=
  mean ← np_mean np samples;
  std ← np_std np samples;
  p50 ← np_percentile np samples 50;
  p90 ← np_percentile np samples 90;
  p95 ← np_percentile np samples 95;
  prob_high ← np_mean np (List.map (fun x => if Rle_dec high x then 1 else 0) samples);
  Ok (py_roundR mean 2, py_roundR std 2, py_roundR p50 2, py_roundR p90 2,
      py_roundR p95 2, py_roundR prob_high 4).

(** column [i] of the per-sample rows: [all_r_samples[i]] *)
Definition column (rows : list (list R)) (i : nat) : list R :=
  List.map (fun row => nth i row 0) rows.

Definition zero_global_stats (name : string) : MCGlobalStats :=
  {| indicator_name := name; nominal_value := 0; gs_mean := 0; gs_std := 0;
     gs_p50 := 0; gs_p90 := 0; gs_p95 := 0; gs_prob_high := 0 |}.

(** the statistics part shared by [run_risk_matrix] and [run_fmea]:
    [entries] gives id, name and nominal value of each event or item,
    [rows] the values of each sample turn *)
Definition summarise (mtype gname : string) (n_samples : Z)
    (entries : list (option Z * string * Z)) (rows : list (list R)) (high : Z)
  : outcome MonteCarloResult :=
  event_stats ←
    mapM_state (fun (entry : option Z * string * Z) (i : nat) =>
      let '(id, name, nominal) := entry in
      '(mean, std, p50, p90, p95, ph) ← sample_stats (column rows i) (IZR high);
      Ok ({| event_id := id; event_name := name; nominal_R := IZR nominal;
             es_mean := mean; es_std := std; es_p50 := p50; es_p90 := p90;
             es_p95 := p95; es_prob_high := ph |}, S i)) entries O;
  let total_samples := List.map py_sumR rows in
  let nominal_total := py_sum (List.map (fun e => snd e) entries) in
  let high_threshold := (high * Z.of_nat (length entries))%Z in
  '(mean, std, p50, p90, p95, ph) ← sample_stats total_samples (IZR high_threshold);
  Ok {| model_type := mtype; mc_n_samples := n_samples;
        event_stats := fst event_stats;
        global_stats := Some {| indicator_name := gname;
                                nominal_value := IZR nominal_total;
                                gs_mean := mean; gs_std := std; gs_p50 := p50;
                                gs_p90 := p90; gs_p95 := p95; gs_prob_high := ph |};
        ahp_stats := None; histogram_data := total_samples |}.

(** [run_risk_matrix] *)
Definition run_risk_matrix (st : Store) (mission_id : Z) (n_samples : Z)
  : sampling G MonteCarloResult :=
  events ← lift (risk_events_by_mission st (Some mission_id));
  match events with
  | [] =>
      mret {| model_type := "risk_matrix"; mc_n_samples := n_samples; event_stats := [];
              global_stats := Some (zero_global_stats "Total Risk");
              ahp_stats := None; histogram_data := [] |}
  | _ =>
      rows ← repeatM (Z.to_nat n_samples)
               (mapM (fun event =>
                        l ← _sample_discrete (likelihood event) 1 5;
                        s ← _sample_discrete (severity event) 1 5;
                        mret (l * s)) events);
      lift (summarise "risk_matrix" "Total Risk (sum of R)" n_samples
              (List.map (fun e => (re_id e, re_name e, (likelihood e * severity e)%Z)) events)
              rows 10)
  end.

(** [run_fmea] *)
Definition run_fmea (st : Store) (mission_id : Z) (n_samples : Z)
  : sampling G MonteCarloResult :=
  items ← lift (fmea_items_by_mission st (Some mission_id));
  match items with
  | [] =>
      mret {| model_type := "fmea"; mc_n_samples := n_samples; event_stats := [];
              global_stats := Some (zero_global_stats "Total RPN");
              ahp_stats := None; histogram_data := [] |}
  | _ =>
      rows ← repeatM (Z.to_nat n_samples)
               (mapM (fun item =>
                        s ← _sample_discrete (fi_S item) 1 10;
                        o ← _sample_discrete (fi_O item) 1 10;
                        d ← _sample_discrete (fi_D item) 1 10;
                        mret (s * o * d)) items);
      lift (summarise "fmea" "Total RPN" n_samples
              (List.map (fun i => (fi_id i, fi_failure_mode i,
                                   (fi_S i * fi_O i * fi_D i)%Z)) items)
              rows 300)
  end.

(** [total_weight], lines 547-549 *)
Definition total_weight (indicators : list DatasetEntry) : R :=
  let total_weight := py_sumR (List.map (fun ind => default 1 (e_weight ind)) indicators) in
  if Req_dec_T total_weight 0 then INR (length indicators) else total_weight.

(** an element of [results] *)
Record WCZ := { r_w : R; r_c : R; r_z : R }.

(** body of the first loop of [_calc_ahp_score], lines 555-568 *)
Definition score_entry (total_weight : R) (ind : DatasetEntry) : WCZ :=
  let x := default 0 (e_value ind) in
  let w := default 1 (e_weight ind) / total_weight in
  let mu := default x (e_mu ind) in
  let sigma := default (py_maxR 1e-6 (Rabs x * 0.1)) (e_sigma ind) in
  let sigma := if Rlt_dec sigma 1e-10 then 1e-6 else sigma in
  let z := (x - mu) / sigma in
  let c := (1 / (sigma * sqrt (2 * PI))) * exp (- 0.5 * z * z) in
  {| r_w := w; r_c := c; r_z := z |}.

(** [w_prime], lines 571-574 *)
Definition w_prime (results : list WCZ) (r : WCZ) : R :=
  let weight_correction_sum := sumf (fun r => r_w r * r_c r) results in
  if Rlt_dec 0 weight_correction_sum
  then (r_w r * r_c r) / weight_correction_sum
  else 1 / INR (length results).

(** [_calc_ahp_score] *)
Definition _calc_ahp_score (indicators : list DatasetEntry) : R :=
  match indicators with
  | [] => 0
  | _ =>
      let results := List.map (score_entry (total_weight indicators)) indicators in
      sumf (fun r => w_prime results r * (1 / (1 + exp (- r_z r)))) results
  end.

Definition zero_ahp_result (n_samples : Z) : MonteCarloResult :=
  {| model_type := "ahp_score"; mc_n_samples := n_samples; event_stats := [];
     global_stats := None;
     ahp_stats := Some {| nominal_score := 0; as_mean := 0; as_std := 0; as_p50 := 0;
                          as_p90 := 0; as_p95 := 0; as_prob_high := 0;
                          as_prob_extreme := 0 |};
     histogram_data := [] |}.

(** [{}] and what [not dist_params] tests *)
Definition dist_params_empty (p : DistParams) : bool :=
  match p_mu p, p_sigma p, p_low p, p_mode p, p_high p, p_values p, p_probs p with
  | None, None, None, None, None, None, None => true
  | _, _, _, _, _, _, _ => false
  end.

(** [ind["value"]] *)
Definition entry_value (ind : DatasetEntry) : outcome R :=
  match e_value ind with
  | Some v => Ok v
  | None => Raise (OtherError "'value'")
  end.

(** one turn of the inner loop of [run_ahp_score], lines 503-516 *)
Definition sample_indicator (ind : DatasetEntry) : sampling G DatasetEntry :=
  let dist_type := default "normal" (e_distribution_type ind) in
  let fallback : sampling G DistParams :=
    v ← lift (entry_value ind);
    mret {| p_mu := Some (default v (e_mu ind));
            p_sigma := Some (default 1 (e_sigma ind));
            p_low := None; p_mode := None; p_high := None;
            p_values := None; p_probs := None |} in
  dist_params ← match e_dist_params ind with
                | Some p => if dist_params_empty p then fallback else mret p
                | None => fallback
                end;
  v ← lift (entry_value ind);
  sampled_value ← _sample_by_distribution dist_type dist_params v;
  mret {| e_indicator_id := e_indicator_id ind; e_name := e_name ind;
          e_value := Some sampled_value; e_weight := e_weight ind;
          e_mu := e_mu ind; e_sigma := e_sigma ind;
          e_distribution_type := e_distribution_type ind;
          e_dist_params := e_dist_params ind |}.

(** [run_ahp_score] *)
Definition run_ahp_score (ps : PyLib) (st : Store) (mission_id : Z) (n_samples : Z)
  : sampling G MonteCarloResult :=
  dataset ← lift (latest_dataset_by_mission st mission_id);
  match dataset with
  | None => mret (zero_ahp_result n_samples)
  | Some dataset =>
      if String.eqb (dataset_json dataset) "" then mret (zero_ahp_result n_samples)
      else
        match loads_dataset ps (dataset_json dataset) with
        | Raise _ => mret (zero_ahp_result n_samples)
        | Ok doc =>
            let all_indicators :=
              (default [] (doc_indicators doc) ++ default [] (doc_fused_indicators doc))%list in
            match all_indicators with
            | [] => mret (zero_ahp_result n_samples)
            | _ =>
                let nominal_score := _calc_ahp_score all_indicators in
                score_samples ←
                  repeatM (Z.to_nat n_samples)
                    (sampled_indicators ← mapM sample_indicator all_indicators;
                     mret (_calc_ahp_score sampled_indicators));
                lift (
                  mean ← np_mean np score_samples;
                  std ← np_std np score_samples;
                  p50 ← np_percentile np score_samples 50;
                  p90 ← np_percentile np score_samples 90;
                  p95 ← np_percentile np score_samples 95;
                  ph ← np_mean np (List.map (fun x => if Rle_dec 0.5 x then 1 else 0)
                                     score_samples);
                  pe ← np_mean np (List.map (fun x => if Rle_dec 0.75 x then 1 else 0)
                                     score_samples);
                  Ok {| model_type := "ahp_score"; mc_n_samples := n_samples;
                        event_stats := []; global_stats := None;
                        ahp_stats :=
                          Some {| nominal_score := py_roundR nominal_score 4;
                                  as_mean := py_roundR mean 4; as_std := py_roundR std 4;
                                  as_p50 := py_roundR p50 4; as_p90 := py_roundR p90 4;
                                  as_p95 := py_roundR p95 4;
                                  as_prob_high := py_roundR ph 4;
                                  as_prob_extreme := py_roundR pe 4 |};
                        histogram_data := score_samples |})
            end
        end
  end.

(** [if seed >= 0: np.random.seed(seed)], lines 214-215 *)
Definition seed_generator (seed : Z) : sampling G unit :=
  if (0 <=? seed)%Z
  then (fun g => match np_seed np seed with
                 | Ok g' => (Ok tt, g')
                 | Raise e => (Raise e, g)
                 end)
  else mret tt.

(** the analyses of the [try] block, lines 217-234 *)
Definition run_analyses (ps : PyLib) (st : Store) (mission_id : Z) (params : PyParams)
    (n_samples : Z) : sampling G (ModelResult MCData) :=
  do_rm ← lift (params_get params Base.run_risk_matrix true);
  rm ← (if do_rm : bool
        then r ← run_risk_matrix st mission_id n_samples; mret (Some (to_dict r))
        else mret None);
  do_fmea ← lift (params_get params Base.run_fmea true);
  fmea ← (if do_fmea : bool
          then r ← run_fmea st mission_id n_samples; mret (Some (to_dict r))
          else mret None);
  do_ahp ← lift (params_get params Base.run_ahp true);
  ahp ← (if do_ahp : bool
         then r ← run_ahp_score ps st mission_id n_samples; mret (Some (to_dict r))
         else mret None);
  mret {| Base.model_id := model_id; Base.model_name := model_name;
          success := true; error_message := "";
          data := Some {| mc_risk_matrix := rm; mc_fmea := fmea; mc_ahp := ahp |} |}.

(** the [try] block of [run], lines 210-234 *)
Definition run_body (ps : PyLib) (st : Store) (mission_id : Z) (params : PyParams)
  : sampling G (ModelResult MCData) :=
  n_samples ← lift (params_get params n_samples 2000%Z);
  seed ← lift (params_get params random_seed 42%Z);
  _ ← seed_generator seed;
  run_analyses ps st mission_id params n_samples.

(** [MonteCarloModel.run] *)
Definition run (ps : PyLib) (st : Store) (context : Context)
  : sampling G (ModelResult MCData) :=
  let mission_id := ctx_mission_id context in
  let params := default (Dict default_params) (ctx_params context) in
  match mission_id with
  | Some mid =>
      if (mid =? 0)%Z then
        mret {| Base.model_id := model_id; Base.model_name := model_name;
                success := false; error_message := "缺少mission_id"; data := None |}
      else
        try_sampling (run_body ps st mid params)
          (fun e => {| Base.model_id := model_id; Base.model_name := model_name;
                       success := false;
                       error_message := exn_str e ++ newline ++ format_exc ps e;
                       data := None |})
  | None =>
      mret {| Base.model_id := model_id; Base.model_name := model_name;
              success := false; error_message := "缺少mission_id"; data := None |}
  end.

End WithNumpy.

End MonteCarlo.

(** ** app/models/__init__.py: the models the import registers *)

Module Models.
Import Dao Base.

Inductive RegisteredModel :=
  | RiskMatrixModel
  | FMEAModel
  | SensitivityModel
  | FTAModel
  | AHPImprovedModel
  | MonteCarloModel.

(** the instance [register_model] creates for each decorated class *)
Definition instance (m : RegisteredModel) : ModelBase :=
  match m with
  | RiskMatrixModel =>
      {| mb_model_id := RiskMatrix.model_id; mb_model_name := RiskMatrix.model_name;
         mb_description := "基于可能性(L)和严重性(S)计算风险分数 R=L×S，适用于定性风险评估";
         mb_category := "风险评估" |}
  | FMEAModel =>
      {| mb_model_id := FMEA.model_id; mb_model_name := FMEA.model_name;
         mb_description := "失效模式与影响分析，计算RPN=S×O×D，适用于识别产品/系统潜在失效模式";
         mb_category := "风险评估" |}
  | SensitivityModel =>
      {| mb_model_id := Sensitivity.model_id; mb_model_name := Sensitivity.model_name;
         mb_description := "通过参数扫描分析关键参数对风险的影响，识别最敏感因素";
         mb_category := "不确定性分析" |}
  | FTAModel =>
      {| mb_model_id := FTA.model_id; mb_model_name := FTA.model_name;
         mb_description := "基于故障树的定量风险分析，计算顶事件发生概率并映射为风险等级";
         mb_category := "定量分析" |}
  | AHPImprovedModel =>
      {| mb_model_id := AHP.model_id; mb_model_name := AHP.model_name;
         mb_description := "利用正态分布密度函数修正AHP权重，计算综合风险得分";
         mb_category := "综合评估" |}
  | MonteCarloModel =>
      {| mb_model_id := MonteCarlo.model_id; mb_model_name := MonteCarlo.model_name;
         mb_description := "基于分布类型的蒙特卡洛采样，分析风险评分和综合得分的不确定性";
         mb_category := "不确定性分析" |}
  end.

(** the registry once the package is imported *)
Definition model_registry : gmap string ModelBase :=
  foldl (fun reg m => register (instance m) reg) ∅
    [RiskMatrixModel; FMEAModel; SensitivityModel; FTAModel; AHPImprovedModel;
     MonteCarloModel].

(** the [data] of a result, whichever model produced it *)
Inductive Payload :=
  | RMPayload (d : RiskMatrix.RMData)
  | FMEAPayload (d : FMEA.FMEAData)
  | SensPayload (d : Sensitivity.SensData)
  | FTAPayload (d : FTA.FTAResult)
  | AHPPayload (d : AHP.AHPResult)
  | MCPayload (d : MonteCarlo.MCData).

Definition with_payload {D} (f : D -> Payload) (r : ModelResult D) : ModelResult Payload :=
  {| model_id := model_id r; model_name := model_name r; success := success r;
     error_message := error_message r; data := f <$> data r |}.

(** what a model runs in: numpy and its generator, the library functions,
    the record store and the depth of stack left to the interpreter *)
Record Env (G : Type) := {
  env_np : MonteCarlo.Numpy G;
  env_lib : PyLib;
  env_store : Store;
  env_fuel : nat
}.
Arguments env_np {G} e.
Arguments env_lib {G} e.
Arguments env_store {G} e.
Arguments env_fuel {G} e.

(** [get_model(model_id).run(context)] *)
Definition run {G} (env : Env G) (m : RegisteredModel) (context : Context)
  : MonteCarlo.sampling G (ModelResult Payload) :=
  match m with
  | RiskMatrixModel =>
      MonteCarlo.lift (r ← RiskMatrix.run (env_store env) context;
                       Ok (with_payload RMPayload r))
  | FMEAModel =>
      MonteCarlo.lift (r ← FMEA.run (env_store env) context;
                       Ok (with_payload FMEAPayload r))
  | SensitivityModel =>
      MonteCarlo.lift (r ← Sensitivity.run (env_store env) context;
                       Ok (with_payload SensPayload r))
  | FTAModel =>
      MonteCarlo.lift (r ← FTA.run (env_fuel env) (env_store env) context;
                       Ok (with_payload FTAPayload r))
  | AHPImprovedModel =>
      MonteCarlo.lift (r ← AHP.run (env_lib env) (env_store env) context;
                       Ok (with_payload AHPPayload r))
  | MonteCarloModel =>
      r ← MonteCarlo.run (env_np env) (env_lib env) (env_store env) context;
      mret (with_payload MCPayload r)
  end.

(** a risk event of mission 1, and the store that holds the given events *)
Definition mk_event (id l sv : Z) : RiskEvent :=
  {| re_id := Some id; re_mission_id := 1; re_name := ""; re_hazard_type := "";
     re_desc := ""; likelihood := l; severity := sv |}.

Definition store_of_events (events : list RiskEvent) : Store :=
  {| risk_events_by_mission := fun _ => Ok events;
     fmea_items_by_mission := fun _ => Ok [];
     fta_nodes_by_mission := fun _ => Ok [];
     fta_children := fun _ => Ok [];
     fta_top_node := fun _ => Ok None;
     latest_dataset_by_mission := fun _ => Ok None;
     all_indicators := Ok [];
     indicator_values_by_mission := fun _ => Ok [] |}.

(** a store without rows *)
Definition empty_store : Store :=
  {| risk_events_by_mission := fun _ => Ok [];
     fmea_items_by_mission := fun _ => Ok [];
     fta_nodes_by_mission := fun _ => Ok [];
     fta_children := fun _ => Ok [];
     fta_top_node := fun _ => Ok None;
     latest_dataset_by_mission := fun _ => Ok None;
     all_indicators := Ok [];
     indicator_values_by_mission := fun _ => Ok [] |}.



(** stand-ins for the examples: a generator that counts its draws and
    always draws the first candidate or the centre, and library functions
    that reject every document *)
Definition counter_numpy : MonteCarlo.Numpy nat :=
  {| MonteCarlo.np_seed := fun seed => Ok (Z.to_nat seed);
     MonteCarlo.np_choice := fun cands _ g => (Ok (hd 0%R cands), S g);
     MonteCarlo.np_normal := fun mu _ g => (Ok mu, S g);
     MonteCarlo.np_lognormal := fun mu _ g => (Ok (exp mu), S g);
     MonteCarlo.np_uniform := fun low _ g => (Ok low, S g);
     MonteCarlo.np_triangular := fun _ mode _ g => (Ok mode, S g);
     MonteCarlo.np_mean := fun l => Ok (py_sumR l / INR (length l))%R;
     MonteCarlo.np_std := fun _ => Ok 0%R;
     MonteCarlo.np_percentile := fun l _ => Ok (hd 0%R l) |}.

Definition plain_lib : PyLib :=
  {| loads_dataset := fun _ => Raise (OtherError "Expecting value");
     loads_dist_params := fun _ => Raise (OtherError "Expecting value");
     float_of_str := fun _ => Raise (OtherError "could not convert string to float");
     format_exc := fun _ => "Traceback (most recent call last)" |}.


End Models.

(** ** app/models/base.py: parameter schemas and their validation *)

Module Schema.

Inductive ParamType := INT | FLOAT | STR | BOOL | ENUM.

(** a value a [params] dict holds under a key *)
Inductive PyVal :=
  | VInt (n : Z)
  | VBool (b : bool)
  | VFloat (q : Q)
  | VStr (s : string)
  | VNone.

Record ParamSpec := {
  sp_name : string;
  sp_label : string;
  sp_type : ParamType;
  sp_default : PyVal;
  min_value : option Q;
  max_value : option Q;
  enum_values : list string
}.

(** what [validate_params] returns: [(True, "")], or [(False, message)]
    with the message that names the label and, for a bound, the bound *)
Inductive Verdict :=
  | Valid
  | NotInt (label : string)
  | NotNumber (label : string)
  | TooSmall (label : string) (bound : Q)
  | TooLarge (label : string) (bound : Q)
  | NotInEnum (label : string) (values : list string).

(** [isinstance(value, int)]: [bool] is a subclass of [int] *)
Definition as_int (v : PyVal) : option Z :=
  match v with
  | VInt n => Some n
  | VBool b => Some (if b then 1 else 0)
  | _ => None
  end.

(** [isinstance(value, (int, float))] *)
Definition as_number (v : PyVal) : option Q :=
  match v with
  | VFloat q => Some q
  | _ => inject_Z <$> as_int v
  end.

(** the two comparisons with [min_value] and [max_value] *)
Definition check_bounds (spec : ParamSpec) (q : Q) : Verdict :=
  match min_value spec with
  | Some lo => if Qltb q lo then TooSmall (sp_label spec) lo
               else match max_value spec with
                    | Some hi => if Qltb hi q then TooLarge (sp_label spec) hi else Valid
                    | None => Valid
                    end
  | None => match max_value spec with
            | Some hi => if Qltb hi q then TooLarge (sp_label spec) hi else Valid
            | None => Valid
            end
  end.

(** [value not in spec.enum_values]; the options are strings *)
Definition in_enum (v : PyVal) (values : list string) : bool :=
  match v with
  | VStr s => existsb (String.eqb s) values
  | _ => false
  end.

(** body of the loop of [validate_params] for a parameter that is given *)
Definition check_spec (spec : ParamSpec) (value : PyVal) : Verdict :=
  match sp_type spec with
  | INT =>
      match as_int value with
      | Some n => check_bounds spec (inject_Z n)
      | None => NotInt (sp_label spec)
      end
  | FLOAT =>
      match as_number value with
      | Some q => check_bounds spec q
      | None => NotNumber (sp_label spec)
      end
  | ENUM =>
      if in_enum value (enum_values spec) then Valid
      else NotInEnum (sp_label spec) (enum_values spec)
  | STR | BOOL => Valid
  end.

(** [validate_params] *)
Fixpoint validate_params (schema : list ParamSpec) (params : gmap string PyVal) : Verdict :=
  match schema with
  | [] => Valid
  | spec :: rest =>
      match params !! sp_name spec with
      | None => validate_params rest params
      | Some value =>
          match check_spec spec value with
          | Valid => validate_params rest params
          | bad => bad
          end
      end
  end.

(** [get_default_params] *)
Definition get_default_params (schema : list ParamSpec) : gmap string PyVal :=
  fold_left (fun d spec => <[sp_name spec := sp_default spec]> d) schema ∅.

Definition int_spec (name label : string) (dflt lo hi : Z) : ParamSpec :=
  {| sp_name := name; sp_label := label; sp_type := INT; sp_default := VInt dflt;
     min_value := Some (inject_Z lo); max_value := Some (inject_Z hi);
     enum_values := [] |}.

Definition float_spec (name label : string) (dflt lo hi : Q) : ParamSpec :=
  {| sp_name := name; sp_label := label; sp_type := FLOAT; sp_default := VFloat dflt;
     min_value := Some lo; max_value := Some hi; enum_values := [] |}.

Definition bool_spec (name label : string) (dflt : bool) : ParamSpec :=
  {| sp_name := name; sp_label := label; sp_type := BOOL; sp_default := VBool dflt;
     min_value := None; max_value := None; enum_values := [] |}.

Definition enum_spec (name label dflt : string) (values : list string) : ParamSpec :=
  {| sp_name := name; sp_label := label; sp_type := ENUM; sp_default := VStr dflt;
     min_value := None; max_value := None; enum_values := values |}.

(** [param_schema] of the six models *)
Definition param_schema (m : Models.RegisteredModel) : list ParamSpec :=
  match m with
  | Models.RiskMatrixModel => [int_spec "top_n" "Top-N事件数" 10 1 50]
  | Models.FMEAModel => [int_spec "top_n" "Top-N条目数" 10 1 50]
  | Models.SensitivityModel =>
      [int_spec "top_n" "Top-N敏感因素" 10 1 50;
       enum_spec "analysis_type" "分析类型" "risk_matrix" ["risk_matrix"; "fmea"]]
  | Models.FTAModel =>
      [int_spec "default_severity" "默认严重度(S)" 3 1 5;
       float_spec "sensitivity_delta" "敏感性扰动比例" (1 # 10) (1 # 100) (1 # 2);
       int_spec "top_n_sensitivity" "敏感性Top-N" 10 1 50]
  | Models.AHPImprovedModel =>
      [bool_spec "use_dataset" "使用风险数据集" true;
       float_spec "default_sigma_ratio" "默认标准差比例" (1 # 10) (1 # 100) 1;
       int_spec "top_n" "Top-N贡献指标" 10 1 50;
       enum_spec "risk_direction" "风险方向" "higher_worse"
         ["higher_worse"; "lower_worse"; "auto"]]
  | Models.MonteCarloModel =>
      [int_spec "n_samples" "采样次数" 2000 100 100000;
       int_spec "random_seed" "随机种子" 42 (-1) 999999;
       bool_spec "run_risk_matrix" "运行风险矩阵MC" true;
       bool_spec "run_fmea" "运行FMEA MC" true;
       bool_spec "run_ahp" "运行AHP综合得分MC" true]
  end.

End Schema.

(** ** app/pipeline/risk_identification.py: applying a fusion rule *)

Module Fusion.
Import Dao.
Local Open Scope R_scope.

Record FusionRule := {
  rule_id : option Z;
  input_indicator_ids : string;
  method : string;
  weights_json : string;
  output_indicator_name : string;
  output_unit : string
}.

(** what the rule is applied to: the two row lookups, [float] and
    [json.loads] on the two JSON columns. [loads_ids] yields the list of
    ids, or [None] for a document that is not a list; [loads_weights]
    raises for every document that is not a list of numbers, which the
    code meets inside its [try] as well *)
Record Sources := {
  indicator_by_id : Z -> option Indicator;
  value_by_indicator : Z -> Z -> option IndicatorValue;
  float_of_value : string -> outcome R;
  loads_ids : string -> outcome (option (list Z));
  loads_weights : string -> outcome (list R)
}.

Record InputInfo := { in_id : Z; in_name : string; in_value : R }.

Record FusionResult := {
  fr_name : string;
  fr_value : R;
  fr_unit : option string;
  fr_method : string;
  fr_inputs : list InputInfo;
  fr_error : option string
}.

Definition py_minR (a b : R) : R := if Rlt_dec b a then b else a.

(** [max(l)] and [min(l)] of a list that is not empty *)
Definition list_max (l : list R) : R := fold_left py_maxR (tl l) (hd 0 l).
Definition list_min (l : list R) : R := fold_left py_minR (tl l) (hd 0 l).

(** [sum(l) / len(l)] *)
Definition mean (l : list R) : R := py_sumR l / INR (length l).

(** [sum(w * v for w, v in zip(weights, input_values))] *)
Definition weighted (weights input_values : list R) : R :=
  py_sumR (List.map (fun wv => fst wv * snd wv) (combine weights input_values)).

(** the inputs that have an indicator row, a value row and a value that
    reads as a number, lines 109-123 *)
Definition gather (src : Sources) (mission_id : Z) (input_ids : list Z) : list InputInfo :=
  omap (fun ind_id =>
    match indicator_by_id src ind_id, value_by_indicator src mission_id ind_id with
    | Some indicator, Some value_obj =>
        match float_of_value src (iv_value value_obj) with
        | Ok v => Some {| in_id := ind_id; in_name := ind_name indicator; in_value := v |}
        | Raise _ => None
        end
    | _, _ => None
    end) input_ids.

(** the fused value of inputs that are not empty, lines 134-148 *)
Definition fused_value (src : Sources) (rule : FusionRule) (input_values : list R) : R :=
  if String.eqb (method rule) "mean" then mean input_values
  else if String.eqb (method rule) "weighted_sum" then
    match loads_weights src (weights_json rule) with
    | Ok weights =>
        let weights :=
          if Nat.eqb (length weights) (length input_values) then weights
          else repeat (1 / INR (length input_values)) (length input_values) in
        weighted weights input_values
    | Raise _ => mean input_values
    end
  else if String.eqb (method rule) "max" then list_max input_values
  else if String.eqb (method rule) "min" then list_min input_values
  else mean input_values.

(** [apply_fusion_rule] *)
Definition apply_fusion_rule (src : Sources) (rule : FusionRule) (mission_id : Z)
  : outcome FusionResult :=
  input_ids ← match loads_ids src (input_indicator_ids rule) with
              | Ok (Some ids) => Ok ids
              | Ok None => Raise (OtherError "object is not iterable")
              | Raise _ => Ok []
              end;
  let input_info := gather src mission_id input_ids in
  let input_values := List.map in_value input_info in
  match input_values with
  | [] =>
      Ok {| fr_name := output_indicator_name rule; fr_value := 0; fr_unit := None;
            fr_method := method rule; fr_inputs := []; fr_error := Some "无有效输入值" |}
  | _ =>
      Ok {| fr_name := output_indicator_name rule;
            fr_value := fused_value src rule input_values;
            fr_unit := Some (output_unit rule); fr_method := method rule;
            fr_inputs := input_info; fr_error := None |}
  end.

End Fusion.

(** * Theorems *)

Section RiskMatrixScoring.
Import Dao Types Base RiskMatrix.

Lemma from_score_cases (r : Z) :
  (r <= 4 /\ from_score r = LOW) \/
  (5 <= r <= 9 /\ from_score r = MEDIUM) \/
  (10 <= r <= 16 /\ from_score r = HIGH) \/
  (17 <= r /\ from_score r = EXTREME).
Proof.
  unfold from_score.
  destruct (Z.leb_spec r 4); [left; split; [lia | reflexivity] |].
  destruct (Z.leb_spec r 9); [right; left; split; [lia | reflexivity] |].
  destruct (Z.leb_spec r 16); [right; right; left; split; [lia | reflexivity] |].
  right; right; right; split; [lia | reflexivity].
Qed.

Lemma from_score_mono (r1 r2 : Z) :
  r1 <= r2 -> (level_rank (from_score r1) <= level_rank (from_score r2))%nat.
Proof.
  intros Hle.
  destruct (from_score_cases r1) as [[H1 ->] | [[H1 ->] | [[H1 ->] | [H1 ->]]]];
    destruct (from_score_cases r2) as [[H2 ->] | [[H2 ->] | [[H2 ->] | [H2 ->]]]];
    simpl; lia.
Qed.

Lemma from_score_spec (r : Z) :
  (from_score r = LOW <-> r <= 4) /\
  (from_score r = MEDIUM <-> 5 <= r <= 9) /\
  (from_score r = HIGH <-> 10 <= r <= 16) /\
  (from_score r = EXTREME <-> 17 <= r).
Proof.
  destruct (from_score_cases r) as [[H ->] | [[H ->] | [[H ->] | [H ->]]]];
    repeat split; intros; try discriminate; try lia.
Qed.

Definition five_by_five (m : list (list Z)) : Prop :=
  length m = 5%nat /\ Forall (fun row => length row = 5%nat) m.

Lemma py_index_in_range (len : nat) (i : Z) :
  0 <= i < Z.of_nat len -> py_index len i = Ok (Z.to_nat i).
Proof.
  intros H. unfold py_index.
  destruct (Z.leb_spec 0 i); [|lia]. destruct (Z.ltb_spec i (Z.of_nat len)); [|lia].
  reflexivity.
Qed.

Lemma matrix_incr_in_range (m : list (list Z)) (l s : Z) :
  five_by_five m -> 1 <= l <= 5 -> 1 <= s <= 5 ->
  exists m', matrix_incr m (l - 1) (s - 1) = Ok m' /\ five_by_five m'.
Proof.
  intros [Hlen Hrows] Hl Hs. unfold matrix_incr.
  rewrite py_index_in_range by lia. cbn [mbind outcome_bind].
  destruct (m !! Z.to_nat (l - 1)) as [row|] eqn:Hrow.
  2:{ apply lookup_ge_None in Hrow. lia. }
  assert (Hr : length row = 5%nat).
  { rewrite Forall_forall in Hrows. apply Hrows. eapply list_elem_of_lookup_2, Hrow. }
  change (default [] (Some row)) with row.
  rewrite py_index_in_range by lia. cbn [mbind outcome_bind].
  eexists. split; [reflexivity|]. split.
  - by rewrite length_insert.
  - apply Forall_insert; [done|]. by rewrite length_insert.
Qed.

Lemma fill_matrix_in_range (ers : list RiskEventResult) :
  Forall (fun er => 1 <= rer_likelihood er <= 5 /\ 1 <= rer_severity er <= 5) ers ->
  forall m me, five_by_five m ->
  exists m' me', fill_matrix ers m me = Ok (m', me') /\ five_by_five m'.
Proof.
  induction 1 as [|er ers [Hl Hs] _ IH]; intros m me Hm; cbn [fill_matrix].
  - eauto.
  - destruct (matrix_incr_in_range m _ _ Hm Hl Hs) as (m1 & -> & Hm1).
    cbn [mbind outcome_bind]. apply IH, Hm1.
Qed.

(** C3. For the events of a mission whose L and S all lie in 1..5, [run]
    returns one result per event with R = L*S, 1 <= R <= 25 and the level
    [from_score R]; [from_score] is monotone in R and its classes are
    exactly R <= 4 Low, 5..9 Medium, 10..16 High, R >= 17 Extreme. *)
Theorem risk_matrix_scoring (st : Store) (context : Context) (mission_id : Z)
    (events : list RiskEvent) :
  ctx_mission_id context = Some mission_id ->
  ctx_params context <> Some NotADict ->
  risk_events_by_mission st (Some mission_id) = Ok events ->
  Forall (fun e => 1 <= likelihood e <= 5 /\ 1 <= severity e <= 5) events ->
  (exists m d,
     RiskMatrix.run st context = Ok m /\ success m = true /\ data m = Some d
     /\ Forall2 (fun e er =>
                   risk_score er = likelihood e * severity e
                   /\ 1 <= risk_score er <= 25
                   /\ rer_level er = value (from_score (risk_score er)))
                events (rm_events (rmd_result d)))
  /\ (forall r1 r2, r1 <= r2 ->
        (level_rank (from_score r1) <= level_rank (from_score r2))%nat)
  /\ (forall r, (from_score r = LOW <-> r <= 4)
              /\ (from_score r = MEDIUM <-> 5 <= r <= 9)
              /\ (from_score r = HIGH <-> 10 <= r <= 16)
              /\ (from_score r = EXTREME <-> 17 <= r))
  /\ from_score 4 = LOW /\ from_score 5 = MEDIUM /\ from_score 9 = MEDIUM
  /\ from_score 10 = HIGH /\ from_score 16 = HIGH /\ from_score 17 = EXTREME.
Proof.
  intros Hid Hparams Hev Hrange.
  split; [|split; [apply from_score_mono | split; [apply from_score_spec | by repeat split]]].
  assert (Hscored : Forall2 (fun e er =>
                   risk_score er = likelihood e * severity e
                   /\ 1 <= risk_score er <= 25
                   /\ rer_level er = value (from_score (risk_score er)))
                events (List.map score_event events)).
  { apply Forall2_fmap_r, Forall_Forall2_diag. eapply Forall_impl; [exact Hrange|].
    intros e [Hl Hs]. cbn. split; [reflexivity|]. split; [nia | reflexivity]. }
  unfold RiskMatrix.run. rewrite Hid.
  assert (Hget : exists n, params_get (default (Dict empty_params) (ctx_params context))
                             Base.top_n 10 = Ok n).
  { destruct (ctx_params context) as [[|d]|]; [done | |]; cbn; eauto. }
  destruct Hget as [n ->]. cbn [mbind outcome_bind].
  unfold run_body. rewrite Hev. cbn [mbind outcome_bind].
  destruct events as [|e events]; [cbn; eauto 10|].
  destruct (fill_matrix_in_range (List.map score_event (e :: events)))
    with (m := zero_matrix) (me := (∅ : gmap string (list Z))) as (m' & me' & -> & _).
  { apply Forall_fmap. eapply Forall_impl; [exact Hrange|]. by intros ? [? ?]. }
  { split; [reflexivity | by repeat constructor]. }
  cbn [mbind outcome_bind try_except]. eexists _, _. repeat split. exact Hscored.
Qed.

End RiskMatrixScoring.

Lemma risk_matrix_scoring_witness :
  exists m d,
    RiskMatrix.run
      (Models.store_of_events
         [Models.mk_event 1 3 5; Models.mk_event 2 2 5; Models.mk_event 3 3 4])
      {| Base.ctx_mission_id := Some 1; Base.ctx_params := None |} = Ok m
    /\ Base.success m = true /\ Base.data m = Some d.
Proof.
  destruct (risk_matrix_scoring
              (Models.store_of_events
                 [Models.mk_event 1 3 5; Models.mk_event 2 2 5; Models.mk_event 3 3 4])
              {| Base.ctx_mission_id := Some 1; Base.ctx_params := None |} 1
              [Models.mk_event 1 3 5; Models.mk_event 2 2 5; Models.mk_event 3 3 4])
    as [(m & d & Hrun & Hs & Hd & _) _].
  - reflexivity.
  - discriminate.
  - reflexivity.
  - repeat constructor; simpl; lia.
  - exists m, d. auto.
Defined.

(** the scenario of section 8: R = [15, 10, 12], all High, total 37,
    average 12.33, and the L=3, S=5 event on top *)
Example risk_matrix_scenario :
  exists m d,
    RiskMatrix.run
      (Models.store_of_events
         [Models.mk_event 1 3 5; Models.mk_event 2 2 5; Models.mk_event 3 3 4])
      {| Base.ctx_mission_id := Some 1;
         Base.ctx_params := Some (Base.Dict
           {| Base.top_n := Some 1; Base.analysis_type := None;
              Base.default_severity := None; Base.sensitivity_delta := None;
              Base.top_n_sensitivity := None; Base.use_dataset := None;
              Base.default_sigma_ratio := None; Base.risk_direction := None;
              Base.n_samples := None; Base.random_seed := None;
              Base.run_risk_matrix := None; Base.run_fmea := None;
              Base.run_ahp := None |}) |} = Ok m
    /\ Base.data m = Some d
    /\ List.map Types.risk_score (Types.rm_events (RiskMatrix.rmd_result d)) = [15; 10; 12]
    /\ List.map Types.rer_level (Types.rm_events (RiskMatrix.rmd_result d))
       = ["High"; "High"; "High"]
    /\ RiskMatrix.rmd_total_risk d = 37
    /\ RiskMatrix.rmd_avg_risk d = (1233 # 100)%Q
    /\ List.map Types.rer_id (Types.rm_top_n (RiskMatrix.rmd_result d)) = [1].
Proof. eexists _, _. split; [vm_compute; reflexivity|]. repeat split. Qed.

(** ** Fault tree: probability propagation *)

Section FTAPropagation.
Import Dao FTA.

Variable node_dict : odict FTANode.
Variable children_map : gmap Z (list Z).

(** the edges form a DAG: some rank decreases along every edge *)
Variable rank : Z -> nat.
Hypothesis Hdag :
  map_Forall (fun k cs => Forall (fun c => (rank c < rank k)%nat) cs) children_map.

Let children (k : Z) : list Z := default [] (children_map !! k).

Lemma children_rank (k c : Z) : In c (children k) -> (rank c < rank k)%nat.
Proof.
  unfold children. destruct (children_map !! k) as [cs|] eqn:Hk; simpl; [|tauto].
  intros Hin. specialize (Hdag k cs Hk). simpl in Hdag.
  rewrite Forall_forall in Hdag. apply Hdag. by apply list_elem_of_In.
Qed.

Lemma node_prob_stable (n m : nat) (k : Z) :
  (rank k < n)%nat -> (rank k < m)%nat ->
  node_prob n node_dict children_map k = node_prob m node_dict children_map k.
Proof.
  revert m k. induction n as [|n IH]; intros m k Hn Hm; [lia|].
  destruct m as [|m]; [lia|]. cbn [node_prob].
  destruct (od_get node_dict k) as [node|]; [|reflexivity].
  destruct (String.eqb (node_type node) "BASIC"); [reflexivity|].
  pose proof (children_rank k) as Hr. unfold children in Hr.
  destruct (default [] (children_map !! k)) as [|c cs]; [reflexivity|].
  assert (Heq : List.map (node_prob n node_dict children_map) (c :: cs)
              = List.map (node_prob m node_dict children_map) (c :: cs)).
  { apply List.map_ext_in. intros a Ha. specialize (Hr a Ha). apply IH; lia. }
  rewrite Heq. reflexivity.
Qed.

(** the value the rule gives to a node *)
Let V (k : Z) : Q := node_prob (S (rank k)) node_dict children_map k.

Let memo_ok (result : gmap Z Q) : Prop :=
  forall k v, result !! k = Some v -> v = V k.

Lemma memo_ok_insert (result : gmap Z Q) (k : Z) :
  memo_ok result -> memo_ok (<[k := V k]> result).
Proof.
  intros H k' v. rewrite lookup_insert. case_decide as Hd.
  - intros [= <-]. by subst.
  - apply H.
Qed.

Lemma mapM_calc_ok (fuel : nat) (cs : list Z) :
  (forall c result, (rank c < fuel)%nat -> memo_ok result ->
     exists result', _calc_node_prob fuel node_dict children_map c result = Ok (V c, result')
                     /\ memo_ok result') ->
  forall result, (forall c, In c cs -> (rank c < fuel)%nat) -> memo_ok result ->
  exists result',
    mapM_state (_calc_node_prob fuel node_dict children_map) cs result
      = Ok (List.map V cs, result') /\ memo_ok result'.
Proof.
  intros IH. induction cs as [|c cs IHcs]; intros result Hr Hok; simpl.
  - eauto.
  - destruct (IH c result) as (r1 & -> & Hok1); [apply Hr; by left | done |].
    destruct (IHcs r1) as (r2 & -> & Hok2); [intros; apply Hr; by right | done |].
    eauto.
Qed.

Lemma V_unfold (k : Z) :
  V k = match od_get node_dict k with
        | None => 0%Q
        | Some node =>
            if String.eqb (node_type node) "BASIC" then
              match probability node with Some p => p | None => (1 # 100)%Q end
            else
              match children k with
              | [] => 0%Q
              | cs =>
                  if String.eqb (gate_type node) "AND" then
                    fold_left (fun prob p => (prob * p)%Q) (List.map V cs) 1%Q
                  else
                    (1 - fold_left (fun prob p => (prob * (1 - p))%Q) (List.map V cs) 1)%Q
              end
        end.
Proof.
  unfold V at 1. cbn [node_prob].
  destruct (od_get node_dict k) as [node|]; [|reflexivity].
  destruct (String.eqb (node_type node) "BASIC"); [reflexivity|].
  pose proof (children_rank k) as Hr. unfold children in *.
  destruct (default [] (children_map !! k)) as [|c cs]; [reflexivity|].
  assert (Hmap : List.map (node_prob (rank k) node_dict children_map) (c :: cs)
               = List.map V (c :: cs)).
  { apply List.map_ext_in. intros a Ha. specialize (Hr a Ha). unfold V.
    apply node_prob_stable; lia. }
  rewrite Hmap. reflexivity.
Qed.

Lemma calc_node_prob_ok (fuel : nat) :
  forall k result, (rank k < fuel)%nat -> memo_ok result ->
  exists result', _calc_node_prob fuel node_dict children_map k result = Ok (V k, result')
                  /\ memo_ok result'
                  /\ (is_Some (od_get node_dict k) -> result' !! k = Some (V k)).
Proof.
  induction fuel as [|fuel IH]; intros k result Hk Hok; [lia|].
  cbn [_calc_node_prob].
  destruct (result !! k) as [p|] eqn:Hmemo.
  { exists result. rewrite (Hok k p Hmemo). rewrite (Hok k p Hmemo) in Hmemo. auto. }
  rewrite (V_unfold k).
  destruct (od_get node_dict k) as [node|] eqn:Hnode.
  2:{ exists result. split; [done|]. split; [done|]. intros [? [=]]. }
  assert (Hins : forall v, v = V k -> memo_ok (<[k := v]> result) ).
  { intros v ->. by apply memo_ok_insert. }
  destruct (String.eqb (node_type node) "BASIC") eqn:Hbasic.
  { eexists. split; [reflexivity|]. split.
    - apply Hins. by rewrite V_unfold, Hnode, Hbasic.
    - intros _. by rewrite lookup_insert_eq. }
  pose proof (children_rank k) as Hr.
  pose proof (V_unfold k) as HV. rewrite Hnode, Hbasic in HV.
  unfold children in *.
  destruct (default [] (children_map !! k)) as [|c cs] eqn:Hcs.
  { eexists. split; [reflexivity|]. split.
    - by apply Hins.
    - intros _. by rewrite lookup_insert_eq. }
  destruct (mapM_calc_ok fuel (c :: cs)) with (result := result) as (r1 & Hm & Hok1).
  { intros c' r' Hc' Hr'. destruct (IH c' r' Hc' Hr') as (r'' & ? & ? & _). eauto. }
  { intros c' Hc'. specialize (Hr c' Hc'). lia. }
  { done. }
  rewrite Hm. eexists. split; [reflexivity|]. split.
  - rewrite <- HV. by apply memo_ok_insert.
  - intros _. by rewrite lookup_insert_eq.
Qed.

(** C2. In a fault-tree DAG, evaluating a node of the node dict from an empty
    memo returns a probability [p] and records it under the node's id, where
    [p] is: for a BASIC node its stored probability, 0.01 when none is set;
    for a non-basic node without children 0; for an AND gate the product of
    the probabilities its children evaluate to; for any other gate type
    (OR, or none given) one minus the product of their complements. An AND
    gate over children [0.5, 0.5] gives 0.25, an OR gate over them 0.75. *)
Theorem fta_probability_propagation (fuel : nat) (k : Z) (node : FTANode) :
  (rank k < fuel)%nat ->
  od_get node_dict k = Some node ->
  (exists p result,
     _calc_node_prob fuel node_dict children_map k ∅ = Ok (p, result)
     /\ result !! k = Some p
     /\ (node_type node = "BASIC" ->
           p = match probability node with Some q => q | None => (1 # 100)%Q end)
     /\ (node_type node <> "BASIC" ->
           match default [] (children_map !! k) with
           | [] => p = 0%Q
           | cs =>
               exists ps,
                 Forall2 (fun c pc => exists r,
                            _calc_node_prob fuel node_dict children_map c ∅ = Ok (pc, r))
                         cs ps
                 /\ (gate_type node = "AND" ->
                       p = fold_left (fun prob pi => (prob * pi)%Q) ps 1%Q)
                 /\ (gate_type node <> "AND" ->
                       p = (1 - fold_left (fun prob pi => (prob * (1 - pi))%Q) ps 1)%Q)
           end))
  /\ (exists probs,
        _calculate_probabilities 2 1
          (two_input_tree "AND" (Some (1 # 2)%Q) (Some (1 # 2)%Q)) two_input_edges
          = Ok probs /\ probs !! 1 = Some (1 # 4)%Q)
  /\ (exists probs,
        _calculate_probabilities 2 1
          (two_input_tree "OR" (Some (1 # 2)%Q) (Some (1 # 2)%Q)) two_input_edges
          = Ok probs /\ probs !! 1 = Some (3 # 4)%Q).
Proof.
  intros Hk Hnode. split; [|split; eexists; (split; [vm_compute; reflexivity | reflexivity])].
  destruct (calc_node_prob_ok fuel k ∅ Hk) as (result & Hcalc & _ & Hres).
  { intros ? ? H. by rewrite lookup_empty in H. }
  exists (V k), result. split; [done|]. split; [eauto|].
  pose proof (V_unfold k) as HV. rewrite Hnode in HV. split.
  - intros Hb. apply String.eqb_eq in Hb. by rewrite Hb in HV.
  - intros Hb. apply String.eqb_neq in Hb. rewrite Hb in HV.
    pose proof (children_rank k) as Hr. unfold children in *.
    destruct (default [] (children_map !! k)) as [|c cs]; [done|].
    exists (List.map V (c :: cs)). split; [|split].
    + apply Forall2_fmap_r, Forall_Forall2_diag, Forall_forall.
      intros x Hx. apply list_elem_of_In in Hx. specialize (Hr x Hx).
      destruct (calc_node_prob_ok fuel x ∅) as (r & Hc & _); [lia | |eauto].
      intros ? ? H. by rewrite lookup_empty in H.
    + intros Hg. apply String.eqb_eq in Hg. by rewrite Hg in HV.
    + intros Hg. apply String.eqb_neq in Hg. by rewrite Hg in HV.
Qed.

End FTAPropagation.

Lemma fta_probability_propagation_witness :
  exists p result,
    FTA._calc_node_prob 2 (FTA.two_input_tree "AND" (Some (1 # 2)%Q) None)
      FTA.two_input_edges 1 ∅ = Ok (p, result)
    /\ result !! 1 = Some p.
Proof.
  destruct (fta_probability_propagation
              (FTA.two_input_tree "AND" (Some (1 # 2)%Q) None)
              FTA.two_input_edges FTA.two_input_rank)
    with (fuel := 2%nat) (k := 1) (node := FTA.mk_node 1 "TOP" "AND" None)
    as [(p & result & H1 & H2 & _) _].
  - apply (bool_decide_unpack _). vm_compute. exact I.
  - vm_compute. lia.
  - reflexivity.
  - eauto.
Defined.

(** ** Fault tree: what the sensitivity analysis leaves in the node dict *)

Section FTASensitivity.
Import Dao FTA.

(** the probability the loop writes back into a basic node *)
Definition written_back (n : FTANode) : FTANode :=
  {| fn_id := fn_id n; fn_mission_id := fn_mission_id n; fn_name := fn_name n;
     node_type := node_type n; gate_type := gate_type n;
     probability := Some (if prob_truthy (probability n)
                          then default 0%Q (probability n) else (1 # 100)%Q);
     fn_severity := fn_severity n; fn_desc := fn_desc n |}.

Lemma written_back_truthy (n : FTANode) :
  prob_truthy (probability n) = true -> written_back n = n.
Proof.
  destruct n as [i m nm ty g [p|] sv d]; unfold written_back; simpl; [|discriminate].
  intros ->. reflexivity.
Qed.

Lemma written_back_idem (n : FTANode) : written_back (written_back n) = written_back n.
Proof.
  apply written_back_truthy. unfold written_back; simpl.
  destruct (prob_truthy (probability n)) eqn:Hp; [|reflexivity].
  destruct (probability n); [exact Hp | discriminate].
Qed.

Lemma perturb_basic_node_store fuel top cm delta base k node nd item nd' :
  od_get nd k = Some node ->
  perturb_basic_node fuel top cm delta base k node nd = (Ok item, nd') ->
  od_keys nd' = od_keys nd /\ od_map nd' = <[k := written_back node]> (od_map nd).
Proof.
  unfold perturb_basic_node, od_get. intros Hk.
  destruct (_calculate_probabilities fuel top _ cm); [|discriminate].
  destruct (_calculate_probabilities fuel top _ cm); [|discriminate].
  intros [= _ <-]. split; [reflexivity|]. cbn [set_probability od_map od_keys].
  apply map_eq. intros j. rewrite lookup_insert. case_decide as Hj.
  - subst j. rewrite !lookup_alter_eq, Hk. reflexivity.
  - by rewrite !lookup_alter_ne.
Qed.

Lemma sensitivity_loop_store fuel top cm delta base keys :
  forall results nd items nd',
    sensitivity_loop fuel top cm delta base keys results nd = (Ok items, nd') ->
    od_keys nd' = od_keys nd /\
    forall k, od_get nd' k =
              if decide (k ∈ keys) then written_back <$> od_get nd k else od_get nd k.
Proof.
  induction keys as [|k0 keys IH]; intros results nd items nd'; cbn [sensitivity_loop].
  - intros [= _ <-]. split; [reflexivity|]. intros k. rewrite decide_False; [done | apply not_elem_of_nil].
  - destruct (od_get nd k0) as [node|] eqn:Hk0.
    + destruct (perturb_basic_node fuel top cm delta base k0 node nd) as [[item|e] nd1] eqn:Hp;
        [|discriminate].
      destruct (perturb_basic_node_store _ _ _ _ _ _ _ _ _ _ Hk0 Hp) as [Hkeys Hmap].
      intros Hloop. destruct (IH _ _ _ _ Hloop) as [Hkeys' Hget].
      split; [congruence|]. intros k. rewrite Hget. unfold od_get in *. rewrite Hmap.
      rewrite lookup_insert. destruct (decide (k0 = k)) as [<-|Hne].
      * rewrite (decide_True (P := k0 ∈ k0 :: keys)) by (apply elem_of_cons; by left). rewrite Hk0. simpl.
        case_decide; simpl; by rewrite ?written_back_idem.
      * destruct (decide (k ∈ keys)) as [Hin|Hnin].
        -- rewrite decide_True by (apply elem_of_cons; by right). reflexivity.
        -- rewrite decide_False; [reflexivity|]. rewrite elem_of_cons. intros [?|?]; congruence.
    + intros Hloop. destruct (IH _ _ _ _ Hloop) as [Hkeys' Hget].
      split; [done|]. intros k. rewrite Hget.
      destruct (decide (k0 = k)) as [<-|Hne].
      * unfold od_get in *. rewrite Hk0. by repeat case_decide.
      * destruct (decide (k ∈ keys)) as [Hin|Hnin].
        -- rewrite decide_True by (apply elem_of_cons; by right). reflexivity.
        -- rewrite decide_False; [reflexivity|]. rewrite elem_of_cons. intros [?|?]; congruence.
Qed.

(** After an analysis that returns, a node holds what was written back into
    it if it is a listed basic event, and is untouched otherwise. *)
Lemma sensitivity_analysis_store fuel top nd cm delta top_n items nd' :
  _sensitivity_analysis fuel top nd cm delta top_n = (Ok items, nd') ->
  forall k, od_get nd' k =
            if decide (k ∈ basic_keys nd) then written_back <$> od_get nd k
            else od_get nd k.
Proof.
  unfold _sensitivity_analysis.
  destruct (basic_keys nd) as [|k0 keys] eqn:Hkeys.
  - intros [= _ <-] k. rewrite decide_False; [done | apply not_elem_of_nil].
  - destruct (_calculate_probabilities fuel top nd cm); [|discriminate].
    destruct (sensitivity_loop _ _ _ _ _ _ _ _) as [[results|e] nd1] eqn:Hloop; [|discriminate].
    intros [= _ <-]. by destruct (sensitivity_loop_store _ _ _ _ _ _ _ _ _ _ Hloop).
Qed.

(** A basic event whose stored probability is neither unset nor zero has it
    back after the analysis. *)
Lemma sensitivity_restores_nonzero fuel top nd cm delta top_n items nd' k node :
  _sensitivity_analysis fuel top nd cm delta top_n = (Ok items, nd') ->
  od_get nd k = Some node ->
  prob_truthy (probability node) = true ->
  od_get nd' k = Some node.
Proof.
  intros Hrun Hk Ht. rewrite (sensitivity_analysis_store _ _ _ _ _ _ _ _ Hrun k).
  rewrite Hk. case_decide; simpl; by rewrite ?written_back_truthy.
Qed.

(** C1 (evaluation at the failing input). TOP = OR(b2, b3) with b2 stored
    at probability 0 and b3 at 0.5: the analysis returns, and b2 is left at
    0.01 instead of 0. *)
Theorem fta_sensitivity_zero_probability_overwritten :
  let nd := two_input_tree "OR" (Some 0%Q) (Some (1 # 2)%Q) in
  exists items nd',
    _sensitivity_analysis 3 1 nd two_input_edges (1 # 10) 10 = (Ok items, nd')
    /\ probability <$> od_get nd 2 = Some (Some 0%Q)
    /\ probability <$> od_get nd' 2 = Some (Some (1 # 100)%Q)
    /\ od_get nd' 3 = od_get nd 3.
Proof.
  cbv zeta. eexists _, _. split; [vm_compute; reflexivity|].
  split; [reflexivity|]. split; reflexivity.
Qed.

End FTASensitivity.

(** ** Improved AHP: sums, weights and the composite score *)

Section AHPScore.
Import Dao AHP.
Local Open Scope R_scope.

Lemma fold_left_Rplus_acc {A} (f : A -> R) (l : list A) (a : R) :
  fold_left (fun acc r => acc + f r) l a = a + fold_left (fun acc r => acc + f r) l 0.
Proof.
  revert a. induction l as [|x l IH]; intros a; simpl; [lra|].
  rewrite (IH (a + f x)), (IH (0 + f x)). lra.
Qed.

Lemma sumf_cons {A} (f : A -> R) (x : A) (l : list A) : sumf f (x :: l) = f x + sumf f l.
Proof. unfold sumf. simpl. rewrite fold_left_Rplus_acc. lra. Qed.

Lemma sumf_scal {A} (f : A -> R) (k : R) (l : list A) :
  sumf (fun r => k * f r) l = k * sumf f l.
Proof.
  induction l as [|x l IH]; [unfold sumf; simpl; lra|].
  rewrite !sumf_cons, IH. lra.
Qed.

Lemma sumf_ext_in {A} (f g : A -> R) (l : list A) :
  (forall x, In x l -> f x = g x) -> sumf f l = sumf g l.
Proof.
  induction l as [|x l IH]; intros H; [reflexivity|].
  rewrite !sumf_cons, (H x), IH; [reflexivity | | by left].
  intros y Hy. apply H. by right.
Qed.




Lemma py_sumR_map {A} (f : A -> R) (l : list A) : py_sumR (List.map f l) = sumf f l.
Proof.
  unfold py_sumR, sumf. generalize 0. induction l as [|x l IH]; intros a; simpl; [done|].
  apply IH.
Qed.

Lemma sqrt_2PI_pos : 0 < sqrt (2 * PI).
Proof. apply sqrt_lt_R0. pose proof PI_RGT_0. lra. Qed.

Lemma sigma_pos (ratio : R) (d : IndicatorData) : 0 < s_sigma (score_indicator ratio d).
Proof.
  unfold score_indicator. cbn [s_sigma].
  destruct (Rlt_dec _ 1e-10); lra.
Qed.




Lemma weight_correction_sum_sumf (results : list Scored) :
  weight_correction_sum results = sumf (fun r => s_w r * s_c r) results.
Proof. reflexivity. Qed.


(** the corrected weights are non-negative and sum to 1 when the
    denominator is positive *)
Lemma w_prime_normalised (results : list Scored) :
  0 < weight_correction_sum results ->
  sumf (w_prime results) results = 1.
Proof.
  intros Hpos.
  rewrite (sumf_ext_in _ (fun r => / weight_correction_sum results * (s_w r * s_c r))).
  - rewrite (sumf_scal (fun r => s_w r * s_c r)).
    change (sumf (fun r => s_w r * s_c r) results) with (weight_correction_sum results).
    field. lra.
  - intros r _. unfold w_prime. destruct (Rlt_dec 0 _); [|lra]. field. lra.
Qed.







Lemma score_indicator_fields (ratio : R) (d : IndicatorData) :
  let r := score_indicator ratio d in
  s_z r = (d_value d - default (d_value d) (d_mu d)) / s_sigma r
  /\ s_c r = 1 / (s_sigma r * sqrt (2 * PI)) * exp (- 0.5 * s_z r * s_z r).
Proof. split; reflexivity. Qed.

Lemma score_indicator_at_mean (ratio x w sg : R) (id : Z) :
  1e-10 <= sg ->
  let r := score_indicator ratio (mk_data id x w x sg) in
  s_w r = w /\ s_sigma r = sg /\ s_z r = 0 /\ s_c r = 1 / (sg * sqrt (2 * PI)).
Proof.
  intros Hsg. unfold score_indicator, mk_data.
  cbn [s_w s_sigma s_z s_c d_value d_weight d_mu d_sigma from_option Datatypes.id].
  destruct (Rlt_dec sg 1e-10); [lra|].
  assert ((x - x) / sg = 0) as -> by (unfold Rdiv; lra).
  replace (- 0.5 * 0 * 0) with 0 by lra. rewrite exp_0. repeat split; lra.
Qed.

(** C4 (counterexample). Two indicators at their means (z = 0) with equal
    weights but sigma 1 and sigma 2: the correction factors differ, and the
    first corrected weight is 2/3, not the normalized original weight 1/2. *)
Lemma ahp_zero_deviation_counterexample :
  let data := [mk_data 1 0 1 0 1; mk_data 2 0 1 0 2] in
  let r1 := score_indicator 0.1 (mk_data 1 0 1 0 1) in
  let r2 := score_indicator 0.1 (mk_data 2 0 1 0 2) in
  let results := List.map (score_indicator 0.1) data in
  Forall (fun d => d_mu d = Some (d_value d)) data
  /\ s_z r1 = 0 /\ s_z r2 = 0
  /\ s_c r1 <> s_c r2
  /\ w_prime results r1 = 2 / 3
  /\ s_w r1 / py_sumR (List.map d_weight data) = 1 / 2.
Proof.
  cbv zeta.
  destruct (score_indicator_at_mean 0.1 0 1 1 1) as (Hw1 & _ & Hz1 & Hc1); [lra|].
  destruct (score_indicator_at_mean 0.1 0 1 2 2) as (Hw2 & _ & Hz2 & Hc2); [lra|].
  cbv zeta in *. pose proof sqrt_2PI_pos as HK.
  split; [by repeat constructor|]. split; [exact Hz1|]. split; [exact Hz2|].
  split; [|split].
  - rewrite Hc1, Hc2. intros Heq.
    apply (f_equal (fun t => t * (2 * sqrt (2 * PI)))) in Heq.
    field_simplify in Heq; lra.
  - unfold w_prime, weight_correction_sum. cbn [List.map fold_left].
    rewrite Hw1, Hw2, Hc1, Hc2.
    destruct (Rlt_dec 0 _) as [_|Hn].
    + field. lra.
    + exfalso. apply Hn.
      replace (0 + 1 * (1 / (1 * sqrt (2 * PI))) + 1 * (1 / (2 * sqrt (2 * PI))))
        with (3 / 2 * / sqrt (2 * PI)) by (field; lra).
      apply Rmult_lt_0_compat; [lra | by apply Rinv_0_lt_compat].
  - rewrite Hw1. unfold py_sumR. cbn. lra.
Qed.

(** C4 (amended). For a non-empty set of indicators that all sit at their
    mean (x = mu), all have the same sigma once defaulted and floored, and
    whose weights sum to a positive number: every z is 0, all correction
    factors are equal, each corrected weight is w / sum(w), and the
    corrected weights sum to 1. *)
Theorem ahp_zero_deviation_equal_sigma (ratio sg : R) (data : list IndicatorData) :
  data <> [] ->
  Forall (fun d => default (d_value d) (d_mu d) = d_value d) data ->
  Forall (fun d => s_sigma (score_indicator ratio d) = sg) data ->
  0 < py_sumR (List.map d_weight data) ->
  let results := List.map (score_indicator ratio) data in
  Forall (fun r => s_z r = 0 /\ s_c r = 1 / (sg * sqrt (2 * PI))) results
  /\ Forall (fun r => w_prime results r = s_w r / py_sumR (List.map d_weight data)) results
  /\ py_sumR (List.map (w_prime results) results) = 1.
Proof.
  intros Hne Hmu Hsg Hsum results.
  assert (Hsgpos : 0 < sg).
  { destruct data as [|d data]; [done|]. apply Forall_cons_1 in Hsg as [<- _].
    apply sigma_pos. }
  pose proof sqrt_2PI_pos as HK.
  assert (Hzc : Forall (fun r => s_z r = 0 /\ s_c r = 1 / (sg * sqrt (2 * PI))) results).
  { subst results. apply Forall_fmap.
    rewrite Forall_forall in *. intros d Hd. specialize (Hmu d Hd). specialize (Hsg d Hd).
    destruct (score_indicator_fields ratio d) as [Hz Hc]. cbv zeta in Hz, Hc.
    rewrite Hmu in Hz. rewrite Hsg in Hz, Hc.
    assert (Hz0 : s_z (score_indicator ratio d) = 0) by (rewrite Hz; unfold Rdiv; lra).
    split; [exact Hz0|]. rewrite Hc, Hz0.
    replace (- 0.5 * 0 * 0) with 0 by lra. rewrite exp_0. lra. }
  assert (Hwcs : weight_correction_sum results
                 = 1 / (sg * sqrt (2 * PI)) * py_sumR (List.map d_weight data)).
  { rewrite weight_correction_sum_sumf.
    rewrite (sumf_ext_in _ (fun r => 1 / (sg * sqrt (2 * PI)) * s_w r)).
    - rewrite (sumf_scal s_w). f_equal. subst results.
      rewrite py_sumR_map. clear. unfold sumf. generalize 0.
      induction data as [|d data IH]; intros a; simpl; [done|]. apply IH.
    - intros r Hr. rewrite Forall_forall in Hzc.
      destruct (Hzc r) as [_ ->]; [by apply list_elem_of_In | lra]. }
  assert (Hpos : 0 < weight_correction_sum results).
  { rewrite Hwcs. apply Rmult_lt_0_compat; [|exact Hsum].
    apply Rdiv_lt_0_compat; [lra | by apply Rmult_lt_0_compat]. }
  split; [exact Hzc|]. split.
  - rewrite Forall_forall in *. intros r Hr. destruct (Hzc r Hr) as [_ Hc].
    unfold w_prime. destruct (Rlt_dec 0 _); [|lra]. rewrite Hwcs, Hc. field.
    split; [lra | split; lra].
  - rewrite py_sumR_map. by apply w_prime_normalised.
Qed.

(** C5 (evaluation at the failing input). One indicator of weight 0: the
    weight-correction denominator is 0 and the corrected weight is
    w / n = 0, not the uniform 1 / n = 1, so the composite score is 0; on
    the same indicator [_calc_ahp_score] of the Monte Carlo model falls
    back to 1 / n and scores 1/2. *)
Theorem ahp_fallback_is_not_uniform :
  let results := List.map (score_indicator 0.1) [mk_data 1 0 0 0 1] in
  weight_correction_sum results = 0
  /\ Forall (fun r => w_prime results r = 0) results
  /\ 1 / INR (length results) = 1
  /\ raw_total_score "higher_worse" results = 0
  /\ MonteCarlo._calc_ahp_score
        [{| e_indicator_id := Some 1%Z; e_name := None; e_value := Some 0;
            e_weight := Some 0; e_mu := Some 0; e_sigma := Some 1;
            e_distribution_type := None; e_dist_params := None |}] = 1 / 2.
Proof.
  cbv zeta.
  destruct (score_indicator_at_mean 0.1 0 0 1 1) as (Hw & _ & Hz & Hc); [lra|].
  cbv zeta in *. cbn [List.map length INR].
  assert (Hwcs : weight_correction_sum [score_indicator 0.1 (mk_data 1 0 0 0 1)] = 0).
  { unfold weight_correction_sum. cbn [fold_left]. rewrite Hw. lra. }
  assert (Hwp : w_prime [score_indicator 0.1 (mk_data 1 0 0 0 1)]
                  (score_indicator 0.1 (mk_data 1 0 0 0 1)) = 0).
  { unfold w_prime. rewrite Hwcs. destruct (Rlt_dec 0 0); [lra|]. rewrite Hw.
    cbn. unfold Rdiv. lra. }
  split; [exact Hwcs|]. split; [by repeat constructor|]. split; [lra|]. split.
  - unfold raw_total_score. cbn [fold_left]. rewrite Hwp. lra.
  - assert (Htw : MonteCarlo.total_weight
                    [{| e_indicator_id := Some 1%Z; e_name := None; e_value := Some 0;
                        e_weight := Some 0; e_mu := Some 0; e_sigma := Some 1;
                        e_distribution_type := None; e_dist_params := None |}] = 1).
    { unfold MonteCarlo.total_weight, py_sumR. cbn [List.map fold_left length e_weight
        from_option Datatypes.id INR]. destruct (Req_dec_T (0 + 0) 0); lra. }
    unfold MonteCarlo._calc_ahp_score. rewrite Htw. cbn [List.map].
    set (r := MonteCarlo.score_entry 1 _).
    assert (Hr : MonteCarlo.r_w r = 0 /\ MonteCarlo.r_z r = 0).
    { subst r. unfold MonteCarlo.score_entry.
      cbn [MonteCarlo.r_w MonteCarlo.r_z e_value e_weight e_mu e_sigma from_option
           Datatypes.id].
      destruct (Rlt_dec 1 1e-10); [lra|]. unfold Rdiv. split; lra. }
    destruct Hr as [Hrw Hrz]. unfold sumf at 1. cbn [fold_left].
    unfold MonteCarlo.w_prime, sumf. cbn [fold_left length INR].
    rewrite Hrw, Hrz. destruct (Rlt_dec 0 _) as [Hlt|_]; [lra|].
    rewrite Ropp_0, exp_0. lra.
Qed.


Lemma ahp_zero_deviation_equal_sigma_witness :
  let results := List.map (AHP.score_indicator 0.1)
                   [AHP.mk_data 1 0 1 0 1; AHP.mk_data 2 5 3 5 1] in
  py_sumR (List.map (AHP.w_prime results) results) = 1.
Proof.
  apply (ahp_zero_deviation_equal_sigma 0.1 1 [AHP.mk_data 1 0 1 0 1; AHP.mk_data 2 5 3 5 1]).
  - discriminate.
  - repeat constructor.
  - repeat constructor; unfold AHP.score_indicator; simpl;
      destruct (Rlt_dec 1 1e-10); lra.
  - unfold py_sumR. simpl. lra.
Defined.

End AHPScore.

(** ** The model registry *)

Section Registry.
Import Base.

(** a registry built from the empty one by [register] and [unregister] *)
Inductive reachable : gmap string ModelBase -> Prop :=
  | reachable_empty : reachable ∅
  | reachable_register m reg : reachable reg -> reachable (register m reg)
  | reachable_unregister id reg : reachable reg -> reachable (unregister id reg).

Lemma reachable_keyed (reg : gmap string ModelBase) :
  reachable reg -> forall id m, reg !! id = Some m -> mb_model_id m = id.
Proof.
  induction 1 as [|m0 reg _ IH|id0 reg _ IH]; intros id m.
  - by rewrite lookup_empty.
  - unfold register. rewrite lookup_insert. case_decide; [by intros [= <-] | apply IH].
  - unfold unregister. case_decide; [|apply IH].
    rewrite lookup_delete. case_decide; [done | apply IH].
Qed.

Lemma get_all_ids (reg : gmap string ModelBase) :
  reachable reg -> List.map mb_model_id (get_all reg) = get_model_ids reg.
Proof.
  intros Hr. unfold get_all, get_model_ids.
  assert (H : forall kv, kv ∈ map_to_list reg -> mb_model_id kv.2 = kv.1).
  { intros [k v] Hkv. apply elem_of_map_to_list in Hkv. by apply (reachable_keyed reg Hr). }
  induction (map_to_list reg) as [|kv l IH]; [reflexivity|]. cbn.
  rewrite H by (apply elem_of_cons; by left). f_equal. apply IH.
  intros kv' Hkv'. apply H, elem_of_cons. by right.
Qed.

(** C10. Right after [register m], [get] of m's id returns m; [get] returns
    [None] for an id that is not registered (the empty registry, or an id
    just unregistered) and is unchanged by registering under another id;
    registering a second instance under the same id replaces the first; a
    registry built by [register] and [unregister] holds each model under
    its own id, so no two of its instances share a [model_id]. *)
Theorem registry_register_get (reg : gmap string ModelBase) (m : ModelBase) :
  get (register m reg) (mb_model_id m) = Some m
  /\ (forall id, get ∅ id = None)
  /\ (forall id, get (unregister id reg) id = None)
  /\ (forall id, id <> mb_model_id m -> get (register m reg) id = get reg id)
  /\ (forall m2, mb_model_id m2 = mb_model_id m ->
        register m2 (register m reg) = register m2 reg
        /\ get (register m2 (register m reg)) (mb_model_id m) = Some m2)
  /\ (forall reg', reachable reg' ->
        NoDup (List.map mb_model_id (get_all reg'))
        /\ forall id m', get reg' id = Some m' -> mb_model_id m' = id).
Proof.
  unfold get, register, unregister. split; [apply lookup_insert_eq|].
  split; [intros; apply lookup_empty|]. split.
  { intros id. case_decide as Hd; [apply lookup_delete_eq|].
    destruct (reg !! id) eqn:E; [|done]. exfalso. apply Hd. eauto. }
  split; [intros id Hne; by apply lookup_insert_ne|]. split.
  { intros m2 ->. split; [apply insert_insert_eq | apply lookup_insert_eq]. }
  intros reg' Hr. split; [|apply (reachable_keyed reg' Hr)].
  rewrite (get_all_ids reg' Hr). apply NoDup_fst_map_to_list.
Qed.

End Registry.

(** ** Fusion pipeline: mean and deviation of a discrete indicator *)

Section DiscreteDistribution.
Import Dao Pipeline.
Local Open Scope R_scope.

Definition discrete_params (values probs : list R) : DistParams :=
  {| p_mu := None; p_sigma := None; p_low := None; p_mode := None; p_high := None;
     p_values := Some values; p_probs := Some probs |}.

(** C7 (counterexample). Values [0, 1] with declared probabilities
    [1/2, 1/4], which sum to 3/4: the declared probabilities are used as
    they are and mu is 1/4, where the uniform distribution over the values
    has mean 1/2. *)
Lemma discrete_probs_counterexample :
  py_sumR [1 / 2; 1 / 4] = 3 / 4
  /\ (exists sigma,
        _get_mu_sigma "discrete" (discrete_params [0; 1] [1 / 2; 1 / 4]) 0
        = Ok (weighted_mean [0; 1] [1 / 2; 1 / 4], sigma))
  /\ weighted_mean [0; 1] [1 / 2; 1 / 4] = 1 / 4
  /\ weighted_mean [0; 1] [1 / 2; 1 / 2] = 1 / 2.
Proof.
  unfold weighted_mean, py_sumR. cbn [combine List.map fold_left fst snd].
  split; [lra|]. split; [eexists; reflexivity|]. split; lra.
Qed.

(** C7 (amended). For a discrete indicator, with [values] and [probs] as
    declared (or their defaults [x] and [1.0]): when [probs] has as many
    entries as [values], mu is the probability-weighted mean and sigma the
    root of the probability-weighted variance (clamped at 0) under the
    declared [probs], whatever they sum to; when the lengths differ and
    [values] is not empty, the same holds under the uniform distribution
    over [values]. *)
Theorem discrete_mu_sigma (params : DistParams) (default_x : R) :
  let values := default [default_x] (p_values params) in
  let declared := default [1] (p_probs params) in
  let n := length values in
  let moments probs :=
    (weighted_mean values probs,
     sqrt (py_maxR 0 (weighted_var (weighted_mean values probs) values probs))) in
  (length declared = n ->
     _get_mu_sigma "discrete" params default_x = Ok (moments declared))
  /\ (length declared <> n -> values <> [] ->
     _get_mu_sigma "discrete" params default_x = Ok (moments (repeat (1 / INR n) n))).
Proof.
  cbv zeta. unfold _get_mu_sigma, discrete_probs. cbn [String.eqb Ascii.eqb Bool.eqb].
  split.
  - intros Hlen. rewrite Hlen, Nat.eqb_refl. reflexivity.
  - intros Hlen Hne. apply Nat.eqb_neq in Hlen. rewrite Hlen.
    destruct (default [default_x] (p_values params)); [done | reflexivity].
Qed.

Lemma discrete_mu_sigma_witness :
  _get_mu_sigma "discrete" (discrete_params [0; 1] [1 / 2; 1 / 4]) 0
  = Ok (weighted_mean [0; 1] [1 / 2; 1 / 4],
        sqrt (py_maxR 0 (weighted_var (weighted_mean [0; 1] [1 / 2; 1 / 4])
                           [0; 1] [1 / 2; 1 / 4]))).
Proof.
  apply (discrete_mu_sigma (discrete_params [0; 1] [1 / 2; 1 / 4]) 0). reflexivity.
Defined.

End DiscreteDistribution.

(** ** Monte Carlo: a seeded run does not depend on the generator it finds *)

Section MonteCarloSeed.
Import Dao Base MonteCarlo.

(** the seed a context asks for: [params.get("random_seed", 42)], with the
    default params (seed 42) when the context has no params *)
Definition requested_seed (context : Context) : option Z :=
  match ctx_params context with
  | None => Some 42
  | Some (Dict d) => Some (default 42 (random_seed d))
  | Some NotADict => None
  end.

Lemma run_body_seeded {G} (np : Numpy G) (ps : PyLib) (st : Store) (mid : Z)
    (params : PyParams) (seed : Z) (g1 g2 : G) :
  params_get params random_seed 42 = Ok seed ->
  0 <= seed ->
  (exists r g', run_body np ps st mid params g1 = (Ok r, g')
                /\ run_body np ps st mid params g2 = (Ok r, g'))
  \/ (exists e, run_body np ps st mid params g1 = (Raise e, g1)
                /\ run_body np ps st mid params g2 = (Raise e, g2))
  \/ (exists e g', run_body np ps st mid params g1 = (Raise e, g')
                   /\ run_body np ps st mid params g2 = (Raise e, g')).
Proof.
  intros Hseed Hpos. destruct params as [|d]; [discriminate|].
  cbn in Hseed. injection Hseed as Hseed.
  unfold run_body, mbind, sampling_bind, lift, seed_generator. cbn [params_get].
  rewrite Hseed. destruct (Z.leb_spec 0 seed) as [_|]; [|lia].
  destruct (np_seed np seed) as [g'|e]; [|right; left; eauto].
  destruct (run_analyses np ps st mid (Dict d) _ g') as [[r|e] g''] eqn:E.
  - left. eauto.
  - right. right. eauto.
Qed.

(** C9. With a fixed non-negative [random_seed] (given, or the default
    42), [run] returns the same result from any two states of numpy's
    global generator: the per-event statistics, the global statistics and
    the histogram data are those of the seed, for every sample count. *)
Theorem monte_carlo_seed_determinism {G} (np : Numpy G) (ps : PyLib) (st : Store)
    (context : Context) (seed : Z) (g1 g2 : G) :
  requested_seed context = Some seed ->
  0 <= seed ->
  fst (run np ps st context g1) = fst (run np ps st context g2).
Proof.
  intros Hreq Hpos. unfold run.
  destruct (ctx_mission_id context) as [mid|]; [|reflexivity].
  destruct (mid =? 0); [reflexivity|].
  assert (Hget : params_get (default (Dict default_params) (ctx_params context))
                   random_seed 42 = Ok seed).
  { unfold requested_seed in Hreq.
    destruct (ctx_params context) as [[|d]|]; [discriminate | |]; cbn in *; congruence. }
  unfold try_sampling.
  destruct (run_body_seeded np ps st mid _ seed g1 g2 Hget Hpos)
    as [(r & g' & -> & ->) | [(e & -> & ->) | (e & g' & -> & ->)]]; reflexivity.
Qed.

Lemma monte_carlo_seed_determinism_witness :
  fst (run Models.counter_numpy Models.plain_lib Models.empty_store
         {| ctx_mission_id := Some 1; ctx_params := None |} 0%nat)
  = fst (run Models.counter_numpy Models.plain_lib Models.empty_store
           {| ctx_mission_id := Some 1; ctx_params := None |} 7%nat).
Proof.
  apply (monte_carlo_seed_determinism Models.counter_numpy Models.plain_lib
           Models.empty_store {| ctx_mission_id := Some 1; ctx_params := None |} 42).
  - reflexivity.
  - lia.
Defined.

End MonteCarloSeed.

(** ** The model boundary: what [run] hands back to its caller *)

Section ModelBoundary.
Import Dao Base Models.

Context {G : Type} (env : Env G).

Let st := env_store env.
Let np := env_np env.
Let fuel := env_fuel env.

(** the params a model works with: those of the context, or [dflt] *)
Definition params_of (dflt : Params) (ctx : Context) : PyParams :=
  default (Dict dflt) (ctx_params ctx).

Lemma params_of_dict (dflt : Params) (ctx : Context) :
  ctx_params ctx <> Some NotADict -> exists d, params_of dflt ctx = Dict d.
Proof. unfold params_of. destruct (ctx_params ctx) as [[|d]|]; [done | |]; cbn; eauto. Qed.

























End ModelBoundary.



(** * Further properties of the models *)

(** ** Sorting and Top-N *)

Section Ranking.
Context {A : Type} (lt : A -> A -> bool) (le : A -> A -> Prop).

(** [lt] decides a total preorder [le]: [lt x y] is "the key of x is below
    the key of y" *)
Hypothesis le_trans : forall x y z, le x y -> le y z -> le x z.
Hypothesis lt_true : forall x y, lt x y = true -> le x y.
Hypothesis lt_false : forall x y, lt x y = false -> le y x.

Lemma insert_desc_perm (x : A) (l : list A) : Permutation (x :: l) (insert_desc lt x l).
Proof.
  induction l as [|y l IH]; cbn; [done|].
  destruct (lt x y); [|done]. rewrite <- IH. apply perm_swap.
Qed.

Lemma sorted_desc_perm (l : list A) : Permutation l (sorted_desc lt l).
Proof.
  induction l as [|x l IH]; cbn; [done|].
  rewrite <- insert_desc_perm. by constructor.
Qed.

Lemma insert_desc_sorted (x : A) (l : list A) :
  StronglySorted (fun a b => le b a) l ->
  StronglySorted (fun a b => le b a) (insert_desc lt x l).
Proof.
  induction 1 as [|y l Hs IH Hy]; cbn; [repeat constructor|].
  destruct (lt x y) eqn:E.
  - constructor; [exact IH|].
    rewrite <- insert_desc_perm. constructor; [by apply lt_true | exact Hy].
  - constructor; [by constructor|]. constructor; [by apply lt_false|].
    eapply Forall_impl; [exact Hy|]. intros z Hz. eapply le_trans; [exact Hz|].
    by apply lt_false.
Qed.

Lemma sorted_desc_sorted (l : list A) :
  StronglySorted (fun a b => le b a) (sorted_desc lt l).
Proof.
  induction l as [|x l IH]; cbn; [constructor | by apply insert_desc_sorted].
Qed.

End Ranking.

Lemma sorted_desc_by_Z {A} (key : A -> Z) (l : list A) :
  Permutation l (sorted_desc (by_Z key) l)
  /\ StronglySorted (fun a b => key b <= key a) (sorted_desc (by_Z key) l).
Proof.
  split; [apply sorted_desc_perm|].
  apply (sorted_desc_sorted (by_Z key) (fun a b => key a <= key b)); unfold by_Z.
  - intros; lia.
  - intros x y H. apply Z.ltb_lt in H. lia.
  - intros x y H. apply Z.ltb_ge in H. lia.
Qed.

Lemma py_slice_to_nonneg {A} (n : Z) (l : list A) :
  0 <= n -> py_slice_to n l = firstn (Z.to_nat n) l
            /\ Z.of_nat (length (py_slice_to n l)) = Z.min n (Z.of_nat (length l)).
Proof.
  intros Hn. unfold py_slice_to. destruct (Z.leb_spec 0 n); [|lia].
  split; [reflexivity|]. rewrite length_firstn. lia.
Qed.

(** ** Risk matrix: ranking, cell counts and the range of L and S *)

Section RiskMatrixAggregates.
Import Dao Types Base RiskMatrix.

(** [matrix_data[i][j]] *)
Definition cell (m : list (list Z)) (i j : nat) : option Z :=
  row ← m !! i; row !! j.

(** the indices Python accepts for a list of five: -5 .. 4 *)
Definition wraps (v : Z) : Prop := -4 <= v <= 5.

(** the row or column an L or S of that range is counted in *)
Definition wrapped (v : Z) : nat := Z.to_nat (if 1 <=? v then v - 1 else v + 4).

Lemma py_index_5 (v : Z) :
  (wraps v -> py_index 5 (v - 1) = Ok (wrapped v))
  /\ (~ wraps v -> py_index 5 (v - 1) = Raise (IndexError "list index out of range")).
Proof.
  unfold py_index, wraps, wrapped. split; intros H.
  - destruct (Z.leb_spec 1 v).
    + destruct (Z.leb_spec 0 (v - 1)); [|lia].
      destruct (Z.ltb_spec (v - 1) (Z.of_nat 5)); [reflexivity | lia].
    + destruct (Z.leb_spec 0 (v - 1)); [lia|]. cbn [andb].
      destruct (Z.leb_spec (- Z.of_nat 5) (v - 1)); [|lia].
      destruct (Z.ltb_spec (v - 1) 0); [|lia]. cbn. f_equal. lia.
  - destruct (Z.leb_spec 0 (v - 1)); cbn [andb].
    + destruct (Z.ltb_spec (v - 1) (Z.of_nat 5)); [lia|].
      destruct (Z.leb_spec (- Z.of_nat 5) (v - 1)); [|reflexivity].
      destruct (Z.ltb_spec (v - 1) 0); [lia | reflexivity].
    + destruct (Z.leb_spec (- Z.of_nat 5) (v - 1)); [lia | reflexivity].
Qed.

Lemma wrapped_lt (v : Z) : wraps v -> (wrapped v < 5)%nat.
Proof. unfold wraps, wrapped. intros H. destruct (Z.leb_spec 1 v); lia. Qed.

Lemma matrix_incr_spec (m : list (list Z)) (l s : Z) :
  five_by_five m ->
  (wraps l -> wraps s ->
     exists m', matrix_incr m (l - 1) (s - 1) = Ok m' /\ five_by_five m'
       /\ forall i j, cell m' i j
                      = if decide (i = wrapped l /\ j = wrapped s)
                        then Z.succ <$> cell m i j else cell m i j)
  /\ (~ (wraps l /\ wraps s) ->
      matrix_incr m (l - 1) (s - 1) = Raise (IndexError "list index out of range")).
Proof.
  intros [Hlen Hrows]. unfold matrix_incr. rewrite Hlen.
  destruct (py_index_5 l) as [Hl1 Hl2]. destruct (py_index_5 s) as [Hs1 Hs2].
  assert (Hrow : forall i, (i < 5)%nat -> exists row, m !! i = Some row /\ length row = 5%nat).
  { intros i Hi. destruct (m !! i) as [row|] eqn:E.
    - exists row. split; [done|]. rewrite Forall_forall in Hrows.
      apply Hrows. eapply list_elem_of_lookup_2, E.
    - apply lookup_ge_None in E. lia. }
  split.
  - intros Hl Hs. rewrite (Hl1 Hl). cbn [mbind outcome_bind].
    destruct (Hrow (wrapped l) (wrapped_lt l Hl)) as (row & Er & Hr).
    rewrite Er. change (default [] (Some row)) with row. rewrite Hr, (Hs1 Hs).
    cbn [mbind outcome_bind]. eexists. split; [reflexivity|]. split.
    + split; [by rewrite length_insert|].
      apply Forall_insert; [done | by rewrite length_insert].
    + intros i j. unfold cell. pose proof (wrapped_lt l Hl). pose proof (wrapped_lt s Hs).
      destruct (decide (i = wrapped l)) as [->|Hi].
      * rewrite list_lookup_insert_eq by lia. rewrite Er. cbn.
        destruct (decide (j = wrapped s)) as [->|Hj].
        -- rewrite decide_True by done. rewrite list_lookup_insert_eq by lia.
           destruct (row !! wrapped s) eqn:E; [reflexivity|].
           apply lookup_ge_None in E. lia.
        -- rewrite decide_False by tauto. by rewrite list_lookup_insert_ne.
      * rewrite decide_False by tauto. by rewrite list_lookup_insert_ne.
  - intros Hn. destruct (decide (wraps l)) as [Hl|Hl]; [|by rewrite (Hl2 Hl)].
    rewrite (Hl1 Hl). cbn [mbind outcome_bind].
    destruct (Hrow (wrapped l) (wrapped_lt l Hl)) as (row & Er & Hr).
    rewrite Er. change (default [] (Some row)) with row. rewrite Hr.
    rewrite Hs2 by tauto. reflexivity.
Qed.

(** the number of results that fall into cell (i, j) *)
Definition in_cell (i j : nat) (er : RiskEventResult) : bool :=
  Nat.eqb (wrapped (rer_likelihood er)) i && Nat.eqb (wrapped (rer_severity er)) j.

Lemma fill_matrix_spec (ers : list RiskEventResult) :
  forall m me, five_by_five m ->
  (Forall (fun er => wraps (rer_likelihood er) /\ wraps (rer_severity er)) ers ->
     exists m' me', fill_matrix ers m me = Ok (m', me') /\ five_by_five m'
       /\ forall i j, cell m' i j
                      = (fun c => c + Z.of_nat (length (List.filter (in_cell i j) ers)))
                          <$> cell m i j)
  /\ (~ Forall (fun er => wraps (rer_likelihood er) /\ wraps (rer_severity er)) ers ->
      fill_matrix ers m me = Raise (IndexError "list index out of range")).
Proof.
  induction ers as [|er ers IH]; intros m me Hm; cbn [fill_matrix].
  - split; [|intros H; exfalso; apply H; constructor].
    intros _. exists m, me. split; [done|]. split; [done|]. intros i j. cbn.
    destruct (cell m i j); cbn; [f_equal; lia | done].
  - destruct (matrix_incr_spec m (rer_likelihood er) (rer_severity er) Hm) as [Hok Hbad].
    split.
    + intros HF. apply Forall_cons_1 in HF as [[Hl Hs] HF].
      destruct (Hok Hl Hs) as (m1 & -> & Hm1 & Hc1). cbn [mbind outcome_bind].
      match goal with
      | |- context [fill_matrix ers m1 ?me1] => destruct (IH m1 me1 Hm1) as [IHok _]
      end.
      destruct (IHok HF) as (m' & me' & -> & Hm' & Hc'). exists m', me'.
      split; [done|]. split; [done|]. intros i j. rewrite Hc', Hc1.
      cbn [List.filter]. unfold in_cell at 2.
      destruct (decide (i = wrapped (rer_likelihood er) /\ j = wrapped (rer_severity er)))
        as [[-> ->]|Hne].
      * rewrite !Nat.eqb_refl. cbn [andb length].
        destruct (cell m _ _); cbn; [f_equal; lia | done].
      * assert (Nat.eqb (wrapped (rer_likelihood er)) i
                && Nat.eqb (wrapped (rer_severity er)) j = false) as ->.
        { apply andb_false_iff. rewrite !Nat.eqb_neq.
          destruct (decide (wrapped (rer_likelihood er) = i)) as [Hi|Hi]; [right|left];
            [|done].
          intros Hj. apply Hne. by subst. }
        reflexivity.
    + intros HF. destruct (decide (wraps (rer_likelihood er) /\ wraps (rer_severity er)))
        as [[Hl Hs]|Hn]; [|by rewrite (Hbad Hn)].
      destruct (Hok Hl Hs) as (m1 & -> & Hm1 & _). cbn [mbind outcome_bind].
      match goal with
      | |- context [fill_matrix ers m1 ?me1] => destruct (IH m1 me1 Hm1) as [_ IHbad]
      end.
      apply IHbad.
      intros HF'. apply HF. by constructor.
Qed.

End RiskMatrixAggregates.

Section RiskMatrixRun.
Import Dao Types Base RiskMatrix.

Lemma zero_matrix_cell (i j : nat) :
  (i < 5)%nat -> (j < 5)%nat -> cell zero_matrix i j = Some 0.
Proof.
  intros Hi Hj.
  destruct i as [|[|[|[|[|i]]]]]; [| | | | |lia];
    (destruct j as [|[|[|[|[|j]]]]]; [| | | | |lia]); reflexivity.
Qed.

Lemma count_levels_lookup (levels : list string) (key : string) :
  count_levels levels !! key
  = (fun c => c + Z.of_nat (length (List.filter (String.eqb key) levels)))
      <$> zero_level_counts !! key.
Proof.
  unfold count_levels. generalize zero_level_counts.
  induction levels as [|l levels IH]; intros m; cbn [fold_left List.filter].
  - destruct (m !! key); cbn; [f_equal; lia | done].
  - rewrite IH. destruct (String.eqb_spec key l) as [->|Hne].
    + rewrite lookup_alter_eq. destruct (m !! l); cbn; [f_equal; lia | done].
    + by rewrite lookup_alter_ne.
Qed.

(** what [run] returns for events whose L and S Python accepts as indices *)
Lemma risk_matrix_run_success (st : Store) (ctx : Context) (mid : Z) (d : Params)
    (events : list RiskEvent) :
  ctx_mission_id ctx = Some mid ->
  params_of empty_params ctx = Dict d ->
  risk_events_by_mission st (Some mid) = Ok events ->
  Forall (fun e => wraps (likelihood e) /\ wraps (severity e)) events ->
  exists dt,
    RiskMatrix.run st ctx
    = Ok {| Base.model_id := RiskMatrix.model_id; Base.model_name := RiskMatrix.model_name;
            success := true; error_message := ""; data := Some dt |}
    /\ rm_events (rmd_result dt) = List.map score_event events
    /\ rm_top_n (rmd_result dt)
       = py_slice_to (default 10 (top_n d))
           (sorted_desc (by_Z risk_score) (List.map score_event events))
    /\ rmd_top_n_count dt = Z.of_nat (length (rm_top_n (rmd_result dt)))
    /\ (forall i j, (i < 5)%nat -> (j < 5)%nat ->
          cell (matrix_data (rmd_result dt)) i j
          = Some (Z.of_nat (length (List.filter (in_cell i j) (List.map score_event events)))))
    /\ rmd_level_counts dt = count_levels (List.map rer_level (List.map score_event events))
    /\ rm_level_counts (rmd_result dt) = rmd_level_counts dt
    /\ rmd_total_risk dt = py_sum (List.map risk_score (List.map score_event events))
    /\ rm_total_risk (rmd_result dt) = rmd_total_risk dt.
Proof.
  intros Hid Hd Hev HF. unfold RiskMatrix.run, params_of in *. rewrite Hid, Hd.
  cbn [params_get mbind outcome_bind]. unfold run_body. rewrite Hev.
  cbn [mbind outcome_bind]. destruct events as [|e events].
  - cbn [try_except]. eexists. split; [reflexivity|]. cbn.
    split; [done|].
    split; [unfold py_slice_to; destruct (0 <=? _); by rewrite firstn_nil|].
    split; [done|]. split; [intros i j Hi Hj; by apply zero_matrix_cell|].
    repeat split.
  - destruct (fill_matrix_spec (List.map score_event (e :: events)) zero_matrix ∅)
      as [Hok _]; [split; [reflexivity | by repeat constructor]|].
    destruct Hok as (m' & me' & -> & _ & Hcell).
    { apply Forall_fmap. eapply Forall_impl; [exact HF|]. by intros ? [? ?]. }
    cbn [mbind outcome_bind try_except]. eexists. split; [reflexivity|].
    cbn [rmd_result rm_events rm_top_n rmd_top_n_count matrix_data rmd_level_counts
         rm_level_counts rmd_total_risk rm_total_risk].
    repeat split. intros i j Hi Hj. rewrite Hcell, (zero_matrix_cell i j Hi Hj). reflexivity.
Qed.

(** X1. Top-N of the risk matrix: with top_n >= 0 the Top-N list is the
    head of a descending rearrangement of all event results, so nothing
    left out scores higher than anything listed, and [top_n_count] is
    min(top_n, number of events). *)
Theorem risk_matrix_top_n (st : Store) (ctx : Context) (mid : Z) (d : Params)
    (events : list RiskEvent) :
  ctx_mission_id ctx = Some mid ->
  params_of empty_params ctx = Dict d ->
  0 <= default 10 (top_n d) ->
  risk_events_by_mission st (Some mid) = Ok events ->
  Forall (fun e => wraps (likelihood e) /\ wraps (severity e)) events ->
  exists m dt rest,
    RiskMatrix.run st ctx = Ok m /\ data m = Some dt
    /\ Permutation (rm_events (rmd_result dt)) (rm_top_n (rmd_result dt) ++ rest)
    /\ StronglySorted (fun a b => risk_score b <= risk_score a)
         (rm_top_n (rmd_result dt) ++ rest)
    /\ rmd_top_n_count dt = Z.min (default 10 (top_n d)) (Z.of_nat (length events)).
Proof.
  intros Hid Hd Hn Hev HF.
  destruct (risk_matrix_run_success st ctx mid d events Hid Hd Hev HF)
    as (dt & Hrun & Hevs & Htop & Hcount & _).
  destruct (sorted_desc_by_Z risk_score (List.map score_event events)) as [Hperm Hsorted].
  destruct (py_slice_to_nonneg (default 10 (top_n d))
              (sorted_desc (by_Z risk_score) (List.map score_event events)) Hn)
    as [Hslice Hlen].
  eexists _, dt,
    (skipn (Z.to_nat (default 10 (top_n d)))
       (sorted_desc (by_Z risk_score) (List.map score_event events))).
  split; [exact Hrun|]. split; [reflexivity|].
  rewrite Htop, Hslice, firstn_skipn, Hevs. split; [exact Hperm|]. split; [exact Hsorted|].
  rewrite Hcount, Htop, Hlen, <- (Permutation_length Hperm), length_map. reflexivity.
Qed.

(** X2. The aggregates of the risk matrix: cell (i, j) of the 5x5 matrix
    counts the events whose L selects row i and whose S selects column j,
    each level count is the number of events of that level, and the total
    is the sum of the scores. *)
Theorem risk_matrix_aggregates (st : Store) (ctx : Context) (mid : Z) (d : Params)
    (events : list RiskEvent) :
  ctx_mission_id ctx = Some mid ->
  params_of empty_params ctx = Dict d ->
  risk_events_by_mission st (Some mid) = Ok events ->
  Forall (fun e => wraps (likelihood e) /\ wraps (severity e)) events ->
  exists m dt,
    RiskMatrix.run st ctx = Ok m /\ success m = true /\ data m = Some dt
    /\ (forall i j, (i < 5)%nat -> (j < 5)%nat ->
          cell (matrix_data (rmd_result dt)) i j
          = Some (Z.of_nat (length (List.filter
                    (fun e => Nat.eqb (wrapped (likelihood e)) i
                              && Nat.eqb (wrapped (severity e)) j) events))))
    /\ (forall lv,
          rmd_level_counts dt !! value lv
          = Some (Z.of_nat (length (List.filter
                    (fun e => String.eqb (value lv)
                                (value (from_score (likelihood e * severity e)))) events))))
    /\ rmd_total_risk dt = py_sum (List.map (fun e => likelihood e * severity e) events).
Proof.
  intros Hid Hd Hev HF.
  destruct (risk_matrix_run_success st ctx mid d events Hid Hd Hev HF)
    as (dt & Hrun & _ & _ & _ & Hcell & Hlv & _ & Htot & _).
  eexists _, dt. split; [exact Hrun|]. split; [reflexivity|]. split; [reflexivity|].
  split; [|split].
  - intros i j Hi Hj. rewrite (Hcell i j Hi Hj). do 3 f_equal.
    clear. induction events as [|e events IH]; [reflexivity|]. cbn.
    unfold in_cell at 1. cbn. destruct (_ && _); cbn; by rewrite IH.
  - intros lv. rewrite Hlv, count_levels_lookup.
    assert (zero_level_counts !! value lv = Some 0) as -> by (by destruct lv).
    assert (length (List.filter (String.eqb (value lv))
                      (List.map rer_level (List.map score_event events)))
            = length (List.filter
                    (fun e => String.eqb (value lv)
                                (value (from_score (likelihood e * severity e)))) events))
      as ->.
    { clear. induction events as [|e events IH]; [reflexivity|]. cbn.
      destruct (String.eqb _ _); cbn; by rewrite IH. }
    cbn. f_equal.
  - rewrite Htot, List.map_map. reflexivity.
Qed.

(** X3. The range of L and S the risk matrix accepts: [run] succeeds when
    every L and S lies in -4 .. 5 (values below 1 are counted in row or
    column v + 5, as a negative list index), and otherwise returns the
    failed result "list index out of range". *)
Theorem risk_matrix_index_range (st : Store) (ctx : Context) (mid : Z) (d : Params)
    (events : list RiskEvent) :
  ctx_mission_id ctx = Some mid ->
  params_of empty_params ctx = Dict d ->
  risk_events_by_mission st (Some mid) = Ok events ->
  (Forall (fun e => wraps (likelihood e) /\ wraps (severity e)) events ->
     exists m, RiskMatrix.run st ctx = Ok m /\ success m = true)
  /\ (~ Forall (fun e => wraps (likelihood e) /\ wraps (severity e)) events ->
      RiskMatrix.run st ctx
      = Ok {| Base.model_id := RiskMatrix.model_id;
              Base.model_name := RiskMatrix.model_name; success := false;
              error_message := "list index out of range"; data := None |}).
Proof.
  intros Hid Hd Hev. split.
  - intros HF. destruct (risk_matrix_run_success st ctx mid d events Hid Hd Hev HF)
      as (dt & Hrun & _). eauto.
  - intros HF. unfold RiskMatrix.run, params_of in *. rewrite Hid, Hd.
    cbn [params_get mbind outcome_bind]. unfold run_body. rewrite Hev.
    cbn [mbind outcome_bind]. destruct events as [|e events].
    { exfalso. apply HF. constructor. }
    destruct (fill_matrix_spec (List.map score_event (e :: events)) zero_matrix ∅)
      as [_ Hbad]; [split; [reflexivity | by repeat constructor]|].
    rewrite Hbad; [reflexivity|]. intros HF'. apply HF.
    apply Forall_fmap in HF'. eapply Forall_impl; [exact HF'|]. by intros ? [? ?].
Qed.

End RiskMatrixRun.

Lemma risk_matrix_top_n_witness :
  exists m dt rest,
    RiskMatrix.run (Models.store_of_events [Models.mk_event 1 3 5; Models.mk_event 2 2 5])
      {| Base.ctx_mission_id := Some 1; Base.ctx_params := None |} = Ok m
    /\ Base.data m = Some dt
    /\ Permutation (Types.rm_events (RiskMatrix.rmd_result dt))
         (Types.rm_top_n (RiskMatrix.rmd_result dt) ++ rest).
Proof.
  destruct (risk_matrix_top_n
              (Models.store_of_events [Models.mk_event 1 3 5; Models.mk_event 2 2 5])
              {| Base.ctx_mission_id := Some 1; Base.ctx_params := None |} 1
              Base.empty_params [Models.mk_event 1 3 5; Models.mk_event 2 2 5])
    as (m & dt & rest & H1 & H2 & H3 & _).
  - reflexivity.
  - reflexivity.
  - simpl. lia.
  - reflexivity.
  - repeat constructor; unfold wraps; simpl; lia.
  - exists m, dt, rest. auto.
Defined.

Lemma risk_matrix_aggregates_witness :
  exists m dt,
    RiskMatrix.run (Models.store_of_events [Models.mk_event 1 3 5; Models.mk_event 2 2 5])
      {| Base.ctx_mission_id := Some 1; Base.ctx_params := None |} = Ok m
    /\ Base.success m = true /\ Base.data m = Some dt.
Proof.
  destruct (risk_matrix_aggregates
              (Models.store_of_events [Models.mk_event 1 3 5; Models.mk_event 2 2 5])
              {| Base.ctx_mission_id := Some 1; Base.ctx_params := None |} 1
              Base.empty_params [Models.mk_event 1 3 5; Models.mk_event 2 2 5])
    as (m & dt & H1 & H2 & H3 & _).
  - reflexivity.
  - reflexivity.
  - reflexivity.
  - repeat constructor; unfold wraps; simpl; lia.
  - exists m, dt. auto.
Defined.

Lemma risk_matrix_index_range_witness :
  RiskMatrix.run (Models.store_of_events [Models.mk_event 1 6 5])
    {| Base.ctx_mission_id := Some 1; Base.ctx_params := None |}
  = Ok {| Base.model_id := RiskMatrix.model_id; Base.model_name := RiskMatrix.model_name;
          Base.success := false; Base.error_message := "list index out of range";
          Base.data := None |}.
Proof.
  apply (risk_matrix_index_range (Models.store_of_events [Models.mk_event 1 6 5])
           {| Base.ctx_mission_id := Some 1; Base.ctx_params := None |} 1
           Base.empty_params [Models.mk_event 1 6 5]).
  - reflexivity.
  - reflexivity.
  - reflexivity.
  - intros H. apply Forall_cons_1 in H as [[H _] _]. unfold wraps in H. simpl in H. lia.
Defined.

(** ** FMEA: scoring *)

Section FMEAScoring.
Import Dao Types Base FMEA.

Lemma from_rpn_cases (r : Z) :
  (r <= 100 /\ from_rpn r = LOW) \/
  (101 <= r <= 300 /\ from_rpn r = MEDIUM) \/
  (301 <= r <= 600 /\ from_rpn r = HIGH) \/
  (601 <= r /\ from_rpn r = EXTREME).
Proof.
  unfold from_rpn.
  destruct (Z.leb_spec r 100); [left; split; [lia | reflexivity] |].
  destruct (Z.leb_spec r 300); [right; left; split; [lia | reflexivity] |].
  destruct (Z.leb_spec r 600); [right; right; left; split; [lia | reflexivity] |].
  right; right; right; split; [lia | reflexivity].
Qed.

(** X4. FMEA scoring: [run] succeeds on any items (nothing in it indexes by
    S, O or D) with one result per item, RPN = S*O*D and the level
    [from_rpn RPN]; for S, O, D in 1..10 the RPN lies in 1..1000;
    [from_rpn] is monotone with classes RPN <= 100 Low, 101..300 Medium,
    301..600 High, >= 601 Extreme; the total is the sum of the RPNs. *)
Theorem fmea_scoring (st : Store) (ctx : Context) (mid : Z) (items : list FMEAItem) :
  ctx_mission_id ctx = Some mid ->
  ctx_params ctx <> Some NotADict ->
  fmea_items_by_mission st (Some mid) = Ok items ->
  (exists m d,
     FMEA.run st ctx = Ok m /\ success m = true /\ data m = Some d
     /\ Forall2 (fun i ir =>
                   RPN ir = fi_S i * fi_O i * fi_D i
                   /\ fir_level ir = value (from_rpn (RPN ir))
                   /\ (1 <= fi_S i <= 10 -> 1 <= fi_O i <= 10 -> 1 <= fi_D i <= 10 ->
                       1 <= RPN ir <= 1000))
                items (fm_items (fd_result d))
     /\ fd_total_rpn d = py_sum (List.map (fun i => fi_S i * fi_O i * fi_D i) items))
  /\ (forall r1 r2, r1 <= r2 ->
        (level_rank (from_rpn r1) <= level_rank (from_rpn r2))%nat)
  /\ (forall r, (from_rpn r = LOW <-> r <= 100)
              /\ (from_rpn r = MEDIUM <-> 101 <= r <= 300)
              /\ (from_rpn r = HIGH <-> 301 <= r <= 600)
              /\ (from_rpn r = EXTREME <-> 601 <= r)).
Proof.
  intros Hid Hp Hit. split; [|split].
  - destruct (params_of_dict empty_params ctx Hp) as [d Hd].
    unfold FMEA.run, run_body, params_of in *. rewrite Hid, Hd.
    cbn [params_get mbind outcome_bind]. rewrite Hit. cbn [mbind outcome_bind].
    assert (Hsc : Forall2 (fun i ir =>
                   RPN ir = fi_S i * fi_O i * fi_D i
                   /\ fir_level ir = value (from_rpn (RPN ir))
                   /\ (1 <= fi_S i <= 10 -> 1 <= fi_O i <= 10 -> 1 <= fi_D i <= 10 ->
                       1 <= RPN ir <= 1000)) items (List.map score_item items)).
    { apply Forall2_fmap_r, Forall_Forall2_diag, Forall_forall. intros i _. cbn.
      split; [reflexivity | split; [reflexivity |]]. intros HS HO HD.
      assert (1 <= fi_S i * fi_O i <= 100) by nia. nia. }
    destruct items as [|i items]; cbn [try_except]; eexists _, _;
      (split; [reflexivity|]); (split; [reflexivity|]); (split; [reflexivity|]).
    + split; [constructor | reflexivity].
    + split; [exact Hsc|]. cbn [fd_total_rpn]. by rewrite List.map_map.
  - intros r1 r2 Hle.
    destruct (from_rpn_cases r1) as [[H1 ->] | [[H1 ->] | [[H1 ->] | [H1 ->]]]];
      destruct (from_rpn_cases r2) as [[H2 ->] | [[H2 ->] | [[H2 ->] | [H2 ->]]]];
      simpl; lia.
  - intros r. destruct (from_rpn_cases r) as [[H ->] | [[H ->] | [[H ->] | [H ->]]]];
      repeat split; intros; try discriminate; try lia.
Qed.

End FMEAScoring.

(** ** Sensitivity: the one-at-a-time factors *)

Section SensitivityOAT.
Import Dao Types Base Sensitivity.

Lemma concat_pairs_lookup {A B} (f g : A -> B) (l : list A) (k : nat) :
  List.concat (List.map (fun a => [f a; g a]) l) !! (2 * k)%nat = f <$> l !! k
  /\ List.concat (List.map (fun a => [f a; g a]) l) !! (2 * k + 1)%nat = g <$> l !! k.
Proof.
  revert k. induction l as [|a l IH]; intros k; [done|].
  destruct k as [|k]; [done|]. cbn [List.map List.concat].
  replace (2 * S k)%nat with (S (S (2 * k))) by lia.
  replace (S (S (2 * k)) + 1)%nat with (S (S (2 * k + 1))) by lia.
  cbn. apply IH.
Qed.

Lemma concat_pairs_length {A B} (f g : A -> B) (l : list A) :
  length (List.concat (List.map (fun a => [f a; g a]) l)) = (2 * length l)%nat.
Proof. induction l as [|a l IH]; cbn; lia. Qed.

(** X5. OAT factors of the risk matrix: the analysis returns two factors
    per event, L first; for an event with L and S in 1..5 the L factor has
    impact S and the S factor impact L, each with
    minus_value <= base_value <= plus_value, where base_value is the total
    score; at L = 1 the minus value equals the base, at L = 5 the plus
    value does. *)
Theorem sensitivity_risk_matrix_factors (st : Store) (top_n : Z) (mission_id : option Z)
    (events : list RiskEvent) :
  risk_events_by_mission st mission_id = Ok events ->
  exists result,
    run_risk_matrix st top_n mission_id = Ok result
    /\ length (factors result) = (2 * length events)%nat
    /\ forall k e, events !! k = Some e ->
         1 <= likelihood e <= 5 -> 1 <= severity e <= 5 ->
         exists fl fs,
           factors result !! (2 * k)%nat = Some fl
           /\ factors result !! (2 * k + 1)%nat = Some fs
           /\ param_type fl = "L" /\ param_type fs = "S"
           /\ sf_impact_score fl = inject_Z (severity e)
           /\ sf_impact_score fs = inject_Z (likelihood e)
           /\ base_value fl
              = inject_Z (py_sum (List.map (fun e => likelihood e * severity e) events))
           /\ (minus_value fl <= base_value fl <= plus_value fl)%Q
           /\ (minus_value fs <= base_value fs <= plus_value fs)%Q
           /\ (likelihood e = 1 -> minus_value fl = base_value fl)
           /\ (likelihood e = 5 -> plus_value fl = base_value fl).
Proof.
  intros Hev. unfold run_risk_matrix. rewrite Hev. cbn [mbind outcome_bind].
  destruct events as [|e0 events0] eqn:Eev.
  { eexists. split; [reflexivity|]. split; [reflexivity|]. intros k e Hk. done. }
  rewrite <- Eev in *. clear Eev. eexists. split; [reflexivity|]. cbn [factors].
  split; [apply concat_pairs_length|]. intros k e Hk Hl Hs.
  match goal with
  | |- context [List.concat (List.map (fun a => [@?f a; @?g a]) events)] =>
      destruct (concat_pairs_lookup f g events k) as [E1 E2]
  end.
  cbn beta in E1, E2. rewrite Hk in E1, E2. cbn [fmap option_fmap option_map] in E1, E2.
  eexists _, _. split; [exact E1|]. split; [exact E2|].
  unfold oat_factor.
  cbn [param_type sf_impact_score base_value minus_value plus_value].
  set (T := py_sum _).
  repeat split; rewrite <- ?Zle_Qle; try (f_equal; nia); try nia.
  - intros ->. f_equal. nia.
  - intros ->. f_equal. nia.
Qed.

(** X6. OAT factors of FMEA: two factors per item, O first and D second
    (S is not varied); for an item with S, O, D in 1..10 the O factor has
    impact S*D and the D factor impact S*O, each with
    minus_value <= base_value <= plus_value. *)
Theorem sensitivity_fmea_factors (st : Store) (top_n : Z) (mission_id : option Z)
    (items : list FMEAItem) :
  fmea_items_by_mission st mission_id = Ok items ->
  exists result,
    run_fmea st top_n mission_id = Ok result
    /\ length (factors result) = (2 * length items)%nat
    /\ forall k i, items !! k = Some i ->
         1 <= fi_S i <= 10 -> 1 <= fi_O i <= 10 -> 1 <= fi_D i <= 10 ->
         exists fo fd,
           factors result !! (2 * k)%nat = Some fo
           /\ factors result !! (2 * k + 1)%nat = Some fd
           /\ param_type fo = "O" /\ param_type fd = "D"
           /\ sf_impact_score fo = inject_Z (fi_S i * fi_D i)
           /\ sf_impact_score fd = inject_Z (fi_S i * fi_O i)
           /\ (minus_value fo <= base_value fo <= plus_value fo)%Q
           /\ (minus_value fd <= base_value fd <= plus_value fd)%Q.
Proof.
  intros Hit. unfold run_fmea. rewrite Hit. cbn [mbind outcome_bind].
  destruct items as [|i0 items0] eqn:Eit.
  { eexists. split; [reflexivity|]. split; [reflexivity|]. intros k e Hk. done. }
  rewrite <- Eit in *. clear Eit. eexists. split; [reflexivity|]. cbn [factors].
  split; [apply concat_pairs_length|]. intros k i Hk HS HO HD.
  match goal with
  | |- context [List.concat (List.map (fun a => [@?f a; @?g a]) items)] =>
      destruct (concat_pairs_lookup f g items k) as [E1 E2]
  end.
  cbn beta in E1, E2. rewrite Hk in E1, E2. cbn [fmap option_fmap option_map] in E1, E2.
  eexists _, _. split; [exact E1|]. split; [exact E2|].
  unfold oat_factor.
  cbn [param_type sf_impact_score base_value minus_value plus_value].
  set (T := py_sum _).
  repeat split; rewrite <- ?Zle_Qle; try (f_equal; nia); try nia.
Qed.

End SensitivityOAT.

(** a store that holds the given FMEA items and nothing else *)
Definition store_of_items (items : list Dao.FMEAItem) : Dao.Store :=
  {| Dao.risk_events_by_mission := fun _ => Ok [];
     Dao.fmea_items_by_mission := fun _ => Ok items;
     Dao.fta_nodes_by_mission := fun _ => Ok [];
     Dao.fta_children := fun _ => Ok [];
     Dao.fta_top_node := fun _ => Ok None;
     Dao.latest_dataset_by_mission := fun _ => Ok None;
     Dao.all_indicators := Ok [];
     Dao.indicator_values_by_mission := fun _ => Ok [] |}.

Definition mk_item (id s o d : Z) : Dao.FMEAItem :=
  {| Dao.fi_id := Some id; Dao.fi_mission_id := 1; Dao.fi_system := "";
     Dao.fi_failure_mode := "leak"; Dao.fi_effect := ""; Dao.fi_cause := "";
     Dao.fi_control := ""; Dao.fi_S := s; Dao.fi_O := o; Dao.fi_D := d |}.

Lemma fmea_scoring_witness :
  exists m d,
    FMEA.run (store_of_items [mk_item 1 7 5 3; mk_item 2 10 10 10])
      {| Base.ctx_mission_id := Some 1; Base.ctx_params := None |} = Ok m
    /\ Base.success m = true /\ Base.data m = Some d
    /\ FMEA.fd_total_rpn d = 1105.
Proof.
  destruct (fmea_scoring (store_of_items [mk_item 1 7 5 3; mk_item 2 10 10 10])
              {| Base.ctx_mission_id := Some 1; Base.ctx_params := None |} 1
              [mk_item 1 7 5 3; mk_item 2 10 10 10])
    as [(m & d & H1 & H2 & H3 & _ & H5) _].
  - reflexivity.
  - discriminate.
  - reflexivity.
  - exists m, d. repeat split; auto.
Defined.

Lemma sensitivity_risk_matrix_factors_witness :
  exists result,
    Sensitivity.run_risk_matrix
      (Models.store_of_events [Models.mk_event 1 3 5; Models.mk_event 2 1 4]) 10 (Some 1)
    = Ok result
    /\ length (Types.factors result) = 4%nat.
Proof.
  destruct (sensitivity_risk_matrix_factors
              (Models.store_of_events [Models.mk_event 1 3 5; Models.mk_event 2 1 4])
              10 (Some 1) [Models.mk_event 1 3 5; Models.mk_event 2 1 4])
    as (result & H1 & H2 & _).
  - reflexivity.
  - exists result. auto.
Defined.

Lemma sensitivity_fmea_factors_witness :
  exists result,
    Sensitivity.run_fmea (store_of_items [mk_item 1 7 5 3; mk_item 2 10 10 10]) 10 (Some 1)
    = Ok result
    /\ length (Types.factors result) = 4%nat.
Proof.
  destruct (sensitivity_fmea_factors
              (store_of_items [mk_item 1 7 5 3; mk_item 2 10 10 10])
              10 (Some 1) [mk_item 1 7 5 3; mk_item 2 10 10 10])
    as (result & H1 & H2 & _).
  - reflexivity.
  - exists result. auto.
Defined.

(** ** FTA: range and monotonicity of the probabilities *)

Section FTAProbabilities.
Import Dao FTA.
Local Open Scope Q_scope.

(** the probability a BASIC node contributes: the stored one, 0.01 when unset *)
Definition basic_prob (n : FTANode) : Q :=
  match probability n with Some p => p | None => 1 # 100 end.

(** every BASIC node contributes a probability of the unit interval *)
Definition unit_probs (node_dict : odict FTANode) : Prop :=
  map_Forall (fun _ n => node_type n = "BASIC" -> 0 <= basic_prob n <= 1)
             (od_map node_dict).

(** [b] is the tree [a] with the probabilities of some BASIC nodes raised *)
Definition raised (a b : odict FTANode) : Prop :=
  forall k, match od_get a k, od_get b k with
            | Some n, Some m =>
                node_type n = node_type m /\ gate_type n = gate_type m
                /\ (node_type n = "BASIC" -> basic_prob n <= basic_prob m)
            | None, None => True
            | _, _ => False
            end.

Lemma raised_refl (a : odict FTANode) : raised a a.
Proof. intros k. destruct (od_get a k); [|done]. repeat split. intros _. apply Qle_refl. Qed.

Lemma fold_prod_mono (ps qs : list Q) :
  Forall2 (fun p q => 0 <= p <= q /\ q <= 1) ps qs ->
  forall a b, 0 <= a <= b -> b <= 1 ->
  0 <= fold_left (fun x p => x * p) ps a <= fold_left (fun x p => x * p) qs b
  /\ fold_left (fun x p => x * p) qs b <= 1.
Proof.
  induction 1 as [|p q ps qs Hpq _ IH]; intros a b Hab Hb; cbn [fold_left]; [tauto|].
  destruct Hpq as [[Hp0 Hpq] Hq1], Hab as [Ha0 Hab]. apply IH; [split|]; nra.
Qed.

Lemma fold_compl_mono (ps qs : list Q) :
  Forall2 (fun p q => 0 <= p <= q /\ q <= 1) ps qs ->
  forall a b, 0 <= b <= a -> a <= 1 ->
  0 <= fold_left (fun x p => x * (1 - p)) qs b
    <= fold_left (fun x p => x * (1 - p)) ps a
  /\ fold_left (fun x p => x * (1 - p)) ps a <= 1.
Proof.
  induction 1 as [|p q ps qs Hpq _ IH]; intros a b Hab Ha; cbn [fold_left]; [tauto|].
  destruct Hpq as [[Hp0 Hpq] Hq1], Hab as [Ha0 Hab]. apply IH; [split|]; nra.
Qed.

Section Mono.
Variables a b : odict FTANode.
Variable children_map : gmap Z (list Z).
Hypothesis Hraised : raised a b.
Hypothesis Ha : unit_probs a.
Hypothesis Hb : unit_probs b.

Lemma node_prob_mono (n : nat) (k : Z) :
  0 <= node_prob n a children_map k <= node_prob n b children_map k
  /\ node_prob n b children_map k <= 1.
Proof.
  revert k. induction n as [|n IH]; intros k; cbn [node_prob]; [lra|].
  pose proof (Hraised k) as Hk.
  destruct (od_get a k) as [x|] eqn:Ex, (od_get b k) as [y|] eqn:Ey;
    [| destruct Hk | destruct Hk | lra].
  destruct Hk as (Hty & Hg & Hp). rewrite <- Hty, <- Hg.
  destruct (String.eqb_spec (node_type x) "BASIC") as [Hbasic|Hbasic].
  - fold (basic_prob x) (basic_prob y).
    pose proof (Ha k x Ex Hbasic). rewrite Hty in Hbasic.
    pose proof (Hb k y Ey Hbasic). rewrite <- Hty in Hbasic. specialize (Hp Hbasic). lra.
  - destruct (default [] (children_map !! k)) as [|c cs]; [lra|].
    assert (HF : Forall2 (fun p q => 0 <= p <= q /\ q <= 1)
                   (List.map (node_prob n a children_map) (c :: cs))
                   (List.map (node_prob n b children_map) (c :: cs))).
    { apply Forall2_fmap, Forall_Forall2_diag, Forall_forall. intros j _. apply IH. }
    destruct (String.eqb (gate_type x) "AND").
    + apply (fold_prod_mono _ _ HF); lra.
    + pose proof (fold_compl_mono _ _ HF 1 1 ltac:(lra) ltac:(lra)). lra.
Qed.

End Mono.

Lemma unit_probs_set (k : Z) (v : Q) (nd : odict FTANode) :
  0 <= v <= 1 -> unit_probs nd -> unit_probs (set_probability k v nd).
Proof.
  intros Hv Hnd j n. cbn [set_probability od_map]. rewrite lookup_alter.
  case_decide as Hj; [|apply Hnd]. subst j.
  destruct (od_map nd !! k) as [m|]; cbn; [|discriminate].
  intros [= <-] _. exact Hv.
Qed.

Lemma raised_set (k : Z) (v : Q) (nd : odict FTANode) (n : FTANode) :
  od_get nd k = Some n ->
  (basic_prob n <= v -> raised nd (set_probability k v nd))
  /\ (v <= basic_prob n -> raised (set_probability k v nd) nd).
Proof.
  intros Hk. split; intros Hv j; unfold od_get in *;
    cbn [set_probability od_map]; rewrite lookup_alter; case_decide as Hj.
  - subst j. rewrite Hk. cbn. repeat split. intros _. exact Hv.
  - destruct (od_map nd !! j); [|done]. repeat split. intros _. apply Qle_refl.
  - subst j. rewrite Hk. cbn. repeat split. intros _. exact Hv.
  - destruct (od_map nd !! j); [|done]. repeat split. intros _. apply Qle_refl.
Qed.

Section Evaluated.
Variable node_dict : odict FTANode.
Variable children_map : gmap Z (list Z).
Variable rank : Z -> nat.
Hypothesis Hdag :
  map_Forall (fun k cs => Forall (fun c => (rank c < rank k)%nat) cs) children_map.

(** what [_calculate_probabilities] returns, by the propagation rule *)
Lemma calculate_top (nd : odict FTANode) (fuel : nat) (top : Z) :
  (rank top < fuel)%nat ->
  exists probs,
    _calculate_probabilities fuel top nd children_map = Ok probs
    /\ default 0 (probs !! top) = node_prob (S (rank top)) nd children_map top
    /\ forall k v, probs !! k = Some v -> v = node_prob (S (rank k)) nd children_map k.
Proof.
  intros Hfuel.
  destruct (calc_node_prob_ok nd children_map rank Hdag fuel top ∅ Hfuel)
    as (probs & Hcalc & Hmemo & Htop).
  { intros ? ? H. by rewrite lookup_empty in H. }
  exists probs. unfold _calculate_probabilities. rewrite Hcalc.
  split; [reflexivity|]. split; [|exact Hmemo].
  destruct (probs !! top) as [v|] eqn:Ev; [exact (Hmemo _ _ Ev)|].
  cbn [node_prob]. destruct (od_get nd top) eqn:Eg; [|reflexivity].
  specialize (Htop ltac:(eauto)). congruence.
Qed.

(** X7. Probabilities stay probabilities: on an acyclic tree whose BASIC
    nodes hold probabilities of [0, 1] (or none), the evaluation returns
    and every probability it computes, the top one included, lies in
    [0, 1]. *)
Theorem fta_probability_range (fuel : nat) (top : Z) :
  unit_probs node_dict ->
  (rank top < fuel)%nat ->
  exists probs,
    _calculate_probabilities fuel top node_dict children_map = Ok probs
    /\ map_Forall (fun _ p => 0 <= p <= 1) probs
    /\ 0 <= default 0 (probs !! top) <= 1.
Proof.
  intros Hunit Hfuel.
  destruct (calculate_top node_dict fuel top Hfuel) as (probs & Hcalc & Htop & Hall).
  pose proof (node_prob_mono node_dict node_dict children_map
                (raised_refl _) Hunit Hunit) as Hr.
  exists probs. split; [exact Hcalc|]. split.
  - intros k v Hk. rewrite (Hall k v Hk). specialize (Hr (S (rank k)) k). lra.
  - rewrite Htop. specialize (Hr (S (rank top)) top). lra.
Qed.

(** X8. The top probability is monotone in every basic event: replacing
    the probability of a node by [v] in [0, 1] does not lower the top
    probability when [v] is at least the old value, and does not raise it
    when [v] is at most the old value. *)
Theorem fta_probability_monotone (fuel : nat) (top k : Z) (n : FTANode) (v : Q) :
  unit_probs node_dict ->
  (rank top < fuel)%nat ->
  od_get node_dict k = Some n ->
  0 <= v <= 1 ->
  exists probs probs',
    _calculate_probabilities fuel top node_dict children_map = Ok probs
    /\ _calculate_probabilities fuel top (set_probability k v node_dict) children_map
       = Ok probs'
    /\ (basic_prob n <= v -> default 0 (probs !! top) <= default 0 (probs' !! top))
    /\ (v <= basic_prob n -> default 0 (probs' !! top) <= default 0 (probs !! top)).
Proof.
  intros Hunit Hfuel Hk Hv.
  destruct (calculate_top node_dict fuel top Hfuel) as (probs & Hcalc & Htop & _).
  destruct (calculate_top (set_probability k v node_dict) fuel top Hfuel)
    as (probs' & Hcalc' & Htop' & _).
  exists probs, probs'. split; [exact Hcalc|]. split; [exact Hcalc'|].
  rewrite Htop, Htop'. destruct (raised_set k v node_dict n Hk) as [Hup Hdown].
  pose proof (unit_probs_set k v node_dict Hv Hunit) as Hunit'.
  split; intros Hle.
  - apply (node_prob_mono _ _ children_map (Hup Hle) Hunit Hunit').
  - apply (node_prob_mono _ _ children_map (Hdown Hle) Hunit' Hunit).
Qed.

End Evaluated.

End FTAProbabilities.

(** ** FTA: what the sensitivity analysis returns *)

Section FTASensitivityBrackets.
Import Dao FTA.
Local Open Scope Q_scope.

Lemma Qltb_true (a b : Q) : Qltb a b = true -> a < b.
Proof. unfold Qltb. rewrite Qlt_alt. by destruct (a ?= b). Qed.

Lemma Qltb_false (a b : Q) : Qltb a b = false -> b <= a.
Proof.
  unfold Qltb. intros H. apply Qnot_lt_le. rewrite Qlt_alt. by destruct (a ?= b).
Qed.

Lemma py_max_spec (a b : Q) :
  a <= py_max a b /\ b <= py_max a b /\ (py_max a b = a \/ py_max a b = b).
Proof.
  unfold py_max. destruct (Qltb a b) eqn:E.
  - apply Qltb_true in E. repeat split; [lra | lra | by right].
  - apply Qltb_false in E. repeat split; [lra | lra | by left].
Qed.

Lemma py_min_spec (a b : Q) :
  py_min a b <= a /\ py_min a b <= b /\ (py_min a b = a \/ py_min a b = b).
Proof.
  unfold py_min. destruct (Qltb b a) eqn:E.
  - apply Qltb_true in E. repeat split; [lra | lra | by right].
  - apply Qltb_false in E. repeat split; [lra | lra | by left].
Qed.

(** every BASIC node holds a probability that is neither unset nor zero *)
Definition nonzero_probs (node_dict : odict FTANode) : Prop :=
  map_Forall (fun _ n => node_type n = "BASIC" -> prob_truthy (probability n) = true)
             (od_map node_dict).

(** the item brackets the base value [base] of the top event *)
Definition brackets (base : Q) (item : FTASensitivityItem) : Prop :=
  minus_prob item <= base <= plus_prob item
  /\ base - minus_prob item <= impact_score item
  /\ plus_prob item - base <= impact_score item
  /\ (impact_score item == base - minus_prob item
      \/ impact_score item == plus_prob item - base).

Lemma set_probability_twice (k : Z) (v w : Q) (nd : odict FTANode) :
  set_probability k w (set_probability k v nd) = set_probability k w nd.
Proof.
  unfold set_probability. cbn [od_keys od_map]. f_equal. apply map_eq. intros j.
  destruct (decide (k = j)) as [<-|Hj].
  - rewrite !lookup_alter_eq. by destruct (od_map nd !! k).
  - by rewrite !lookup_alter_ne.
Qed.

Lemma set_probability_same (k : Z) (nd : odict FTANode) (node : FTANode) (p : Q) :
  od_get nd k = Some node -> probability node = Some p ->
  set_probability k p nd = nd.
Proof.
  unfold od_get. intros Hk Hp. destruct nd as [keys m]. unfold set_probability.
  cbn [od_keys od_map] in *. f_equal. apply map_eq. intros j. rewrite lookup_alter.
  case_decide as Hj; [|reflexivity]. subst j. rewrite Hk. cbn. f_equal.
  destruct node; cbn in *. by subst.
Qed.

Variable children_map : gmap Z (list Z).
Variable rank : Z -> nat.
Hypothesis Hdag :
  map_Forall (fun k cs => Forall (fun c => (rank c < rank k)%nat) cs) children_map.

Let top_prob (nd : odict FTANode) (top : Z) : Q :=
  node_prob (S (rank top)) nd children_map top.

Lemma perturb_basic_node_brackets (nd : odict FTANode) (fuel : nat) (top k : Z)
    (delta : Q) (node : FTANode) :
  unit_probs nd -> (rank top < fuel)%nat -> 0 <= delta ->
  od_get nd k = Some node -> node_type node = "BASIC" ->
  prob_truthy (probability node) = true ->
  exists item,
    perturb_basic_node fuel top children_map delta (top_prob nd top) k node nd
    = (Ok item, nd)
    /\ brackets (top_prob nd top) item.
Proof.
  intros Hunit Hfuel Hdelta Hk Hbasic Htruthy.
  destruct (probability node) as [p|] eqn:Hp; [|discriminate].
  pose proof (Hunit k node Hk Hbasic) as Hrange. unfold basic_prob in Hrange.
  rewrite Hp in Hrange. unfold perturb_basic_node. rewrite Hp, Htruthy.
  cbn [default from_option Datatypes.id].
  assert (Hlo : 0 <= py_max 0 (p * (1 - delta)) <= p).
  { destruct (py_max_spec 0 (p * (1 - delta))) as (H1 & H2 & [H3|H3]).
    - rewrite H3. lra.
    - split; [lra|]. rewrite H3. nra. }
  assert (Hhi : p <= py_min 1 (p * (1 + delta)) <= 1).
  { destruct (py_min_spec 1 (p * (1 + delta))) as (H1 & H2 & [H3|H3]).
    - rewrite H3. lra.
    - split; [|lra]. rewrite H3. nra. }
  set (lo := py_max 0 (p * (1 - delta))) in *.
  set (hi := py_min 1 (p * (1 + delta))) in *.
  rewrite set_probability_twice, set_probability_twice.
  rewrite (set_probability_same k nd node p Hk Hp).
  destruct (calculate_top children_map rank Hdag (set_probability k lo nd) fuel top Hfuel)
    as (pm & Hcm & Htm & _).
  destruct (calculate_top children_map rank Hdag (set_probability k hi nd) fuel top Hfuel)
    as (pp & Hcp & Htp & _).
  rewrite Hcm, Hcp. eexists. split; [reflexivity|].
  unfold brackets. cbn [minus_prob plus_prob impact_score]. rewrite Htm, Htp.
  destruct (raised_set k lo nd node Hk) as [_ Hdown].
  destruct (raised_set k hi nd node Hk) as [Hup _].
  unfold basic_prob in Hdown, Hup. rewrite Hp in Hdown, Hup.
  pose proof (node_prob_mono _ _ children_map (Hdown ltac:(lra))
                (unit_probs_set k lo nd ltac:(lra) Hunit) Hunit (S (rank top)) top) as Hm.
  pose proof (node_prob_mono _ _ children_map (Hup ltac:(lra)) Hunit
                (unit_probs_set k hi nd ltac:(lra) Hunit) (S (rank top)) top) as Hpl.
  fold (top_prob nd top) in *.
  set (m := node_prob _ (set_probability k lo nd) _ _) in *.
  set (q := node_prob _ (set_probability k hi nd) _ _) in *.
  set (b := top_prob nd top) in *.
  assert (Hal : Qabs (m - b) == b - m).
  { rewrite Qabs_neg by lra. ring. }
  assert (Hau : Qabs (q - b) == q - b).
  { rewrite Qabs_pos by lra. reflexivity. }
  destruct (py_max_spec (Qabs (m - b)) (Qabs (q - b))) as (H1 & H2 & H3).
  split; [lra|]. split; [lra|]. split; [lra|].
  destruct H3 as [-> | ->]; [left | right]; assumption.
Qed.

Lemma sensitivity_loop_brackets (nd : odict FTANode) (fuel : nat) (top : Z) (delta : Q)
    (keys : list Z) :
  unit_probs nd -> nonzero_probs nd -> (rank top < fuel)%nat -> 0 <= delta ->
  Forall (fun k => exists node, od_get nd k = Some node /\ node_type node = "BASIC") keys ->
  forall results,
  exists items,
    sensitivity_loop fuel top children_map delta (top_prob nd top) keys results nd
    = (Ok (results ++ items)%list, nd)
    /\ length items = length keys
    /\ Forall (brackets (top_prob nd top)) items.
Proof.
  intros Hunit Hnz Hfuel Hdelta. induction 1 as [|k keys (node & Hk & Hb) _ IH];
    intros results; cbn [sensitivity_loop].
  - exists []. by rewrite app_nil_r.
  - rewrite Hk.
    destruct (perturb_basic_node_brackets nd fuel top k delta node Hunit Hfuel Hdelta
                Hk Hb (Hnz k node Hk Hb)) as (item & -> & Hitem).
    destruct (IH (results ++ [item])%list) as (items & -> & Hlen & Hall).
    exists (item :: items). rewrite <- app_assoc. split; [reflexivity|].
    split; [cbn; lia | by constructor].
Qed.

Lemma basic_keys_basic (nd : odict FTANode) :
  Forall (fun k => exists node, od_get nd k = Some node /\ node_type node = "BASIC")
         (basic_keys nd).
Proof.
  apply Forall_forall. intros k Hk. apply list_elem_of_In, filter_In in Hk as [_ Hk].
  destruct (od_get nd k) as [node|]; [|discriminate].
  exists node. split; [reflexivity|]. by apply String.eqb_eq.
Qed.

(** X9. Sensitivity of the top event: on an acyclic tree whose BASIC
    nodes hold non-zero probabilities of [0, 1], with [delta >= 0] and
    [top_n >= 0], the analysis returns and leaves the node dict as it was;
    it returns the first [min(top_n, number of BASIC nodes)] entries of a
    list, one entry per BASIC node, sorted by descending impact; every
    entry has [minus_prob <= base <= plus_prob] for the base probability
    of the top event, and its impact is the larger of [base - minus_prob]
    and [plus_prob - base]. *)
Theorem fta_sensitivity_brackets (nd : odict FTANode) (fuel : nat) (top : Z)
    (delta : Q) (top_n : Z) :
  unit_probs nd -> nonzero_probs nd -> (rank top < fuel)%nat ->
  0 <= delta -> (0 <= top_n)%Z ->
  exists probs items rest,
    _calculate_probabilities fuel top nd children_map = Ok probs
    /\ _sensitivity_analysis fuel top nd children_map delta top_n = (Ok items, nd)
    /\ Z.of_nat (length items)
       = Z.min top_n (Z.of_nat (length (basic_keys nd)))
    /\ length (items ++ rest) = length (basic_keys nd)
    /\ StronglySorted (fun x y => impact_score y <= impact_score x) (items ++ rest)
    /\ Forall (brackets (default 0 (probs !! top))) (items ++ rest).
Proof.
  intros Hunit Hnz Hfuel Hdelta Htop.
  destruct (calculate_top children_map rank Hdag nd fuel top Hfuel)
    as (probs & Hcalc & Hbase & _).
  exists probs. unfold _sensitivity_analysis.
  destruct (basic_keys nd) as [|k0 keys] eqn:Hkeys.
  { exists [], []. split; [exact Hcalc|]. split; [reflexivity|].
    split; [cbn; lia|]. split; [reflexivity|]. split; constructor. }
  rewrite <- Hkeys. rewrite Hcalc, Hbase. fold (top_prob nd top).
  destruct (sensitivity_loop_brackets nd fuel top delta (basic_keys nd) Hunit Hnz Hfuel
              Hdelta (basic_keys_basic nd) []) as (results & -> & Hlen & Hall).
  cbn [app].
  set (sorted := sorted_desc (by_Q impact_score) results).
  assert (Hperm : Permutation results sorted) by apply sorted_desc_perm.
  destruct (py_slice_to_nonneg top_n sorted Htop) as [Hslice Hcount].
  exists (py_slice_to top_n sorted), (skipn (Z.to_nat top_n) sorted).
  split; [reflexivity|]. split; [reflexivity|]. split.
  { rewrite Hcount. f_equal. f_equal. rewrite <- Hlen. symmetry.
    by apply Permutation_length. }
  rewrite Hslice, firstn_skipn. split.
  { rewrite <- Hlen. symmetry. by apply Permutation_length. }
  split.
  - apply (sorted_desc_sorted (by_Q impact_score)
             (fun x y => impact_score x <= impact_score y)).
    + intros x y z. apply Qle_trans.
    + intros x y H. apply Qltb_true in H. lra.
    + intros x y H. by apply Qltb_false in H.
  - by rewrite <- Hperm.
Qed.

End FTASensitivityBrackets.

(** ** FTA: the likelihood mapping and the whole run *)

Section FTARun.
Import Dao Types Base FTA.
Local Open Scope Q_scope.

Lemma probability_to_likelihood_cases (p : Q) :
  (p < 1 # 100000 /\ _probability_to_likelihood p = 1%Z)
  \/ (1 # 100000 <= p < 1 # 10000 /\ _probability_to_likelihood p = 2%Z)
  \/ (1 # 10000 <= p < 1 # 1000 /\ _probability_to_likelihood p = 3%Z)
  \/ (1 # 1000 <= p < 1 # 100 /\ _probability_to_likelihood p = 4%Z)
  \/ (1 # 100 <= p /\ _probability_to_likelihood p = 5%Z).
Proof.
  unfold _probability_to_likelihood.
  destruct (Qltb p (1 # 100000)) eqn:E1; [apply Qltb_true in E1; tauto|].
  destruct (Qltb p (1 # 10000)) eqn:E2;
    [apply Qltb_true in E2; apply Qltb_false in E1; tauto|].
  destruct (Qltb p (1 # 1000)) eqn:E3;
    [apply Qltb_true in E3; apply Qltb_false in E2; tauto|].
  destruct (Qltb p (1 # 100)) eqn:E4;
    [apply Qltb_true in E4; apply Qltb_false in E3; tauto|].
  apply Qltb_false in E4. tauto.
Qed.

Lemma get_risk_level_from_score (r : Z) : _get_risk_level r = value (from_score r).
Proof.
  unfold _get_risk_level, from_score.
  destruct (r <=? 4)%Z; [reflexivity|]. destruct (r <=? 9)%Z; [reflexivity|].
  destruct (r <=? 16)%Z; reflexivity.
Qed.

(** X10. The likelihood mapping of the FTA model: the level is in 1..5,
    it is monotone in the probability, its classes are P < 1e-5,
    [1e-5, 1e-4), [1e-4, 1e-3), [1e-3, 1e-2) and P >= 1e-2, and the
    model's own risk-level function agrees with [RiskLevel.from_score]
    on every score. *)
Theorem fta_likelihood_mapping :
  (forall p, (1 <= _probability_to_likelihood p <= 5)%Z)
  /\ (forall p q, p <= q ->
        (_probability_to_likelihood p <= _probability_to_likelihood q)%Z)
  /\ (forall p, (_probability_to_likelihood p = 1%Z <-> p < 1 # 100000)
              /\ (_probability_to_likelihood p = 2%Z <-> 1 # 100000 <= p < 1 # 10000)
              /\ (_probability_to_likelihood p = 3%Z <-> 1 # 10000 <= p < 1 # 1000)
              /\ (_probability_to_likelihood p = 4%Z <-> 1 # 1000 <= p < 1 # 100)
              /\ (_probability_to_likelihood p = 5%Z <-> 1 # 100 <= p))
  /\ (forall r, _get_risk_level r = value (from_score r)).
Proof.
  split; [|split; [|split]].
  - intros p.
    destruct (probability_to_likelihood_cases p)
      as [[_ ->] | [[_ ->] | [[_ ->] | [[_ ->] | [_ ->]]]]]; lia.
  - intros p q Hpq.
    destruct (probability_to_likelihood_cases p)
      as [[Hp ->] | [[Hp ->] | [[Hp ->] | [[Hp ->] | [Hp ->]]]]];
      destruct (probability_to_likelihood_cases q)
        as [[Hq ->] | [[Hq ->] | [[Hq ->] | [[Hq ->] | [Hq ->]]]]];
      try lia; lra.
  - intros p.
    destruct (probability_to_likelihood_cases p)
      as [[Hp ->] | [[Hp ->] | [[Hp ->] | [[Hp ->] | [Hp ->]]]]];
      repeat split; intros; try discriminate; try lra.
  - exact get_risk_level_from_score.
Qed.

(** the nodes below [top], [top] included *)
Inductive reach (children_map : gmap Z (list Z)) : Z -> Z -> Prop :=
| reach_here k : reach children_map k k
| reach_child k c j :
    c ∈ default [] (children_map !! k) -> reach children_map c j ->
    reach children_map k j.

Lemma calc_node_prob_visits (children_map : gmap Z (list Z)) (nd : odict FTANode)
    (fuel : nat) :
  forall k result p result',
    _calc_node_prob fuel nd children_map k result = Ok (p, result') ->
    forall j, is_Some (result' !! j) -> is_Some (result !! j) \/ reach children_map k j.
Proof.
  induction fuel as [|fuel IH]; intros k result p result'; cbn [_calc_node_prob];
    [discriminate|].
  destruct (result !! k) as [v|] eqn:Ek; [intros [= _ <-]; auto|].
  destruct (od_get nd k) as [node|]; [|intros [= _ <-]; auto].
  assert (Hins : forall v j, is_Some (<[k := v]> result !! j) ->
                   is_Some (result !! j) \/ reach children_map k j).
  { intros v j. rewrite lookup_insert. case_decide as Hj; [|auto].
    subst j. intros _. right. constructor. }
  destruct (String.eqb (node_type node) "BASIC"); [intros [= _ <-]; apply Hins|].
  destruct (default [] (children_map !! k)) as [|c cs] eqn:Ecs;
    [intros [= _ <-]; apply Hins|].
  assert (Hmap : forall l r ps r',
            (forall x, x ∈ l -> x ∈ c :: cs) ->
            mapM_state (_calc_node_prob fuel nd children_map) l r = Ok (ps, r') ->
            forall j, is_Some (r' !! j) -> is_Some (r !! j) \/ reach children_map k j).
  { induction l as [|x l IHl]; intros r ps r' Hsub; cbn [mapM_state].
    - intros [= _ <-]. auto.
    - destruct (_calc_node_prob fuel nd children_map x r) as [[px r1]|e] eqn:Ex;
        [|discriminate].
      destruct (mapM_state _ l r1) as [[pl r2]|e] eqn:El; [|discriminate].
      intros [= _ <-] j Hj.
      destruct (IHl r1 pl r2 ltac:(intros y Hy; apply Hsub; by right) El j Hj)
        as [H1|H1]; [|auto].
      destruct (IH x r px r1 Ex j H1) as [H2|H2]; [auto|].
      right. apply (reach_child _ k x j); [|exact H2].
      rewrite Ecs. apply Hsub. by left. }
  destruct (mapM_state _ (c :: cs) result) as [[ps r1]|e] eqn:Em; [|discriminate].
  intros [= _ <-] j. rewrite lookup_insert. case_decide as Hj.
  - subst j. intros _. right. constructor.
  - apply (Hmap (c :: cs) result ps r1); auto.
Qed.

(** X11. Only the nodes below the top event are evaluated: when the
    evaluation returns, a node that cannot be reached from the top node
    through the children map has no entry in the returned dict, so
    [node_probs.get(id, 0)] reports it with probability 0 whatever it
    stores. *)
Theorem fta_unreachable_not_evaluated (children_map : gmap Z (list Z))
    (nd : odict FTANode) (fuel : nat) (top : Z) (probs : gmap Z Q) :
  _calculate_probabilities fuel top nd children_map = Ok probs ->
  forall j, ~ reach children_map top j ->
            probs !! j = None /\ default 0 (probs !! j) = 0.
Proof.
  unfold _calculate_probabilities.
  destruct (_calc_node_prob fuel nd children_map top ∅) as [[p r]|e] eqn:E;
    [|discriminate].
  intros [= <-] j Hj.
  assert (Hnone : r !! j = None).
  { destruct (r !! j) eqn:Er; [|reflexivity].
    destruct (calc_node_prob_visits _ _ _ _ _ _ _ E j) as [H|H]; [by rewrite Er | |done].
    rewrite lookup_empty in H. by destruct H. }
  by rewrite Hnone.
Qed.

Lemma sensitivity_analysis_ok (children_map : gmap Z (list Z)) (rank : Z -> nat)
    (nd : odict FTANode) (fuel : nat) (top : Z) (delta : Q) (top_n : Z) :
  map_Forall (fun k cs => Forall (fun c => (rank c < rank k)%nat) cs) children_map ->
  unit_probs nd -> nonzero_probs nd -> (rank top < fuel)%nat -> 0 <= delta ->
  exists items, fst (_sensitivity_analysis fuel top nd children_map delta top_n) = Ok items.
Proof.
  intros Hdag Hunit Hnz Hfuel Hdelta. unfold _sensitivity_analysis.
  destruct (basic_keys nd) as [|k0 keys] eqn:Hkeys; [by exists []|].
  rewrite <- Hkeys.
  destruct (calculate_top children_map rank Hdag nd fuel top Hfuel)
    as (probs & -> & -> & _).
  destruct (sensitivity_loop_brackets children_map rank Hdag nd fuel top delta
              (basic_keys nd) Hunit Hnz Hfuel Hdelta (basic_keys_basic nd) [])
    as (results & -> & _).
  eexists. reflexivity.
Qed.

(** X12. The whole FTA run on a well-formed tree: with nodes, a top node,
    an acyclic children map and BASIC probabilities that are non-zero and
    in [0, 1], [_run_fta] returns a result whose top probability is in
    [0, 1], whose likelihood is the mapped level of that probability, whose
    severity is the top node's (the [default_severity] parameter, 3 unless
    given, when the node has none or 0), whose score is likelihood times
    severity with the level of [RiskLevel.from_score], and which lists
    every node once, in order, with a probability in [0, 1]. *)
Theorem fta_run_result (st : Store) (fuel : nat) (mid : Z) (d : Params)
    (nodes : list FTANode) (children_map : gmap Z (list Z)) (top_node : FTANode)
    (rank : Z -> nat) :
  fta_nodes_by_mission st mid = Ok nodes -> nodes <> [] ->
  build_children_map st nodes ∅ = Ok children_map ->
  fta_top_node st mid = Ok (Some top_node) ->
  map_Forall (fun k cs => Forall (fun c => (rank c < rank k)%nat) cs) children_map ->
  (rank (fn_id top_node) < fuel)%nat ->
  unit_probs (dict_of_nodes nodes) -> nonzero_probs (dict_of_nodes nodes) ->
  0 <= default (1 # 10) (sensitivity_delta d) ->
  exists res,
    _run_fta fuel st mid (Dict d) = Ok res
    /\ top_event_name res = fn_name top_node
    /\ 0 <= top_event_probability res <= 1
    /\ likelihood_level res = _probability_to_likelihood (top_event_probability res)
    /\ severity_level res
       = match fn_severity top_node with
         | Some s => if (s =? 0)%Z then default 3%Z (default_severity d) else s
         | None => default 3%Z (default_severity d)
         end
    /\ fta_risk_score res = (likelihood_level res * severity_level res)%Z
    /\ fta_risk_level res = value (from_score (fta_risk_score res))
    /\ Forall2 (fun n r => nr_node_id r = fn_id n /\ 0 <= nr_probability r <= 1)
               nodes (node_results res).
Proof.
  intros Hnodes Hne Hcm Htop Hdag Hfuel Hunit Hnz Hdelta.
  unfold _run_fta. rewrite Hnodes. cbn [mbind outcome_bind].
  destruct nodes as [|n0 ns] eqn:En; [done|]. rewrite <- En in *.
  rewrite Hcm. cbn [mbind outcome_bind]. rewrite Htop. cbn [mbind outcome_bind].
  destruct (calculate_top children_map rank Hdag (dict_of_nodes nodes) fuel
              (fn_id top_node) Hfuel) as (probs & Hcalc & Hp & Hall).
  pose proof (node_prob_mono _ _ children_map (raised_refl (dict_of_nodes nodes))
                Hunit Hunit) as Hrange.
  rewrite Hcalc. cbn [mbind outcome_bind].
  set (s_level := match fn_severity top_node with
                  | Some s => if (s =? 0)%Z then default 3%Z (default_severity d) else s
                  | None => default 3%Z (default_severity d)
                  end).
  assert (Hs : match fn_severity top_node with
               | Some s => if (s =? 0)%Z then params_get (Dict d) default_severity 3%Z
                           else Ok s
               | None => params_get (Dict d) default_severity 3%Z
               end = Ok s_level).
  { unfold s_level. destruct (fn_severity top_node) as [s|]; [|reflexivity].
    by destruct (s =? 0)%Z. }
  rewrite Hs. cbn [mbind outcome_bind params_get].
  destruct (sensitivity_analysis_ok children_map rank (dict_of_nodes nodes) fuel
              (fn_id top_node) (default (1 # 10) (sensitivity_delta d))
              (default 10%Z (top_n_sensitivity d)) Hdag Hunit Hnz Hfuel Hdelta)
    as (items & ->).
  cbn [mbind outcome_bind]. eexists. split; [reflexivity|].
  cbn [top_event_name top_event_probability likelihood_level severity_level
       fta_risk_score fta_risk_level node_results].
  split; [reflexivity|].
  split; [rewrite Hp; specialize (Hrange (S (rank (fn_id top_node))) (fn_id top_node)); lra|].
  split; [reflexivity|].
  split; [reflexivity|]. split; [reflexivity|].
  split; [apply get_risk_level_from_score|].
  apply Forall2_fmap_r, Forall_Forall2_diag, Forall_forall. intros n _.
  cbn [nr_node_id nr_probability]. split; [reflexivity|].
  destruct (probs !! fn_id n) as [v|] eqn:Ev; cbn; [|lra].
  rewrite (Hall _ _ Ev). specialize (Hrange (S (rank (fn_id n))) (fn_id n)). lra.
Qed.

End FTARun.

(** a tree given by its node list satisfies what its nodes satisfy *)
Lemma dict_of_nodes_Forall (P : Dao.FTANode -> Prop) (nodes : list Dao.FTANode) :
  Forall P nodes -> map_Forall (fun _ n => P n) (od_map (FTA.dict_of_nodes nodes)).
Proof.
  unfold FTA.dict_of_nodes.
  assert (H : forall d, map_Forall (fun _ n => P n) (od_map d) -> Forall P nodes ->
            map_Forall (fun _ n => P n)
              (od_map (fold_left (fun d n => od_set (Dao.fn_id n) n d) nodes d))).
  { induction nodes as [|n nodes IH]; intros d Hd Hall; [exact Hd|].
    inversion Hall as [|? ? Hn Hrest]; subst. cbn [fold_left]. apply IH; [|exact Hrest].
    cbn [od_set od_map]. by apply map_Forall_insert_2. }
  apply H. cbn. apply map_Forall_empty.
Qed.

(** a store that holds one fault tree and nothing else *)
Definition store_of_tree (nodes : list Dao.FTANode) (edges : gmap Z (list Z))
    (top : option Dao.FTANode) : Dao.Store :=
  {| Dao.risk_events_by_mission := fun _ => Ok [];
     Dao.fmea_items_by_mission := fun _ => Ok [];
     Dao.fta_nodes_by_mission := fun _ => Ok nodes;
     Dao.fta_children := fun id => Ok (default [] (edges !! id));
     Dao.fta_top_node := fun _ => Ok top;
     Dao.latest_dataset_by_mission := fun _ => Ok None;
     Dao.all_indicators := Ok [];
     Dao.indicator_values_by_mission := fun _ => Ok [] |}.

Definition or_nodes : list Dao.FTANode :=
  [FTA.mk_node 1 "TOP" "OR" None; FTA.mk_node 2 "BASIC" "" (Some (1 # 2)%Q);
   FTA.mk_node 3 "BASIC" "" (Some (1 # 4)%Q)].

Lemma or_nodes_dag :
  map_Forall (fun k cs => Forall (fun c => (FTA.two_input_rank c < FTA.two_input_rank k)%nat) cs)
             FTA.two_input_edges.
Proof. apply (bool_decide_unpack _). vm_compute. exact I. Qed.

Lemma or_nodes_unit : unit_probs (FTA.dict_of_nodes or_nodes).
Proof.
  apply (dict_of_nodes_Forall
           (fun n => Dao.node_type n = "BASIC" -> (0 <= basic_prob n <= 1)%Q)).
  unfold or_nodes.
  repeat (apply List.Forall_cons;
          [intros H; try discriminate H; vm_compute; split; discriminate|]).
  apply List.Forall_nil.
Qed.

Lemma or_nodes_nonzero : nonzero_probs (FTA.dict_of_nodes or_nodes).
Proof.
  apply (dict_of_nodes_Forall
           (fun n => Dao.node_type n = "BASIC" -> FTA.prob_truthy (Dao.probability n) = true)).
  unfold or_nodes.
  repeat (apply List.Forall_cons; [intros H; try discriminate H; reflexivity|]).
  apply List.Forall_nil.
Qed.

Lemma fta_probability_range_witness :
  exists probs,
    FTA._calculate_probabilities 2 1 (FTA.dict_of_nodes or_nodes) FTA.two_input_edges
    = Ok probs
    /\ (0 <= default 0 (probs !! 1%Z) <= 1)%Q.
Proof.
  destruct (fta_probability_range (FTA.dict_of_nodes or_nodes) FTA.two_input_edges
              FTA.two_input_rank or_nodes_dag 2 1) as (probs & H1 & _ & H3).
  - exact or_nodes_unit.
  - vm_compute. lia.
  - exists probs. auto.
Defined.

Lemma fta_probability_monotone_witness :
  exists probs probs',
    FTA._calculate_probabilities 2 1 (FTA.dict_of_nodes or_nodes) FTA.two_input_edges
    = Ok probs
    /\ FTA._calculate_probabilities 2 1
         (FTA.set_probability 2 (3 # 4) (FTA.dict_of_nodes or_nodes)) FTA.two_input_edges
       = Ok probs'
    /\ (default 0 (probs !! 1%Z) <= default 0 (probs' !! 1%Z))%Q.
Proof.
  destruct (fta_probability_monotone (FTA.dict_of_nodes or_nodes) FTA.two_input_edges
              FTA.two_input_rank or_nodes_dag 2 1 2
              (FTA.mk_node 2 "BASIC" "" (Some (1 # 2)%Q)) (3 # 4)%Q)
    as (probs & probs' & H1 & H2 & H3 & _).
  - exact or_nodes_unit.
  - vm_compute. lia.
  - reflexivity.
  - vm_compute. split; discriminate.
  - exists probs, probs'. split; [exact H1|]. split; [exact H2|].
    apply H3. vm_compute. discriminate.
Defined.

Lemma fta_sensitivity_brackets_witness :
  exists items,
    FTA._sensitivity_analysis 2 1 (FTA.dict_of_nodes or_nodes) FTA.two_input_edges
      (1 # 10) 10
    = (Ok items, FTA.dict_of_nodes or_nodes)
    /\ Z.of_nat (length items) = 2.
Proof.
  destruct (fta_sensitivity_brackets FTA.two_input_edges FTA.two_input_rank or_nodes_dag
              (FTA.dict_of_nodes or_nodes) 2 1 (1 # 10)%Q 10)
    as (probs & items & rest & _ & H2 & H3 & _).
  - exact or_nodes_unit.
  - exact or_nodes_nonzero.
  - vm_compute. lia.
  - vm_compute. discriminate.
  - lia.
  - exists items. split; [exact H2|]. rewrite H3. reflexivity.
Defined.

Lemma fta_unreachable_not_evaluated_witness :
  exists probs,
    FTA._calculate_probabilities 2 2 (FTA.dict_of_nodes or_nodes) FTA.two_input_edges
    = Ok probs
    /\ probs !! 2 = Some (1 # 2)%Q
    /\ probs !! 3 = None.
Proof.
  eexists. split; [vm_compute; reflexivity|]. split; [reflexivity|].
  apply (fta_unreachable_not_evaluated FTA.two_input_edges (FTA.dict_of_nodes or_nodes)
           2 2 _ ltac:(vm_compute; reflexivity) 3).
  intros H. inversion H as [|k c j Hc _]; subst.
  change (default [] (FTA.two_input_edges !! 2)) with (@nil Z) in Hc.
  by apply not_elem_of_nil in Hc.
Defined.

Lemma fta_run_result_witness :
  exists res,
    FTA._run_fta 2
      (store_of_tree or_nodes FTA.two_input_edges (Some (FTA.mk_node 1 "TOP" "OR" None)))
      1 (Base.Dict FTA.default_params) = Ok res
    /\ FTA.fta_risk_score res = (FTA.likelihood_level res * FTA.severity_level res)%Z.
Proof.
  destruct (fta_run_result
              (store_of_tree or_nodes FTA.two_input_edges
                 (Some (FTA.mk_node 1 "TOP" "OR" None)))
              2 1 FTA.default_params or_nodes FTA.two_input_edges
              (FTA.mk_node 1 "TOP" "OR" None) FTA.two_input_rank)
    as (res & H1 & _ & _ & _ & _ & H6 & _).
  - reflexivity.
  - discriminate.
  - vm_compute. reflexivity.
  - reflexivity.
  - exact or_nodes_dag.
  - vm_compute. lia.
  - exact or_nodes_unit.
  - exact or_nodes_nonzero.
  - vm_compute. discriminate.
  - exists res. auto.
Defined.

(** ** AHP: directions, live values, the per-indicator results *)

Section AHPDirections.
Import Dao Base AHP.
Local Open Scope R_scope.



Lemma sumf_scal' {A} (f : A -> R) (k : R) (l : list A) :
  sumf (fun r => f r * k) l = sumf f l * k.
Proof.
  rewrite (Rmult_comm _ k), <- sumf_scal. apply sumf_ext_in. intros; lra.
Qed.









End AHPDirections.

Section AHPLoaders.
Import Dao Base AHP.
Local Open Scope R_scope.



(** both loaders set [mu] and [sigma] on every entry *)
Definition has_sigma (d : IndicatorData) : Prop := is_Some (d_sigma d).

Lemma parse_entries_sigma (dflt : Z) (l : list DatasetEntry) :
  Forall has_sigma (parse_entries dflt l).
Proof.
  unfold parse_entries. apply Forall_forall. intros d Hd.
  apply list_elem_of_In, in_map_iff in Hd as (e & <- & _). unfold has_sigma. cbn. eauto.
Qed.

Lemma parse_dataset_sigma (ps : PyLib) (json : string) :
  Forall has_sigma (_parse_dataset ps json).
Proof.
  unfold _parse_dataset. destruct (loads_dataset ps json); [|constructor].
  apply Forall_app. split; apply parse_entries_sigma.
Qed.

(** what [_get_indicator_values] puts into an entry *)
Lemma get_indicator_values_entry (ps : PyLib) (st : Store) (mid : Z)
    (data : list IndicatorData) (d : IndicatorData) :
  _get_indicator_values ps st mid = Ok data -> d ∈ data ->
  exists inds ind mu sigma total,
    all_indicators st = Ok inds /\ ind ∈ inds
    /\ live_mu_sigma ps ind (d_value d) = (mu, sigma)
    /\ d_mu d = Some mu /\ d_sigma d = Some sigma
    /\ d_weight d = (if Rlt_dec 0 total then weight ind / total
                     else 1 / INR (length inds)).
Proof.
  unfold _get_indicator_values.
  destruct (all_indicators st) as [inds|e]; [|discriminate]. cbn [mbind outcome_bind].
  destruct (indicator_values_by_mission st mid) as [vals|e]; [|discriminate].
  cbn [mbind outcome_bind]. intros [= <-] Hd.
  apply list_elem_of_omap in Hd as (ind & Hind & Hf).
  destruct (_ !! ind_id ind) as [v|]; [|discriminate].
  destruct (float_of_str ps v) as [x|]; [|discriminate].
  destruct (live_mu_sigma ps ind x) as [mu sigma] eqn:Hl.
  injection Hf as <-. cbn [d_value d_mu d_sigma d_weight].
  eexists inds, ind, mu, sigma, _. repeat split; eauto.
Qed.

Lemma get_indicator_values_sigma (ps : PyLib) (st : Store) (mid : Z)
    (data : list IndicatorData) :
  _get_indicator_values ps st mid = Ok data -> Forall has_sigma data.
Proof.
  intros H. apply Forall_forall. intros d Hd.
  destruct (get_indicator_values_entry ps st mid data d H Hd)
    as (? & ? & ? & sigma & ? & _ & _ & _ & _ & Hs & _).
  unfold has_sigma. rewrite Hs. eauto.
Qed.

Lemma score_indicator_ratio (r1 r2 : R) (d : IndicatorData) :
  has_sigma d -> score_indicator r1 d = score_indicator r2 d.
Proof. intros [s Hs]. unfold score_indicator. by rewrite Hs. Qed.

Lemma evaluate_ratio (mid : Z) (data : list IndicatorData) (r1 r2 : R) (top_n : Z)
    (dir : string) :
  Forall has_sigma data ->
  evaluate mid data r1 top_n dir = evaluate mid data r2 top_n dir.
Proof.
  intros Hs. unfold evaluate. destruct data as [|d0 data0] eqn:Ed; [reflexivity|].
  rewrite <- Ed in *.
  replace (List.map (score_indicator r1) data) with (List.map (score_indicator r2) data);
    [reflexivity|].
  apply List.map_ext_in. intros d Hd. apply score_indicator_ratio.
  rewrite Forall_forall in Hs. apply Hs. by apply list_elem_of_In.
Qed.

(** [params] with another value, or none, under "default_sigma_ratio" *)
Definition with_default_sigma_ratio (q : option Q) (d : Params) : Params :=
  {| top_n := top_n d; analysis_type := analysis_type d;
     default_severity := default_severity d; sensitivity_delta := sensitivity_delta d;
     top_n_sensitivity := top_n_sensitivity d; use_dataset := use_dataset d;
     default_sigma_ratio := q; risk_direction := risk_direction d;
     n_samples := n_samples d; random_seed := random_seed d;
     run_risk_matrix := run_risk_matrix d; run_fmea := run_fmea d;
     run_ahp := run_ahp d |}.

(** X14. The parameter "default_sigma_ratio" has no effect on the AHP
    evaluation: both loaders put a sigma into every entry, so the
    fallback that uses the ratio is never taken, and [_run_ahp] returns
    (or raises) the same for every value of the parameter. *)
Theorem ahp_default_sigma_ratio_unused (ps : PyLib) (st : Store) (mid : Z) (d : Params)
    (q : option Q) :
  _run_ahp ps st mid (Dict (with_default_sigma_ratio q d)) = _run_ahp ps st mid (Dict d).
Proof.
  unfold _run_ahp. cbn [params_get mbind outcome_bind with_default_sigma_ratio
                        use_dataset default_sigma_ratio top_n risk_direction].
  set (load := if default true (use_dataset d) then _ else _).
  assert (Hload : forall data, load = Ok data -> Forall has_sigma data).
  { intros data. unfold load.
    destruct (default true (use_dataset d));
      [|apply get_indicator_values_sigma].
    destruct (latest_dataset_by_mission st mid) as [[ds|]|e]; cbn [mbind outcome_bind];
      [| apply get_indicator_values_sigma | discriminate].
    destruct (String.eqb (dataset_json ds) ""); [apply get_indicator_values_sigma|].
    intros [= <-]. apply parse_dataset_sigma. }
  destruct load as [data|e]; [|reflexivity]. cbn [mbind outcome_bind]. f_equal.
  apply evaluate_ratio. by apply Hload.
Qed.


End AHPLoaders.

Section AHPResults.
Import Dao Base AHP.
Local Open Scope R_scope.





End AHPResults.



(** a library whose [float] reads every string as 3.0, and a store with
    one indicator of weight 2 that has a value *)
Definition reading_lib : Dao.PyLib :=
  {| Dao.loads_dataset := fun _ => Raise (OtherError "Expecting value");
     Dao.loads_dist_params := fun _ => Raise (OtherError "Expecting value");
     Dao.float_of_str := fun _ => Ok 3%R;
     Dao.format_exc := fun _ => "Traceback (most recent call last)" |}.

Definition live_indicator : Dao.Indicator :=
  {| Dao.ind_id := 7; Dao.ind_name := "wind"; Dao.distribution_type := "normal";
     Dao.dist_params_json := ""; Dao.weight := 2%R |}.

Definition live_store : Dao.Store :=
  {| Dao.risk_events_by_mission := fun _ => Ok [];
     Dao.fmea_items_by_mission := fun _ => Ok [];
     Dao.fta_nodes_by_mission := fun _ => Ok [];
     Dao.fta_children := fun _ => Ok [];
     Dao.fta_top_node := fun _ => Ok None;
     Dao.latest_dataset_by_mission := fun _ => Ok None;
     Dao.all_indicators := Ok [live_indicator];
     Dao.indicator_values_by_mission := fun m =>
       Ok [{| Dao.iv_mission_id := m; Dao.iv_indicator_id := 7; Dao.iv_value := "3.0" |}] |}.

Definition live_params : Base.Params :=
  with_default_sigma_ratio None
    {| Base.top_n := None; Base.analysis_type := None; Base.default_severity := None;
       Base.sensitivity_delta := None; Base.top_n_sensitivity := None;
       Base.use_dataset := Some false; Base.default_sigma_ratio := None;
       Base.risk_direction := None; Base.n_samples := None; Base.random_seed := None;
       Base.run_risk_matrix := None; Base.run_fmea := None; Base.run_ahp := None |}.


(** ** Pipeline: mean and deviation of the continuous distributions *)

Section PipelineMuSigma.
Import Dao Pipeline.
Local Open Scope R_scope.




End PipelineMuSigma.

Section AHPLiveWeights.
Import Dao Base AHP.
Local Open Scope R_scope.

Lemma value_map_lookup (vals : list IndicatorValue) :
  forall (m0 : gmap Z string) (k : Z) (s : string),
    fold_left (fun m v => <[iv_indicator_id v := iv_value v]> m) vals m0 !! k = Some s ->
    m0 !! k = Some s \/ exists v, v ∈ vals /\ iv_value v = s.
Proof.
  induction vals as [|v vals IH]; intros m0 k s; cbn [fold_left]; [auto|].
  intros H. destruct (IH _ _ _ H) as [H0|(v' & Hv' & <-)].
  - rewrite lookup_insert in H0. case_decide; [|auto].
    injection H0 as <-. right. exists v. split; [by left | reflexivity].
  - right. exists v'. split; [by right | reflexivity].
Qed.

(** X18. Weights of live indicator values: when every stored value of
    the mission reads as a number and the indicators that have a value
    carry a positive total weight, [_get_indicator_values] returns one
    entry per indicator that has a value, and the weights of the entries
    add up to 1. *)
Theorem ahp_live_weights_normalised (ps : PyLib) (st : Store) (mid : Z)
    (inds : list Indicator) (vals : list IndicatorValue) :
  all_indicators st = Ok inds ->
  indicator_values_by_mission st mid = Ok vals ->
  Forall (fun v => exists x, float_of_str ps (iv_value v) = Ok x) vals ->
  let value_map : gmap Z string :=
    fold_left (fun m v => <[iv_indicator_id v := iv_value v]> m) vals ∅ in
  let valued := List.filter (fun ind => bool_decide (is_Some (value_map !! ind_id ind)))
                  inds in
  0 < py_sumR (List.map weight valued) ->
  exists data,
    _get_indicator_values ps st mid = Ok data
    /\ List.map d_indicator_id data = List.map ind_id valued
    /\ py_sumR (List.map d_weight data) = 1.
Proof.
  intros Hinds Hvals Hparse value_map valued Hpos.
  unfold _get_indicator_values. rewrite Hinds, Hvals. cbn [mbind outcome_bind].
  fold value_map. fold valued.
  set (T := py_sumR (List.map weight valued)) in *.
  set (N := INR (length inds)).
  eexists. split; [reflexivity|].
  assert (Hf : forall ind v, value_map !! ind_id ind = Some v ->
                 exists x, float_of_str ps v = Ok x).
  { intros ind v Hv. destruct (value_map_lookup vals ∅ _ _ Hv) as [H0|(v' & Hv' & <-)].
    - by rewrite lookup_empty in H0.
    - rewrite Forall_forall in Hparse. by apply Hparse. }
  assert (Hgen : forall l,
            (forall ind, In ind l -> True) ->
            let data := omap (fun ind =>
              match value_map !! ind_id ind with
              | None => None
              | Some v =>
                  match float_of_str ps v with
                  | Raise _ => None
                  | Ok x =>
                      let w := if Rlt_dec 0 T then weight ind / T else 1 / N in
                      let '(mu, sigma) := live_mu_sigma ps ind x in
                      Some {| d_indicator_id := ind_id ind; d_name := ind_name ind;
                              d_value := x; d_weight := w; d_mu := Some mu;
                              d_sigma := Some sigma |}
                  end
              end) l in
            let kept := List.filter
                          (fun ind => bool_decide (is_Some (value_map !! ind_id ind))) l in
            List.map d_indicator_id data = List.map ind_id kept
            /\ sumf d_weight data = sumf (fun ind => weight ind * / T) kept).
  { induction l as [|ind l IH]; intros _; [by split|].
    specialize (IH ltac:(auto)). cbn zeta in IH. destruct IH as [IH1 IH2].
    cbn [omap list_omap List.filter].
    destruct (value_map !! ind_id ind) as [v|] eqn:Ev.
    - destruct (Hf ind v Ev) as [x ->].
      destruct (live_mu_sigma ps ind x) as [mu sigma].
      rewrite bool_decide_true by eauto. cbn [List.map]. rewrite !sumf_cons.
      cbn [d_indicator_id d_weight]. split; [by f_equal|].
      rewrite IH2. destruct (Rlt_dec 0 T); [reflexivity | contradiction].
    - rewrite bool_decide_false by (intros [? ?]; discriminate). by split. }
  destruct (Hgen inds ltac:(auto)) as [H1 H2]. fold valued in H1, H2.
  split; [exact H1|]. rewrite py_sumR_map. etransitivity; [exact H2|].
  rewrite sumf_scal', <- py_sumR_map. fold T. field. lra.
Qed.

End AHPLiveWeights.

Lemma ahp_live_weights_normalised_witness :
  exists data,
    AHP._get_indicator_values reading_lib live_store 1 = Ok data
    /\ py_sumR (List.map AHP.d_weight data) = 1%R.
Proof.
  destruct (ahp_live_weights_normalised reading_lib live_store 1 [live_indicator]
              [{| Dao.iv_mission_id := 1; Dao.iv_indicator_id := 7;
                  Dao.iv_value := "3.0" |}])
    as (data & H1 & _ & H3).
  - reflexivity.
  - reflexivity.
  - repeat constructor. by exists 3%R.
  - vm_compute. lra.
  - exists data. auto.
Defined.

(** ** Monte Carlo: what is drawn, and the score that is sampled *)

Section MonteCarloSampling.
Import Dao Base MonteCarlo.
Local Open Scope R_scope.
Context {G : Type} (np : Numpy G).

(** X19. The table behind [_sample_discrete]: the nominal value is always
    a candidate; its lower neighbour is one exactly when it is not below
    [min_val], its upper neighbour exactly when it is not above [max_val];
    the probabilities handed to [np.random.choice] are 0.6/0.2/0.2 with
    both neighbours, 0.75/0.25 with one and 1 with none. A nominal value
    inside [min_val, max_val] gives candidates inside it; one outside is
    still drawn. *)
Theorem mc_sample_discrete_table (nominal min_val max_val : Z) :
  let lower := (min_val <=? nominal - 1)%Z in
  let upper := (nominal + 1 <=? max_val)%Z in
  exists cands probs,
    _sample_discrete np nominal min_val max_val = np_choice np (List.map IZR cands) probs
    /\ (lower = true -> upper = true ->
        cands = [nominal; nominal - 1; nominal + 1]%Z /\ probs = [0.6; 0.2; 0.2])
    /\ (lower = true -> upper = false ->
        cands = [nominal; nominal - 1]%Z /\ probs = [0.75; 0.25])
    /\ (lower = false -> upper = true ->
        cands = [nominal; nominal + 1]%Z /\ probs = [0.75; 0.25])
    /\ (lower = false -> upper = false -> cands = [nominal] /\ probs = [1])
    /\ length probs = length cands
    /\ py_sumR probs = 1
    /\ In nominal cands
    /\ ((min_val <= nominal <= max_val)%Z ->
        Forall (fun c => (min_val <= c <= max_val)%Z) cands).
Proof.
  intros lower upper. unfold _sample_discrete. fold lower upper.
  destruct lower eqn:Hl, upper eqn:Hu; subst lower upper; cbn [app List.map].
  - exists [nominal; nominal - 1; nominal + 1]%Z, [0.6; 0.2; 0.2].
    split; [f_equal; unfold py_sumR; cbn; repeat f_equal; lra|].
    repeat split; try discriminate; try (unfold py_sumR; cbn; lra); [by left|].
    intros H. apply Z.leb_le in Hl, Hu. repeat constructor; lia.
  - exists [nominal; nominal - 1]%Z, [0.75; 0.25].
    split; [f_equal; unfold py_sumR; cbn; repeat f_equal; lra|].
    repeat split; try discriminate; try (unfold py_sumR; cbn; lra); [by left|].
    intros H. apply Z.leb_le in Hl. repeat constructor; lia.
  - exists [nominal; nominal + 1]%Z, [0.75; 0.25].
    split; [f_equal; unfold py_sumR; cbn; repeat f_equal; lra|].
    repeat split; try discriminate; try (unfold py_sumR; cbn; lra); [by left|].
    intros H. apply Z.leb_le in Hu. repeat constructor; lia.
  - exists [nominal], [1].
    split; [f_equal; unfold py_sumR; cbn; repeat f_equal; lra|].
    repeat split; try discriminate; try (unfold py_sumR; cbn; lra); [by left|].
    intros H. repeat constructor; lia.
Qed.

End MonteCarloSampling.

Section MonteCarloAHPScore.
Import Dao Base MonteCarlo.
Local Open Scope R_scope.




End MonteCarloAHPScore.


Section MonteCarloRows.
Import Dao Base MonteCarlo.
Local Open Scope R_scope.
Context {G : Type} (np : Numpy G).

(** [np.random.choice] returns one of the candidates it is given *)
Hypothesis choice_member :
  forall cands probs g v g', cands <> [] ->
    np_choice np cands probs g = (Ok v, g') -> In v cands.

Lemma mapM_Forall2 {A B} (P : A -> B -> Prop) (f : A -> sampling G B) (l : list A) :
  (forall a g b g', In a l -> f a g = (Ok b, g') -> P a b) ->
  forall g bs g', mapM f l g = (Ok bs, g') -> Forall2 P l bs.
Proof.
  induction l as [|a l IH]; intros Hf g bs g'; cbn [mapM].
  - intros [= <- _]. constructor.
  - unfold mbind, sampling_bind. destruct (f a g) as [[b|e] g1] eqn:Ea; [|discriminate].
    destruct (mapM f l g1) as [[bs1|e] g2] eqn:El; [|discriminate].
    intros [= <- _]. constructor.
    + apply (Hf a g b g1); [by left | exact Ea].
    + apply (IH ltac:(intros; eapply Hf; [by right | eassumption]) g1 bs1 g2 El).
Qed.

Lemma repeatM_Forall {A} (Q : A -> Prop) (m : sampling G A) (n : nat) :
  (forall g a g', m g = (Ok a, g') -> Q a) ->
  forall g l g', repeatM n m g = (Ok l, g') -> Forall Q l /\ length l = n.
Proof.
  intros Hm. induction n as [|n IH]; intros g l g'; cbn [repeatM].
  - intros [= <- _]. by split.
  - unfold mbind, sampling_bind. destruct (m g) as [[a|e] g1] eqn:Ea; [|discriminate].
    destruct (repeatM n m g1) as [[l1|e] g2] eqn:El; [|discriminate].
    intros [= <- _]. destruct (IH g1 l1 g2 El) as [H1 H2].
    split; [constructor; [by apply (Hm g a g1) | exact H1] | cbn; by rewrite H2].
Qed.

Lemma sample_discrete_in_range (nominal min_val max_val : Z) (g g' : G) (v : R) :
  (min_val <= nominal <= max_val)%Z ->
  _sample_discrete np nominal min_val max_val g = (Ok v, g') ->
  exists c, v = IZR c /\ (min_val <= c <= max_val)%Z.
Proof.
  intros Hr. unfold _sample_discrete.
  destruct (Z.leb_spec min_val (nominal - 1)), (Z.leb_spec (nominal + 1) max_val);
    cbn [app]; intros Hc; apply choice_member in Hc; try discriminate;
    cbn [In] in Hc; repeat destruct Hc as [<-|Hc]; try destruct Hc; eexists;
    (split; [reflexivity | lia]).
Qed.

Lemma summarise_histogram (mtype gname : string) (n : Z)
    (entries : list (option Z * string * Z)) (rows : list (list R)) (high : Z)
    (r : MonteCarloResult) :
  summarise np mtype gname n entries rows high = Ok r ->
  histogram_data r = List.map py_sumR rows.
Proof.
  unfold summarise. destruct (mapM_state _ entries 0%nat) as [es|e]; [|discriminate].
  cbn [mbind outcome_bind].
  destruct (sample_stats np _ _) as [[[[[[? ?] ?] ?] ?] ?]|e]; [|discriminate].
  cbn [mbind outcome_bind]. by intros [= <-].
Qed.

Lemma py_sumR_bounds (a b : R) (row : list R) :
  Forall (fun v => a <= v <= b) row ->
  a * INR (length row) <= py_sumR row <= b * INR (length row).
Proof.
  assert (E : py_sumR row = sumf (fun x => x) row)
    by (rewrite <- py_sumR_map, List.map_id; reflexivity).
  rewrite E. clear E. induction 1 as [|v row Hv _ IH].
  - unfold sumf. cbn. lra.
  - rewrite sumf_cons. cbn [length]. rewrite S_INR. lra.
Qed.

(** X21. What the Monte Carlo analysis of the risk matrix draws: when
    [np.random.choice] returns one of its candidates and every event has
    L and S in 1..5, a run that returns has made [n_samples] turns, every
    sampled total lies between N and 25 N for N events, and the result
    handed on by [to_dict] keeps at most 100 of the totals. *)
Theorem mc_risk_matrix_samples (st : Store) (mid n_samples : Z)
    (events : list RiskEvent) (g g' : G) (r : MonteCarloResult) :
  risk_events_by_mission st (Some mid) = Ok events ->
  events <> [] ->
  Forall (fun e => (1 <= likelihood e <= 5)%Z /\ (1 <= severity e <= 5)%Z) events ->
  run_risk_matrix np st mid n_samples g = (Ok r, g') ->
  length (histogram_data r) = Z.to_nat n_samples
  /\ Forall (fun t => INR (length events) <= t <= 25 * INR (length events))
            (histogram_data r)
  /\ histogram_data (to_dict r) = firstn 100 (histogram_data r)
  /\ (length (histogram_data (to_dict r)) <= 100)%nat.
Proof.
  intros Hev Hne Hrange. unfold run_risk_matrix, lift. unfold mbind at 1, sampling_bind at 1.
  rewrite Hev. destruct events as [|e0 es] eqn:Ee; [done|]. rewrite <- Ee in *.
  unfold mbind, sampling_bind at 1.
  destruct (repeatM _ _ g) as [[rows|e] g1] eqn:Hrows; [|discriminate].
  destruct (summarise _ _ _ _ _ _ _) as [r'|e] eqn:Hsum; [|discriminate].
  intros [= <- _]. cbn [to_dict histogram_data].
  rewrite (summarise_histogram _ _ _ _ _ _ _ Hsum).
  apply (repeatM_Forall
           (fun row => Forall2 (fun (e : RiskEvent) v => 1 <= v <= 25) events row))
    in Hrows as [Hall Hlen].
  - split; [by rewrite length_map|]. split; [|split].
    + apply Forall_forall. intros t Ht. apply list_elem_of_In, in_map_iff in Ht as (row & <- & Hrow).
      rewrite Forall_forall in Hall. apply list_elem_of_In in Hrow.
      specialize (Hall row Hrow). rewrite (Forall2_length _ _ _ Hall).
      replace (INR (length row)) with (1 * INR (length row)) at 1 by lra.
      apply py_sumR_bounds. clear -Hall. induction Hall; constructor; auto.
    + reflexivity.
    + rewrite length_take. lia.
  - intros g2 row g3. apply mapM_Forall2. intros e g4 v g5 He.
    unfold mbind, sampling_bind, mret, sampling_ret.
    destruct (_sample_discrete np (likelihood e) 1 5 g4) as [[lv|?] g6] eqn:El;
      [|discriminate].
    destruct (_sample_discrete np (severity e) 1 5 g6) as [[sv|?] g7] eqn:Es;
      [|discriminate].
    intros [= <- _]. rewrite Forall_forall in Hrange.
    destruct (Hrange e ltac:(by apply list_elem_of_In)) as [HL HS].
    apply (sample_discrete_in_range _ _ _ _ _ _ HL) in El as (cl & -> & Hcl).
    apply (sample_discrete_in_range _ _ _ _ _ _ HS) in Es as (cs & -> & Hcs).
    rewrite <- mult_IZR. split; apply IZR_le; nia.
Qed.

End MonteCarloRows.

Lemma counter_numpy_choice (cands probs : list R) (g : nat) (v : R) (g' : nat) :
  cands <> [] ->
  MonteCarlo.np_choice Models.counter_numpy cands probs g = (Ok v, g') -> In v cands.
Proof. destruct cands as [|c cands]; [done|]. intros _ [= <- _]. by left. Qed.

Lemma mc_risk_matrix_samples_witness :
  exists r g',
    MonteCarlo.run_risk_matrix Models.counter_numpy
      (Models.store_of_events [Models.mk_event 1 3 5]) 1 2 0%nat = (Ok r, g')
    /\ length (MonteCarlo.histogram_data r) = 2%nat.
Proof.
  destruct (MonteCarlo.run_risk_matrix Models.counter_numpy
              (Models.store_of_events [Models.mk_event 1 3 5]) 1 2 0%nat)
    as [[r|e] g'] eqn:E.
  - exists r, g'. split; [reflexivity|].
    apply (mc_risk_matrix_samples Models.counter_numpy counter_numpy_choice
             (Models.store_of_events [Models.mk_event 1 3 5]) 1 2
             [Models.mk_event 1 3 5] 0%nat g' r).
    + reflexivity.
    + discriminate.
    + repeat constructor; simpl; lia.
    + exact E.
  - exfalso. cbv -[Rplus Rmult Rdiv Rminus IZR INR py_roundR exp sqrt Rle_dec Rlt_dec] in E.
    discriminate E.
Defined.

(** ** Parameter schemas *)

Section SchemaValidation.
Import Schema.

Lemma validate_params_valid (schema : list ParamSpec) (params : gmap string PyVal) :
  validate_params schema params = Valid
  <-> Forall (fun spec => forall v, params !! sp_name spec = Some v ->
                          check_spec spec v = Valid) schema.
Proof.
  induction schema as [|spec rest IH]; cbn [validate_params].
  - split; [constructor | reflexivity].
  - destruct (params !! sp_name spec) as [v|] eqn:Ev.
    + destruct (check_spec spec v) eqn:Ec.
      * rewrite IH. split.
        -- intros H. constructor; [|exact H]. intros v' Hv'. congruence.
        -- intros H. by inversion H.
      * split; [discriminate|]. intros H. inversion H as [|? ? Hs _]; subst.
        specialize (Hs v ltac:(congruence)). congruence.
      * split; [discriminate|]. intros H. inversion H as [|? ? Hs _]; subst.
        specialize (Hs v ltac:(congruence)). congruence.
      * split; [discriminate|]. intros H. inversion H as [|? ? Hs _]; subst.
        specialize (Hs v ltac:(congruence)). congruence.
      * split; [discriminate|]. intros H. inversion H as [|? ? Hs _]; subst.
        specialize (Hs v ltac:(congruence)). congruence.
      * split; [discriminate|]. intros H. inversion H as [|? ? Hs _]; subst.
        specialize (Hs v ltac:(congruence)). congruence.
    + rewrite IH. split.
      * intros H. constructor; [|exact H]. intros v' Hv'. congruence.
      * intros H. by inversion H.
Qed.

(** X22. What [validate_params] checks and what it lets through: the
    params are valid exactly when every parameter of the schema that is
    given passes its own check; a key that no spec names is ignored;
    parameters of type STR and BOOL are never rejected, whatever value
    they hold; a bool passes as an INT (as 1 or 0) and an int passes as a
    FLOAT, while a float never passes as an INT. *)
Theorem validate_params_lenient (schema : list ParamSpec) (params : gmap string PyVal) :
  (validate_params schema params = Valid
   <-> Forall (fun spec => forall v, params !! sp_name spec = Some v ->
                           check_spec spec v = Valid) schema)
  /\ (forall k v, Forall (fun spec => sp_name spec <> k) schema ->
        validate_params schema (<[k := v]> params) = validate_params schema params)
  /\ (forall spec v, sp_type spec = STR \/ sp_type spec = BOOL ->
        check_spec spec v = Valid)
  /\ (forall spec b, sp_type spec = INT ->
        check_spec spec (VBool b) = check_spec spec (VInt (if b then 1 else 0)))
  /\ (forall spec n, sp_type spec = FLOAT ->
        check_spec spec (VInt n) = check_spec spec (VFloat (inject_Z n)))
  /\ (forall spec q, sp_type spec = INT ->
        check_spec spec (VFloat q) = NotInt (sp_label spec)).
Proof.
  split; [apply validate_params_valid|]. split.
  { intros k v. induction 1 as [|spec rest Hne _ IH]; [reflexivity|].
    cbn [validate_params]. rewrite lookup_insert_ne by congruence. rewrite IH.
    reflexivity. }
  split; [intros spec v [H|H]; unfold check_spec; by rewrite H|].
  split; [intros spec b H; unfold check_spec; by rewrite H|].
  split; [intros spec n H; unfold check_spec; by rewrite H|].
  intros spec q H. unfold check_spec. by rewrite H.
Qed.

(** X23. The defaults of every registered model pass its own schema, and
    so does the empty dict; the bounds are inclusive (top_n = 1 and
    top_n = 50 pass, 0 and 51 do not). *)
Theorem default_params_valid (m : Models.RegisteredModel) :
  validate_params (param_schema m) (get_default_params (param_schema m)) = Valid
  /\ validate_params (param_schema m) ∅ = Valid
  /\ (forall n,
        validate_params (param_schema Models.RiskMatrixModel) {["top_n" := VInt n]} = Valid
        <-> 1 <= n <= 50).
Proof.
  split; [by destruct m|]. split; [by destruct m|].
  intros n. cbn [validate_params param_schema int_spec sp_name].
  rewrite lookup_singleton_eq. unfold check_spec, int_spec, check_bounds.
  cbn [sp_type as_int min_value max_value sp_label].
  destruct (Qltb (inject_Z n) (inject_Z 1)) eqn:E1.
  { apply Qltb_true in E1. rewrite <- Zlt_Qlt in E1. split; [discriminate | lia]. }
  apply Qltb_false in E1. rewrite <- Zle_Qle in E1.
  destruct (Qltb (inject_Z 50) (inject_Z n)) eqn:E2.
  { apply Qltb_true in E2. rewrite <- Zlt_Qlt in E2. split; [discriminate | lia]. }
  apply Qltb_false in E2. rewrite <- Zle_Qle in E2. split; [lia | reflexivity].
Qed.

End SchemaValidation.

(** ** Fusion of indicators *)

Section FusionValue.
Import Dao Fusion.
Local Open Scope R_scope.

Lemma fold_py_maxR_bounds (a b : R) (l : list R) :
  Forall (fun v => a <= v <= b) l -> forall acc, a <= acc <= b ->
  a <= fold_left py_maxR l acc <= b.
Proof.
  induction 1 as [|v l Hv _ IH]; intros acc Hacc; cbn [fold_left]; [exact Hacc|].
  apply IH. unfold py_maxR. destruct (Rlt_dec acc v); lra.
Qed.

Lemma fold_py_minR_bounds (a b : R) (l : list R) :
  Forall (fun v => a <= v <= b) l -> forall acc, a <= acc <= b ->
  a <= fold_left py_minR l acc <= b.
Proof.
  induction 1 as [|v l Hv _ IH]; intros acc Hacc; cbn [fold_left]; [exact Hacc|].
  apply IH. unfold py_minR. destruct (Rlt_dec v acc); lra.
Qed.

Lemma mean_bounds (a b : R) (l : list R) :
  l <> [] -> Forall (fun v => a <= v <= b) l -> a <= mean l <= b.
Proof.
  intros Hne Hall. pose proof (py_sumR_bounds a b l Hall) as [H1 H2].
  assert (Hn : 0 < INR (length l)).
  { apply lt_0_INR. destruct l; [done | cbn; lia]. }
  unfold mean. split.
  - apply (Rmult_le_reg_r (INR (length l))); [exact Hn|].
    unfold Rdiv. rewrite Rmult_assoc, Rinv_l, Rmult_1_r by lra. exact H1.
  - apply (Rmult_le_reg_r (INR (length l))); [exact Hn|].
    unfold Rdiv. rewrite Rmult_assoc, Rinv_l, Rmult_1_r by lra. exact H2.
Qed.

Lemma weighted_uniform (k : R) (l : list R) (n : nat) :
  n = length l -> weighted (repeat k n) l = k * py_sumR l.
Proof.
  intros ->. unfold weighted. rewrite py_sumR_map.
  assert (E : py_sumR l = sumf (fun x => x) l)
    by (rewrite <- py_sumR_map, List.map_id; reflexivity).
  rewrite E. clear E. induction l as [|v l IH]; [unfold sumf; cbn; lra|].
  cbn [length repeat combine]. rewrite !sumf_cons, IH. cbn [fst snd]. lra.
Qed.

(** X24. Applying a fusion rule. Without a usable input the result
    carries the error "无有效输入值" and the value 0. Otherwise there is no
    error, and the fused value lies between any bounds of the input values
    under every method except "weighted_sum" with a list of weights of the
    right length, where it is the plain sum of w * v (the weights are not
    normalised); with weights that cannot be read, or of another length,
    "weighted_sum" gives the mean. *)
Theorem fusion_rule_value (src : Sources) (rule : FusionRule) (mission_id : Z)
    (ids : list Z) :
  loads_ids src (input_indicator_ids rule) = Ok (Some ids) ->
  let inputs := gather src mission_id ids in
  let values := List.map in_value inputs in
  exists res,
    apply_fusion_rule src rule mission_id = Ok res
    /\ fr_method res = method rule
    /\ (inputs = [] ->
        fr_error res = Some "无有效输入值" /\ fr_value res = 0 /\ fr_inputs res = [])
    /\ (inputs <> [] ->
        fr_error res = None /\ fr_inputs res = inputs
        /\ (method rule <> "weighted_sum" ->
            forall a b, Forall (fun v => a <= v <= b) values -> a <= fr_value res <= b)
        /\ (method rule = "weighted_sum" ->
            match loads_weights src (weights_json rule) with
            | Ok weights =>
                if Nat.eqb (length weights) (length values)
                then fr_value res = weighted weights values
                else fr_value res = mean values
            | Raise _ => fr_value res = mean values
            end)).
Proof.
  intros Hids inputs values. unfold apply_fusion_rule. rewrite Hids.
  cbn [mbind outcome_bind]. fold inputs. fold values.
  destruct inputs as [|i0 inputs0] eqn:Ei.
  { subst values. cbn [List.map]. eexists. split; [reflexivity|]. split; [reflexivity|].
    split; [by intros _ | by intros H]. }
  assert (Hv : values <> []) by (subst values; discriminate).
  destruct values as [|v0 values0] eqn:Ev; [done|]. rewrite <- Ev in *.
  eexists. split; [reflexivity|]. split; [reflexivity|]. split; [discriminate|].
  intros _. cbn [fr_error fr_inputs fr_value]. split; [reflexivity|].
  split; [reflexivity|]. unfold fused_value. split.
  - intros Hm a b Hall. apply String.eqb_neq in Hm. rewrite Hm.
    destruct (String.eqb (method rule) "mean"); [by apply mean_bounds|].
    assert (Hhd : a <= hd 0 values <= b /\ Forall (fun v => a <= v <= b) (tl values)).
    { rewrite Ev in *. inversion Hall; subst. by split. }
    destruct Hhd as [Hhd Htl].
    destruct (String.eqb (method rule) "max"); [by apply fold_py_maxR_bounds|].
    destruct (String.eqb (method rule) "min"); [by apply fold_py_minR_bounds|].
    by apply mean_bounds.
  - intros Hm. rewrite Hm.
    change (String.eqb "weighted_sum" "mean") with false.
    change (String.eqb "weighted_sum" "weighted_sum") with true. cbv iota.
    destruct (loads_weights src (weights_json rule)) as [weights|e]; [|reflexivity].
    destruct (Nat.eqb (length weights) (length values)); [reflexivity|].
    rewrite weighted_uniform by reflexivity. unfold mean, Rdiv. ring.
Qed.

End FusionValue.

(** a source with two indicators whose values read 2.0 and 4.0 *)
Definition two_inputs : Fusion.Sources :=
  {| Fusion.indicator_by_id := fun id =>
       Some {| Dao.ind_id := id; Dao.ind_name := "x"; Dao.distribution_type := "normal";
               Dao.dist_params_json := ""; Dao.weight := 1%R |};
     Fusion.value_by_indicator := fun m id =>
       Some {| Dao.iv_mission_id := m; Dao.iv_indicator_id := id; Dao.iv_value := "v" |};
     Fusion.float_of_value := fun _ => Ok 2%R;
     Fusion.loads_ids := fun _ => Ok (Some [1; 2]);
     Fusion.loads_weights := fun _ => Ok [1%R; 1%R] |}.

Lemma fusion_rule_value_witness :
  exists res,
    Fusion.apply_fusion_rule two_inputs
      {| Fusion.rule_id := Some 1; Fusion.input_indicator_ids := "[1, 2]";
         Fusion.method := "max"; Fusion.weights_json := "[]";
         Fusion.output_indicator_name := "fused"; Fusion.output_unit := "" |} 1 = Ok res
    /\ Fusion.fr_method res = "max".
Proof.
  destruct (fusion_rule_value two_inputs
              {| Fusion.rule_id := Some 1; Fusion.input_indicator_ids := "[1, 2]";
                 Fusion.method := "max"; Fusion.weights_json := "[]";
                 Fusion.output_indicator_name := "fused"; Fusion.output_unit := "" |}
              1 [1; 2]) as (res & H1 & H2 & _).
  - reflexivity.
  - exists res. auto.
Defined.

(** ** Sensitivity: which analysis runs, and its Top-N *)

Section SensitivityRun.
Import Dao Types Base Sensitivity.

Lemma top_n_of_sorted (top_n : Z) (fs : list SensitivityFactor) :
  0 <= top_n ->
  let top := py_slice_to top_n (sorted_desc (by_Q sf_impact_score) fs) in
  exists rest,
    Permutation fs (top ++ rest)
    /\ StronglySorted (fun a b => (sf_impact_score b <= sf_impact_score a)%Q) (top ++ rest)
    /\ Z.of_nat (length top) = Z.min top_n (Z.of_nat (length fs)).
Proof.
  intros Hn top. subst top.
  destruct (py_slice_to_nonneg top_n (sorted_desc (by_Q sf_impact_score) fs) Hn)
    as [Hslice Hlen].
  exists (skipn (Z.to_nat top_n) (sorted_desc (by_Q sf_impact_score) fs)).
  rewrite Hlen, Hslice, firstn_skipn. split; [apply sorted_desc_perm|]. split.
  - apply (sorted_desc_sorted (by_Q sf_impact_score)
             (fun a b => (sf_impact_score a <= sf_impact_score b)%Q)).
    + intros x y z. apply Qle_trans.
    + intros x y H. apply Qltb_true in H. by apply Qlt_le_weak.
    + intros x y H. by apply Qltb_false in H.
  - by rewrite <- (Permutation_length (sorted_desc_perm _ _)).
Qed.

(** X25. The sensitivity model's run: the analysis of the risk matrix
    runs exactly when "analysis_type" is "risk_matrix" (the default); any
    other string, not only "fmea", runs the FMEA analysis. With
    [top_n >= 0] the run succeeds, reports the total as base value, and
    its Top-N are the first [min(top_n, 2 * entries)] factors in
    descending order of impact. *)
Theorem sensitivity_run_top_n (st : Store) (ctx : Context) (d : Params)
    (events : list RiskEvent) (items : list FMEAItem) :
  ctx_params ctx = Some (Dict d) ->
  0 <= default 10 (top_n d) ->
  risk_events_by_mission st (ctx_mission_id ctx) = Ok events ->
  fmea_items_by_mission st (ctx_mission_id ctx) = Ok items ->
  let on_matrix := String.eqb (default "risk_matrix" (analysis_type d)) "risk_matrix" in
  exists m dt rest,
    Sensitivity.run st ctx = Ok m /\ success m = true /\ data m = Some dt
    /\ sd_analysis_type dt = default "risk_matrix" (analysis_type d)
    /\ sr_model_type (sd_result dt) = (if on_matrix then "risk_matrix" else "fmea")
    /\ sd_base_value dt
       = inject_Z (if on_matrix
                   then py_sum (List.map (fun e => likelihood e * severity e) events)
                   else py_sum (List.map (fun i => fi_S i * fi_O i * fi_D i) items))
    /\ Permutation (factors (sd_result dt)) (sr_top_n (sd_result dt) ++ rest)
    /\ StronglySorted (fun a b => (sf_impact_score b <= sf_impact_score a)%Q)
         (sr_top_n (sd_result dt) ++ rest)
    /\ sd_top_n_count dt
       = Z.min (default 10 (top_n d))
               (2 * Z.of_nat (if on_matrix then length events else length items)).
Proof.
  intros Hp Hn Hev Hit on_matrix. unfold Sensitivity.run. rewrite Hp.
  cbn [default from_option Datatypes.id params_get mbind outcome_bind].
  fold on_matrix. destruct on_matrix.
  - unfold run_risk_matrix. rewrite Hev. cbn [mbind outcome_bind].
    destruct events as [|e0 es] eqn:Ee.
    { cbn [try_except mbind outcome_bind]. eexists _, _, []. split; [reflexivity|].
      do 5 (split; [reflexivity|]). split; [constructor|]. split; [constructor|].
      cbn [data sd_top_n_count sr_top_n length]. cbv beta iota. cbn [length]. lia. }
    rewrite <- Ee in *. cbn [try_except mbind outcome_bind].
    match goal with
    | |- context [py_slice_to _ (sorted_desc _ ?fs)] =>
        destruct (top_n_of_sorted (default 10 (top_n d)) fs Hn) as (rest & H1 & H2 & H3);
        assert (Hlen : length fs = (2 * length events)%nat)
          by apply concat_pairs_length
    end.
    eexists _, _, rest. split; [reflexivity|].
    cbn [success data sd_analysis_type sd_result sd_base_value sd_top_n_count
         sr_model_type base_global_value factors sr_top_n].
    split; [reflexivity|]. split; [reflexivity|]. split; [reflexivity|].
    split; [reflexivity|]. split; [reflexivity|]. split; [exact H1|].
    split; [exact H2|]. cbn [sd_top_n_count sd_result sr_top_n].
    rewrite H3, Hlen. cbv beta iota. lia.
  - unfold run_fmea. rewrite Hit. cbn [mbind outcome_bind].
    destruct items as [|i0 its] eqn:Ei.
    { cbn [try_except mbind outcome_bind]. eexists _, _, []. split; [reflexivity|].
      do 5 (split; [reflexivity|]). split; [constructor|]. split; [constructor|].
      cbn [data sd_top_n_count sr_top_n length]. cbv beta iota. cbn [length]. lia. }
    rewrite <- Ei in *. cbn [try_except mbind outcome_bind].
    match goal with
    | |- context [py_slice_to _ (sorted_desc _ ?fs)] =>
        destruct (top_n_of_sorted (default 10 (top_n d)) fs Hn) as (rest & H1 & H2 & H3);
        assert (Hlen : length fs = (2 * length items)%nat)
          by apply concat_pairs_length
    end.
    eexists _, _, rest. split; [reflexivity|].
    cbn [success data sd_analysis_type sd_result sd_base_value sd_top_n_count
         sr_model_type base_global_value factors sr_top_n].
    split; [reflexivity|]. split; [reflexivity|]. split; [reflexivity|].
    split; [reflexivity|]. split; [reflexivity|]. split; [exact H1|].
    split; [exact H2|]. cbn [sd_top_n_count sd_result sr_top_n].
    rewrite H3, Hlen. cbv beta iota. lia.
Qed.

End SensitivityRun.

Lemma sensitivity_run_top_n_witness :
  exists m dt,
    Sensitivity.run (Models.store_of_events [Models.mk_event 1 3 5; Models.mk_event 2 1 4])
      {| Base.ctx_mission_id := Some 1;
         Base.ctx_params := Some (Base.Dict live_params) |} = Ok m
    /\ Base.data m = Some dt
    /\ Sensitivity.sd_top_n_count dt = 4.
Proof.
  destruct (sensitivity_run_top_n
              (Models.store_of_events [Models.mk_event 1 3 5; Models.mk_event 2 1 4])
              {| Base.ctx_mission_id := Some 1;
                 Base.ctx_params := Some (Base.Dict live_params) |}
              live_params [Models.mk_event 1 3 5; Models.mk_event 2 1 4] [])
    as (m & dt & rest & H1 & _ & H3 & _ & _ & _ & _ & _ & H9).
  - reflexivity.
  - cbn. lia.
  - reflexivity.
  - reflexivity.
  - exists m, dt. split; [exact H1|]. split; [exact H3|]. rewrite H9. reflexivity.
Defined.

(** ** FMEA: Top-N and level counts *)

Section FMEAAggregates.
Import Dao Types Base FMEA.

(** number of items of level [lv] *)
Definition items_of_level (lv : RiskLevel) (items : list FMEAItem) : Z :=
  Z.of_nat (length (List.filter
    (fun i => String.eqb (value lv) (value (from_rpn (fi_S i * fi_O i * fi_D i)))) items)).

Lemma items_of_level_cons (lv : RiskLevel) (i : FMEAItem) (items : list FMEAItem) :
  items_of_level lv (i :: items)
  = (if String.eqb (value lv) (value (from_rpn (fi_S i * fi_O i * fi_D i)))
     then 1 else 0) + items_of_level lv items.
Proof.
  unfold items_of_level. cbn [List.filter].
  destruct (String.eqb _ _); cbn [length]; lia.
Qed.

Lemma items_of_level_total (items : list FMEAItem) :
  items_of_level LOW items + items_of_level MEDIUM items
  + items_of_level HIGH items + items_of_level EXTREME items
  = Z.of_nat (length items).
Proof.
  induction items as [|i items IH]; [reflexivity|]. rewrite !items_of_level_cons.
  assert (H1 : (if String.eqb (value LOW) (value (from_rpn (fi_S i * fi_O i * fi_D i)))
                then 1 else 0)
               + (if String.eqb (value MEDIUM)
                       (value (from_rpn (fi_S i * fi_O i * fi_D i))) then 1 else 0)
               + (if String.eqb (value HIGH)
                       (value (from_rpn (fi_S i * fi_O i * fi_D i))) then 1 else 0)
               + (if String.eqb (value EXTREME)
                       (value (from_rpn (fi_S i * fi_O i * fi_D i))) then 1 else 0) = 1)
    by (by destruct (from_rpn _)).
  cbn [length]. lia.
Qed.

(** X26. Aggregates of the FMEA run: for [top_n >= 0] the Top-N are
    the first [min(top_n, number of items)] results in descending order
    of RPN; each level count is the number of items of that level, and
    the four counts add up to the number of items. *)
Theorem fmea_aggregates (st : Store) (ctx : Context) (mid : Z) (d : Params)
    (items : list FMEAItem) :
  ctx_mission_id ctx = Some mid ->
  ctx_params ctx = Some (Dict d) ->
  0 <= default 10 (top_n d) ->
  fmea_items_by_mission st (Some mid) = Ok items ->
  exists m dt rest,
    FMEA.run st ctx = Ok m /\ success m = true /\ data m = Some dt
    /\ Permutation (fm_items (fd_result dt)) (fm_top_n (fd_result dt) ++ rest)
    /\ StronglySorted (fun a b => RPN b <= RPN a) (fm_top_n (fd_result dt) ++ rest)
    /\ fd_top_n_count dt = Z.min (default 10 (top_n d)) (Z.of_nat (length items))
    /\ (forall lv, fd_level_counts dt !! value lv = Some (items_of_level lv items))
    /\ items_of_level LOW items + items_of_level MEDIUM items
       + items_of_level HIGH items + items_of_level EXTREME items
       = Z.of_nat (length items).
Proof.
  intros Hid Hp Hn Hit. unfold FMEA.run, run_body. rewrite Hid, Hp.
  cbn [default from_option Datatypes.id params_get mbind outcome_bind]. rewrite Hit.
  cbn [mbind outcome_bind].
  destruct items as [|i0 its] eqn:Ei.
  { cbn [try_except]. eexists _, _, []. split; [reflexivity|].
    do 2 (split; [reflexivity|]). split; [constructor|]. split; [constructor|].
    split; [cbn; lia|]. split; [by intros []|reflexivity]. }
  rewrite <- Ei in *. clear Ei i0 its. cbn [try_except].
  destruct (sorted_desc_by_Z RPN (List.map score_item items)) as [Hperm Hsorted].
  destruct (py_slice_to_nonneg (default 10 (top_n d))
              (sorted_desc (by_Z RPN) (List.map score_item items)) Hn) as [Hslice Hlen].
  eexists _, _, (skipn (Z.to_nat (default 10 (top_n d)))
                   (sorted_desc (by_Z RPN) (List.map score_item items))).
  split; [reflexivity|]. do 2 (split; [reflexivity|]).
  cbn [fd_result fm_items fm_top_n fd_top_n_count fd_level_counts].
  rewrite Hlen, Hslice, firstn_skipn. split; [exact Hperm|]. split; [exact Hsorted|].
  split; [by rewrite <- (Permutation_length Hperm), length_map|].
  split; [|apply items_of_level_total].
  intros lv. rewrite count_levels_lookup.
  assert (RiskMatrix.zero_level_counts !! value lv = Some 0) as -> by (by destruct lv).
  assert (length (List.filter (String.eqb (value lv))
                    (List.map fir_level (List.map score_item items)))
          = length (List.filter
                  (fun i => String.eqb (value lv)
                              (value (from_rpn (fi_S i * fi_O i * fi_D i)))) items))
    as ->.
  { clear. induction items as [|i items IH]; [reflexivity|]. cbn.
    destruct (String.eqb _ _); cbn; by rewrite IH. }
  unfold items_of_level. cbn. f_equal.
Qed.

End FMEAAggregates.

Lemma fmea_aggregates_witness :
  exists m dt,
    FMEA.run (store_of_items [mk_item 1 7 5 3; mk_item 2 10 10 10])
      {| Base.ctx_mission_id := Some 1;
         Base.ctx_params := Some (Base.Dict live_params) |} = Ok m
    /\ Base.data m = Some dt /\ FMEA.fd_top_n_count dt = 2.
Proof.
  destruct (fmea_aggregates (store_of_items [mk_item 1 7 5 3; mk_item 2 10 10 10])
              {| Base.ctx_mission_id := Some 1;
                 Base.ctx_params := Some (Base.Dict live_params) |}
              1 live_params [mk_item 1 7 5 3; mk_item 2 10 10 10])
    as (m & dt & rest & H1 & _ & H3 & _ & _ & H6 & _).
  - reflexivity.
  - reflexivity.
  - cbn. lia.
  - reflexivity.
  - exists m, dt. split; [exact H1|]. split; [exact H3|]. rewrite H6. reflexivity.
Defined.
